(** * BUDC controller: the SCPI transport and polling layer (budc_scpi.c)

    A shallow embedding of [budc_scpi.c] and the properties of its
    transport, retrying getters, lock-wait loop and connection lifecycle.

    The C functions run against libserialport and the C library.  Both are
    outside the repository, so what they answer is an input of the model
    (the record [platform]); what the code does with those answers is
    translated function by function.  State that the code threads through
    calls (the heap of port and handle objects, elapsed time, the sequence
    of library calls) lives in the record [world]. *)

From Stdlib Require Import ZArith List String Ascii Bool Lia.
From Stdlib Require Import Floats.SpecFloat.
From stdpp Require Import gmap strings.

Local Open Scope string_scope.
Local Open Scope Z_scope.

(** ** C strings and <ctype.h> *)

(** [isspace] and [isdigit] in the "C" locale. *)
Definition isspace (c : ascii) : bool :=
  let n := N_of_ascii c in ((9 <=? n) && (n <=? 13) || (n =? 32))%N.

Definition isdigit (c : ascii) : bool :=
  let n := N_of_ascii c in ((48 <=? n) && (n <=? 57))%N.

Definition digit_value (c : ascii) : Z := Z.of_N (N_of_ascii c) - 48.

(** The C string held by a byte buffer: everything before the first NUL. *)
Fixpoint cstr (bytes : string) : string :=
  match bytes with
  | EmptyString => EmptyString
  | String c r => if Ascii.eqb c Ascii.zero then EmptyString else String c (cstr r)
  end.

Definition strlen (s : string) : Z := Z.of_nat (String.length s).

(** [strchr(s, c) != NULL] *)
Fixpoint strchr (s : string) (c : ascii) : bool :=
  match s with
  | EmptyString => false
  | String d r => Ascii.eqb d c || strchr r c
  end.

(** [snprintf(buf, size, ...)] keeps at most [size - 1] characters. *)
Fixpoint truncate (n : nat) (s : string) : string :=
  match n, s with
  | S n', String c r => String c (truncate n' r)
  | _, _ => EmptyString
  end.

(** *** trim_whitespace *)

(** The forward scan of [trim_whitespace]: [start] is advanced while it
    points at white space. *)
Fixpoint skip_space (s : string) : string :=
  match s with
  | String c r => if isspace c then skip_space r else s
  | EmptyString => EmptyString
  end.

(** Dropping the white space at the end of a string. *)
Fixpoint rstrip (s : string) : string :=
  match s with
  | EmptyString => EmptyString
  | String c r =>
      match rstrip r with
      | EmptyString => if isspace c then EmptyString else String c EmptyString
      | r' => String c r'
      end
  end.

(** [trim_whitespace(str)]: the content of [str] afterwards.  The backward
    scan stops at [start] ([end > start]), so the first character after the
    leading white space is never examined by it. *)
Definition trim_whitespace (str : string) : string :=
  match str with
  | EmptyString => EmptyString
  | _ =>
      match skip_space str with
      | EmptyString => EmptyString
      | String c r => String c (rstrip r)
      end
  end.

(** *** atoi *)

Fixpoint digits_value (acc : Z) (s : string) : Z :=
  match s with
  | String c r => if isdigit c then digits_value (10 * acc + digit_value c) r else acc
  | EmptyString => acc
  end.

(** The integer that a decimal prefix denotes: white space, an optional
    sign, digits; 0 when there are no digits. *)
Definition decimal_prefix (s : string) : Z :=
  match skip_space s with
  | String "-" r => - digits_value 0 r
  | String "+" r => digits_value 0 r
  | s' => digits_value 0 s'
  end.

Definition INT_MIN : Z := - 2147483648.
Definition INT_MAX : Z := 2147483647.

(** *** The temperature reply scan *)

(** [num_start] is advanced until it points at the end of the string, a
    digit, a minus sign or a decimal point. *)
Fixpoint skip_to_number (s : string) : string :=
  match s with
  | EmptyString => EmptyString
  | String c r =>
      if isdigit c || Ascii.eqb c "-" || Ascii.eqb c "." then s else skip_to_number r
  end.

(** [COMMAND_TERMINATOR], carriage return and line feed. *)
Definition COMMAND_TERMINATOR : string := String "013" (String "010" EmptyString).

(** ** Floating point

    [float] and [double] values are IEEE 754 binary32 and binary64 numbers,
    in the representation of the standard library's [SpecFloat]. *)

Definition float_of_Z (z : Z) : spec_float := binary_normalize 24 128 z 0 false.
Definition double_of_Z (z : Z) : spec_float := binary_normalize 53 1024 z 0 false.

(** The conversion of an assignment [float = double]: round to nearest. *)
Definition double_to_float (x : spec_float) : spec_float :=
  match x with
  | S754_finite s m e => binary_round 24 128 s m e
  | _ => x
  end.

(** C's [<=], [>=] and [!=]; every comparison with a NaN is false, so
    [!=] with a NaN is true. *)
Definition float_le (x y : spec_float) : bool := SFleb x y.
Definition float_ge (x y : spec_float) : bool := SFleb y x.
Definition float_ne (x y : spec_float) : bool := negb (SFeqb x y).

(** [(double)ticks / cps * 1000.0]: a conversion, a division and a
    multiplication, each rounded to the nearest double. *)
Definition elapsed_ms (ticks cps : Z) : spec_float :=
  SFmul 53 1024 (SFdiv 53 1024 (double_of_Z ticks) (double_of_Z cps)) (double_of_Z 1000).

(** In the rounding of the library: the record [rs'] is [rs] shifted
    right by [k] bits, its two flags telling whether bits were lost. *)
Definition shifted (k : Z) (rs rs' : shr_record) : Prop :=
  0 <= shr_m rs'
  /\ exists rem,
       0 <= rem < 2 ^ k
       /\ shr_m rs = shr_m rs' * 2 ^ k + rem
       /\ (shr_r rs' || shr_s rs') = (shr_r rs || shr_s rs) || negb (rem =? 0).

(** ** The platform: libserialport, the C library, the device on the line *)

(** Line settings that [budc_connect] applies. *)
Inductive setting :=
| Baudrate (baud : Z)
| Bits (n : Z)
| ParityNone
| Stopbits (n : Z)
| FlowcontrolNone
| DtrOn
| RtsOn.

(** What [sp_blocking_read_next] meets: an error (it returns the negative
    code), or the bytes that arrive before the timeout, possibly none. *)
Inductive read_outcome :=
| RdError (code : positive)
| RdBytes (data : string).

(** What [sp_blocking_write] meets: an error (it returns the negative
    code), or room for so many bytes before the timeout. *)
Inductive write_outcome :=
| WrError (code : positive)
| WrRoom (bytes : N).

(** One command on the line: what the write meets and the time it blocks,
    then what a read after it meets and the time that read blocks.  Times
    are in milliseconds. *)
Record exchange := {
  wr : write_outcome;
  wr_ms : Z;
  rd : read_outcome;
  rd_ms : Z
}.

(** The return value of a write of [count] bytes. *)
Definition write_result (x : exchange) (count : Z) : Z :=
  match wr x with
  | WrError code => Z.neg code
  | WrRoom bytes => Z.min (Z.of_N bytes) count
  end.

(** The return value of a read of at most [count] bytes, and the bytes. *)
Definition read_result (x : exchange) (count : Z) : Z * string :=
  match rd x with
  | RdError code => (Z.neg code, EmptyString)
  | RdBytes data =>
      let got := truncate (Z.to_nat count) data in
      (Z.of_nat (String.length got), got)
  end.

Record platform := {
  win32 : bool;                           (* [_WIN32] is defined *)
  clocks_per_ms : positive;               (* [CLOCKS_PER_SEC / 1000] *)
  clock_value : Z -> nat -> Z;            (* [clock()] after so many milliseconds and
                                             library calls: processor time on POSIX,
                                             elapsed time with the Microsoft runtime *)
  atof : string -> spec_float;            (* libc [atof], a double *)
  atoi_overflow : Z -> Z;                 (* libc [atoi] on a value no [int] holds *)
  format_g10 : spec_float -> string;      (* printf's [%.10g] *)
  port_exists : string -> bool;           (* [sp_get_port_by_name] succeeds *)
  open_ok : string -> bool;               (* [sp_open] succeeds *)
  setting_ok : string -> setting -> bool; (* an [sp_set_...] call succeeds *)
  malloc_ok : bool;                       (* [malloc] succeeds *)
  line : nat -> exchange                  (* the k-th command written, from 0 *)
}.

(** ** The world *)

(** Addresses, and pointers to a handle or a port: [None] is [NULL]. *)
Abbreviation loc := positive (only parsing).
Abbreviation ptr := (option positive) (only parsing).

(** A [struct sp_port] of libserialport. *)
Record port_obj := {
  port_name : string;
  opened : bool;
  applied : list setting
}.

Inductive event :=
| GetPortByName (name : string)
| Open (port : loc)
| Configure (port : loc) (s : setting)
| Flush (port : loc)
| BlockingWrite (port : loc) (data : string) (timeout : Z)
| BlockingReadNext (port : loc) (count : Z) (timeout : Z)
| Close (port : loc)
| FreePort (port : loc)
| Malloc
| Free (dev : loc)
| Delay (ms : Z).

Record world := {
  now : Z;                       (* elapsed time, milliseconds *)
  ports : gmap loc port_obj;     (* the live [struct sp_port] objects *)
  devs : gmap loc ptr;           (* the live [budc_device] objects: their [port] field *)
  written : nat;                 (* calls of [sp_blocking_write] so far *)
  log : list event               (* library calls so far, oldest first *)
}.

Definition tick (ms : Z) (w : world) : world :=
  {| now := now w + ms; ports := ports w; devs := devs w;
     written := written w; log := log w |}.

Definition record (e : event) (w : world) : world :=
  {| now := now w; ports := ports w; devs := devs w;
     written := written w; log := log w ++ [e] |}.

Definition with_ports (f : gmap loc port_obj -> gmap loc port_obj) (w : world) : world :=
  {| now := now w; ports := f (ports w); devs := devs w;
     written := written w; log := log w |}.

Definition with_devs (f : gmap loc ptr -> gmap loc ptr) (w : world) : world :=
  {| now := now w; ports := ports w; devs := f (devs w);
     written := written w; log := log w |}.

Definition count_write (w : world) : world :=
  {| now := now w; ports := ports w; devs := devs w;
     written := S (written w); log := log w |}.

(** ** Running C code in a world

    A call ends with a value and a new world, or it has undefined behaviour
    (an access through a pointer to a released object, a read of an
    uninitialised array), or the model's loop budget ran out. *)

Inductive outcome (A : Type) :=
| Done (a : A) (w : world)
| Undefined
| OutOfFuel.
Arguments Done {A} a w.
Arguments Undefined {A}.
Arguments OutOfFuel {A}.

Definition M (A : Type) : Type := world -> outcome A.

Definition ret {A} (a : A) : M A := fun w => Done a w.

Definition bind {A B} (m : M A) (k : A -> M B) : M B :=
  fun w =>
    match m w with
    | Done a w' => k a w'
    | Undefined => Undefined
    | OutOfFuel => OutOfFuel
    end.

Definition undefined {A} : M A := fun _ => Undefined.
Definition out_of_fuel {A} : M A := fun _ => OutOfFuel.

Declare Scope c_scope.
Delimit Scope c_scope with C.
Notation "x <- m ;; k" := (bind m (fun x => k))
  (at level 100, m at next level, right associativity) : c_scope.
Notation "m ;; k" := (bind m (fun _ => k))
  (at level 100, right associativity) : c_scope.
Local Open Scope c_scope.

Section Budc.

Variable P : platform.

(** *** Time *)

(** [scpi_delay(milliseconds)] *)
Definition scpi_delay (milliseconds : Z) : M unit :=
  fun w => Done tt (record (Delay milliseconds) (tick milliseconds w)).

Definition CLOCKS_PER_SEC : Z := 1000 * Z.pos (clocks_per_ms P).

(** [clock()]: what the platform's clock reports at this point, in clock
    ticks. *)
Definition clock : M Z :=
  fun w => Done (clock_value P (now w) (length (log w))) w.

(** A blocking call returns within its timeout. *)
Definition blocked (ms timeout : Z) : Z := Z.max 0 (Z.min ms timeout).

(** *** libserialport *)

Definition live_port (port : loc) (k : port_obj -> M unit) : M unit :=
  fun w => match ports w !! port with
           | Some o => k o w
           | None => Undefined
           end.

Definition sp_get_port_by_name (name : string) : M ptr :=
  fun w =>
    let w := record (GetPortByName name) w in
    if port_exists P name then
      let port := fresh (dom (ports w)) in
      Done (Some port)
           (with_ports <[port := {| port_name := name; opened := false; applied := [] |}]> w)
    else Done None w.

Definition sp_open (port : loc) : M bool :=
  fun w => match ports w !! port with
           | None => Undefined
           | Some o =>
               let w := record (Open port) w in
               if open_ok P (port_name o) then
                 Done true (with_ports <[port := {| port_name := port_name o; opened := true;
                                                    applied := applied o |}]> w)
               else Done false w
           end.

(** [sp_set_baudrate], [sp_set_bits], [sp_set_parity], [sp_set_stopbits],
    [sp_set_flowcontrol], [sp_set_dtr], [sp_set_rts]. *)
Definition sp_set (port : loc) (s : setting) : M bool :=
  fun w => match ports w !! port with
           | None => Undefined
           | Some o =>
               let w := record (Configure port s) w in
               if opened o && setting_ok P (port_name o) s then
                 Done true (with_ports <[port := {| port_name := port_name o; opened := opened o;
                                                    applied := applied o ++ [s] |}]> w)
               else Done false w
           end.

Definition sp_flush (port : loc) : M unit :=
  live_port port (fun _ w => Done tt (record (Flush port) w)).

Definition sp_close (port : loc) : M unit :=
  live_port port (fun o w =>
    Done tt (with_ports <[port := {| port_name := port_name o; opened := false;
                                     applied := applied o |}]>
                        (record (Close port) w))).

Definition sp_free_port (port : loc) : M unit :=
  live_port port (fun _ w => Done tt (with_ports (delete port) (record (FreePort port) w))).

(** [sp_blocking_write(port, buf, count, timeout)]: the number of bytes
    written, at most [count], or a negative error code. *)
Definition sp_blocking_write (port : loc) (buf : string) (count : Z) (timeout : Z) : M Z :=
  fun w => match ports w !! port with
           | None => Undefined
           | Some o =>
               let w := record (BlockingWrite port buf timeout) w in
               if opened o then
                 let x := line P (written w) in
                 Done (write_result x count)
                      (count_write (tick (blocked (wr_ms x) timeout) w))
               else Done (-1) w
           end.

(** [sp_blocking_read_next(port, buf, count, timeout)]: the return value
    and the bytes stored in [buf].  It answers the command written last. *)
Definition sp_blocking_read_next (port : loc) (count : Z) (timeout : Z) : M (Z * string) :=
  fun w => match ports w !! port with
           | None => Undefined
           | Some o =>
               let w := record (BlockingReadNext port count timeout) w in
               if negb (opened o) then Done (-1, EmptyString) w
               else if count =? 0 then Done (0, EmptyString) w
               else
                 let x := line P (Nat.pred (written w)) in
                 Done (read_result x count) (tick (blocked (rd_ms x) timeout) w)
           end.

(** *** malloc and free of a [budc_device] *)

Definition malloc_device : M ptr :=
  fun w =>
    let w := record Malloc w in
    if malloc_ok P then
      let d := fresh (dom (devs w)) in Done (Some d) (with_devs <[d := None]> w)
    else Done None w.

Definition free_device (dev : loc) : M unit :=
  fun w => match devs w !! dev with
           | Some _ => Done tt (with_devs (delete dev) (record (Free dev) w))
           | None => Undefined
           end.

(** [dev->port] *)
Definition load_port (dev : loc) : M ptr :=
  fun w => match devs w !! dev with
           | Some p => Done p w
           | None => Undefined
           end.

(** [dev->port = port] *)
Definition store_port (dev : loc) (port : ptr) : M unit :=
  fun w => match devs w !! dev with
           | Some _ => Done tt (with_devs <[dev := port]> w)
           | None => Undefined
           end.

(** ** budc_scpi.c *)

Definition READ_TIMEOUT_MS : Z := 800.
Definition MAX_RETRIES : nat := 3.

(** [budc_is_connected(dev)] *)
Definition budc_is_connected (dev : ptr) : M bool :=
  match dev with
  | None => ret false
  | Some d => port <- load_port d ;;
              ret (match port with Some _ => true | None => false end)
  end.

(** [dev->port] where it is used as a port: after [budc_is_connected]. *)
Definition port_of (dev : ptr) : M loc :=
  match dev with
  | None => undefined
  | Some d => port <- load_port d ;;
              match port with Some p => ret p | None => undefined end
  end.

(** The [response] argument of [budc_send_raw_command]. *)
Inductive buffer_arg := NullBuffer | Buffer.

(** [full_command], built by [snprintf] in an array of 256. *)
Definition full_command (command : string) : string :=
  truncate 255 (command +:+ COMMAND_TERMINATOR).

(** [budc_send_raw_command(dev, command, response, response_len)]: the
    return value and, when the call stored into [response], the C string
    that [response] holds afterwards. *)
Definition budc_send_raw_command (dev : ptr) (command : string)
    (response : buffer_arg) (response_len : Z) : M (Z * option string) :=
  connected <- budc_is_connected dev ;;
  if negb connected then ret (-1, None) else
  port <- port_of dev ;;
  sp_flush port ;;
  let command_len := strlen (full_command command) in
  write_result <- sp_blocking_write port (full_command command) command_len READ_TIMEOUT_MS ;;
  if write_result <? command_len then ret (-1, None) else
  if strchr command "?" then
    match response with
    | NullBuffer => ret (-1, None)
    | Buffer =>
        if response_len =? 0 then ret (-1, None) else
        (if win32 P then scpi_delay 100 else ret tt) ;;
        r <- sp_blocking_read_next port (response_len - 1) READ_TIMEOUT_MS ;;
        let bytes_read := fst r in
        if 0 <? bytes_read then
          let response := trim_whitespace (cstr (snd r)) in
          if strlen response =? 0 then ret (-1, Some response) else ret (0, Some response)
        else ret (-1, Some EmptyString)
    end
  else ret (0, None).

(** The retry loop of the getters,
    [for (int i = 0; i < n; i++) { if (body) return 0; scpi_delay(d); } return -1;].
    [mem] is what the body can store to, [i] counts from [i0]. *)
Fixpoint for_attempts {T : Type} (n : nat) (i0 : nat) (delay_ms : Z)
    (body : nat -> T -> M (bool * T)) (mem : T) : M (Z * T) :=
  match n with
  | O => ret (-1, mem)
  | S n' =>
      r <- body i0 mem ;;
      if fst r then ret (0, snd r)
      else scpi_delay delay_ms ;; for_attempts n' (S i0) delay_ms body (snd r)
  end.

(** [atoi]: the C standard leaves a value outside [int] undefined. *)
Definition atoi (s : string) : Z :=
  let v := decimal_prefix s in
  if (INT_MIN <=? v) && (v <=? INT_MAX) then v else atoi_overflow P v.

(** [budc_get_identity(dev, buffer, len)]; [buffer] is [None] for a null
    pointer. *)
Definition identity_attempt (dev : ptr) (len : Z) (i : nat) (buffer : option string)
    : M (bool * option string) :=
  r <- budc_send_raw_command dev "*IDN?"
         (match buffer with Some _ => Buffer | None => NullBuffer end) len ;;
  let buffer := match snd r with Some s => Some s | None => buffer end in
  if fst r =? 0 then
    match buffer with
    | Some s => ret (5 <? strlen s, buffer)
    | None => undefined
    end
  else ret (false, buffer).

Definition budc_get_identity (dev : ptr) (buffer : option string) (len : Z)
    : M (Z * option string) :=
  for_attempts MAX_RETRIES 0 100 (identity_attempt dev len) buffer.

(** [budc_get_frequency_ghz(dev, freq_ghz)]; the second component of the
    result is the double at [freq_ghz] afterwards. *)
Definition frequency_attempt (dev : ptr) (i : nat) (freq_ghz : spec_float)
    : M (bool * spec_float) :=
  r <- budc_send_raw_command dev "FREQ?" Buffer 64 ;;
  if fst r =? 0 then
    match snd r with
    | Some response =>
        ret (true, SFdiv 53 1024 (atof P response) (double_of_Z 1000000000))
    | None => undefined
    end
  else ret (false, freq_ghz).

Definition budc_get_frequency_ghz (dev : ptr) (freq_ghz : spec_float)
    : M (Z * spec_float) :=
  for_attempts MAX_RETRIES 0 100 (frequency_attempt dev) freq_ghz.

(** [budc_get_lock_status(dev, is_locked)] *)
Definition lock_attempt (dev : ptr) (i : nat) (is_locked : bool) : M (bool * bool) :=
  r <- budc_send_raw_command dev "LOCK?" Buffer 16 ;;
  if fst r =? 0 then
    match snd r with
    | Some response => ret (true, atoi response =? 1)
    | None => undefined
    end
  else ret (false, is_locked).

Definition budc_get_lock_status (dev : ptr) (is_locked : bool) : M (Z * bool) :=
  for_attempts MAX_RETRIES 0 100 (lock_attempt dev) is_locked.

(** [budc_get_temperature_c(dev, temp_c)] *)
Definition temperature_plausible (i : nat) (temp_value : spec_float) : bool :=
  float_ge temp_value (float_of_Z (-50)) && float_le temp_value (float_of_Z 150)
  && (float_ne temp_value (float_of_Z 0) || (i =? 4)%nat).

Definition temperature_attempt (dev : ptr) (i : nat) (temp_c : spec_float)
    : M (bool * spec_float) :=
  r <- budc_send_raw_command dev "TEMP?" Buffer 64 ;;
  if fst r =? 0 then
    match snd r with
    | Some response =>
        match skip_to_number response with
        | EmptyString => ret (false, temp_c)
        | num_start =>
            let temp_value := double_to_float (atof P num_start) in
            if float_ge temp_value (float_of_Z (-50)) && float_le temp_value (float_of_Z 150) then
              if float_ne temp_value (float_of_Z 0) || (i =? 4)%nat
              then ret (true, temp_value)
              else ret (false, temp_c)
            else ret (false, temp_c)
        end
    | None => undefined
    end
  else ret (false, temp_c).

Definition budc_get_temperature_c (dev : ptr) (temp_c : spec_float)
    : M (Z * spec_float) :=
  for_attempts 5 0 250 (temperature_attempt dev) temp_c.

(** [budc_get_power_level(dev, power_level)] *)
Definition power_attempt (dev : ptr) (i : nat) (power_level : Z) : M (bool * Z) :=
  r <- budc_send_raw_command dev "PWR?" Buffer 16 ;;
  if fst r =? 0 then
    match snd r with
    | Some response => ret (true, atoi response)
    | None => undefined
    end
  else ret (false, power_level).

Definition budc_get_power_level (dev : ptr) (power_level : Z) : M (Z * Z) :=
  for_attempts MAX_RETRIES 0 100 (power_attempt dev) power_level.

(** The setters: one send, no response, no retry. *)
Definition budc_set_frequency_ghz (dev : ptr) (freq_ghz : spec_float) : M Z :=
  let command := truncate 63 ("FREQ " +:+ format_g10 P freq_ghz +:+ "GHZ") in
  r <- budc_send_raw_command dev command NullBuffer 0 ;; ret (fst r).

Definition budc_set_frequency_mhz (dev : ptr) (freq_mhz : spec_float) : M Z :=
  let command := truncate 63 ("FREQ " +:+ format_g10 P freq_mhz +:+ "MHZ") in
  r <- budc_send_raw_command dev command NullBuffer 0 ;; ret (fst r).

Definition budc_set_frequency_hz (dev : ptr) (freq_hz : spec_float) : M Z :=
  let command := truncate 63 ("FREQ " +:+ format_g10 P freq_hz) in
  r <- budc_send_raw_command dev command NullBuffer 0 ;; ret (fst r).

Definition budc_save_settings (dev : ptr) : M Z :=
  r <- budc_send_raw_command dev "SAVE" NullBuffer 0 ;; ret (fst r).

Definition budc_preset (dev : ptr) : M Z :=
  r <- budc_send_raw_command dev "PRESET" NullBuffer 0 ;; ret (fst r).

(** *** The lock wait *)

(** [((double)(current - start) / CLOCKS_PER_SEC * 1000.0) > timeout_ms],
    in binary64 arithmetic; [timeout_ms], an unsigned int, converts
    exactly. *)
Definition deadline_passed (start current timeout_ms : Z) : bool :=
  SFltb (double_of_Z timeout_ms) (elapsed_ms (current - start) CLOCKS_PER_SEC).

(** The [while (!locked)] loop of [budc_wait_for_lock]; [fuel] bounds the
    number of polls. *)
Fixpoint wait_loop (fuel : nat) (dev : ptr) (timeout_ms start : Z) (locked : bool) : M Z :=
  if locked then ret 0 else
  match fuel with
  | O => out_of_fuel
  | S fuel' =>
      r <- budc_get_lock_status dev locked ;;
      let locked := snd r in
      if (fst r =? 0) && locked then ret 0 else
      current <- clock ;;
      if deadline_passed start current timeout_ms then ret (-1) else
      scpi_delay 200 ;;
      wait_loop fuel' dev timeout_ms start locked
  end.

Definition budc_wait_for_lock (fuel : nat) (dev : ptr) (timeout_ms : Z) : M Z :=
  start <- clock ;;
  wait_loop fuel dev timeout_ms start false.

Definition budc_set_frequency_and_wait (fuel : nat) (dev : ptr) (freq_ghz : spec_float)
    (timeout_ms : Z) : M Z :=
  rc <- budc_set_frequency_ghz dev freq_ghz ;;
  if negb (rc =? 0) then ret (-1) else
  scpi_delay 200 ;;
  budc_wait_for_lock fuel dev timeout_ms.

(** *** Connection *)

Definition budc_connect (name : string) : M ptr :=
  found <- sp_get_port_by_name name ;;
  match found with
  | None => ret None
  | Some port =>
      ok <- sp_open port ;;
      if negb ok then sp_free_port port ;; ret None else
      sp_set port (Baudrate 9600) ;;
      sp_set port (Bits 8) ;;
      sp_set port ParityNone ;;
      sp_set port (Stopbits 1) ;;
      sp_set port FlowcontrolNone ;;
      sp_set port DtrOn ;;
      sp_set port RtsOn ;;
      dev <- malloc_device ;;
      match dev with
      | None => sp_close port ;; sp_free_port port ;; ret None
      | Some d =>
          store_port d (Some port) ;;
          sp_flush port ;;
          scpi_delay 50 ;;
          ret (Some d)
      end
  end.

Definition budc_disconnect (dev : ptr) : M unit :=
  match dev with
  | None => ret tt
  | Some d =>
      port <- load_port d ;;
      match port with
      | Some p => sp_close p ;; sp_free_port p
      | None => ret tt
      end ;;
      free_device d
  end.

End Budc.

(** ** Simulated platforms

    Concrete platforms on which the definitions above are evaluated. *)

(** A decimal reader that stands in for [atof] on short plain decimals
    (sign, digits, optional fraction): exact there, as [atof] is. *)
Fixpoint fraction_digits (num : Z) (scale : Z) (s : string) : Z * Z :=
  match s with
  | String c r =>
      if isdigit c then fraction_digits (10 * num + digit_value c) (10 * scale) r
      else (num, scale)
  | EmptyString => (num, scale)
  end.

Fixpoint integer_digits (num : Z) (s : string) : Z * Z :=
  match s with
  | String c r =>
      if isdigit c then integer_digits (10 * num + digit_value c) r
      else if Ascii.eqb c "." then fraction_digits num 1 r
      else (num, 1)
  | EmptyString => (num, 1)
  end.

Definition sim_atof (s : string) : spec_float :=
  let '(neg, body) :=
    match skip_space s with
    | String "-" r => (true, r)
    | String "+" r => (false, r)
    | s' => (false, s')
    end in
  let '(num, scale) := integer_digits 0 body in
  let q := SFdiv 53 1024 (double_of_Z num) (double_of_Z scale) in
  if neg then SFopp q else q.

Definition answers (reply : string) : exchange :=
  {| wr := WrRoom 4096; wr_ms := 1; rd := RdBytes reply; rd_ms := 20 |}.

Definition silent : exchange :=
  {| wr := WrRoom 4096; wr_ms := 1; rd := RdBytes EmptyString; rd_ms := 800 |}.

Definition write_stalls : exchange :=
  {| wr := WrRoom 0; wr_ms := 800; rd := RdBytes EmptyString; rd_ms := 0 |}.

(** A platform where every library call succeeds and the device answers
    the k-th command as [script] says, or not at all beyond its end.  A
    POSIX build: [clock()] counts processor time in microseconds, and the
    process, asleep or blocked most of the time, uses 20 of them in each
    millisecond. *)
Definition scripted (script : list exchange) : platform :=
  {| win32 := false;
     clocks_per_ms := 1000;
     clock_value := fun ms _ => 20 * ms;
     atof := sim_atof;
     atoi_overflow := fun _ => 0;
     format_g10 := fun _ => "5.5";
     port_exists := fun _ => true;
     open_ok := fun _ => true;
     setting_ok := fun _ _ => true;
     malloc_ok := true;
     line := fun k => nth k script silent |}.

(** The same devices behind a Windows build: [Sleep], a pause before each
    read, and the Microsoft runtime's [clock()], which reports the time
    elapsed since the process started, [CLOCKS_PER_SEC] being 1000. *)
Definition scripted_windows (script : list exchange) : platform :=
  {| win32 := true;
     clocks_per_ms := 1;
     clock_value := fun ms _ => ms;
     atof := sim_atof;
     atoi_overflow := fun _ => 0;
     format_g10 := fun _ => "5.5";
     port_exists := fun _ => true;
     open_ok := fun _ => true;
     setting_ok := fun _ _ => true;
     malloc_ok := true;
     line := fun k => nth k script silent |}.

Definition boot : world :=
  {| now := 0; ports := ∅; devs := ∅; written := 0; log := [] |}.

(** The world and the handle after a successful [budc_connect]. *)
Definition connected_world (P : platform) : world :=
  match budc_connect P "/dev/ttyACM0" boot with
  | Done _ w => w
  | _ => boot
  end.

Definition handle (P : platform) : ptr :=
  match budc_connect P "/dev/ttyACM0" boot with
  | Done d _ => d
  | _ => None
  end.

(** ** Vocabulary of the properties *)

Section Vocabulary.

Variable P : platform.

Fixpoint all_space (s : string) : bool :=
  match s with
  | EmptyString => true
  | String c r => isspace c && all_space r
  end.

Definition first_is_space (s : string) : bool :=
  match s with
  | String c _ => isspace c
  | EmptyString => false
  end.

Fixpoint last_is_space (s : string) : bool :=
  match s with
  | EmptyString => false
  | String c EmptyString => isspace c
  | String _ r => last_is_space r
  end.

(** A handle as [budc_connect] returns it: live, its port live and open. *)
Definition connected (w : world) (dev : ptr) (port : loc) : Prop :=
  exists d o, dev = Some d /\ devs w !! d = Some (Some port)
              /\ ports w !! port = Some o /\ opened o = true.

(** [budc_send_raw_command] reaches its read. *)
Definition reaches_read (command : string) (response : buffer_arg) (response_len : Z)
    (x : exchange) : bool :=
  negb (write_result x (strlen (full_command command)) <? strlen (full_command command))
  && strchr command "?"
  && match response with Buffer => negb (response_len =? 0) | NullBuffer => false end.

(** What [budc_send_raw_command] returns when the line does [x]. *)
Definition send_result (command : string) (response : buffer_arg) (response_len : Z)
    (x : exchange) : Z * option string :=
  if write_result x (strlen (full_command command)) <? strlen (full_command command)
  then (-1, None)
  else if negb (strchr command "?") then (0, None)
  else if reaches_read command response response_len x then
    let r := if response_len - 1 =? 0 then (0, EmptyString)
             else read_result x (response_len - 1) in
    if 0 <? fst r then
      let s := trim_whitespace (cstr (snd r)) in
      if strlen s =? 0 then (-1, Some s) else (0, Some s)
    else (-1, Some EmptyString)
  else (-1, None).

(** The library calls it makes. *)
Definition send_log (command : string) (response : buffer_arg) (response_len : Z)
    (port : loc) (x : exchange) : list event :=
  Flush port :: BlockingWrite port (full_command command) READ_TIMEOUT_MS ::
  (if reaches_read command response response_len x then
     (if win32 P then [Delay 100] else [])
     ++ [BlockingReadNext port (response_len - 1) READ_TIMEOUT_MS]
   else []).

(** The time it takes. *)
Definition send_ms (command : string) (response : buffer_arg) (response_len : Z)
    (x : exchange) : Z :=
  blocked (wr_ms x) READ_TIMEOUT_MS
  + (if reaches_read command response response_len x then
       (if win32 P then 100 else 0)
       + (if response_len - 1 =? 0 then 0 else blocked (rd_ms x) READ_TIMEOUT_MS)
     else 0).

Definition send_world (command : string) (response : buffer_arg) (response_len : Z)
    (port : loc) (w : world) : world :=
  let x := line P (written w) in
  {| now := now w + send_ms command response response_len x;
     ports := ports w; devs := devs w;
     written := S (written w);
     log := log w ++ send_log command response response_len port x |}.

(** The commands written, counted in the log. *)
Fixpoint count_writes (l : list event) : nat :=
  match l with
  | [] => O
  | BlockingWrite _ _ _ :: l' => S (count_writes l')
  | _ :: l' => count_writes l'
  end.

(** The longest one command can take: the write, the pause before the
    read on Windows, the read. *)
Definition SEND_BUDGET_MS : Z :=
  READ_TIMEOUT_MS + (if win32 P then 100 else 0) + READ_TIMEOUT_MS.

(** The first [k] attempts from attempt [i0] on are all rejected. *)
Definition rejected_run (accept : nat -> exchange -> bool) (w : world) (i0 k : nat) : Prop :=
  forall j, (j < k)%nat -> accept (i0 + j)%nat (line P (written w + j)%nat) = false.

(** The reply a query gets when the line does [x]: [None] when the
    command fails in transport. *)
Definition transport_reply (command : string) (response_len : Z) (x : exchange)
    : option string :=
  match send_result command Buffer response_len x with
  | (0, Some r) => Some r
  | _ => None
  end.

(** One attempt of a getter that parses its reply with [parse]: success
    and the value stored, or failure and the cell as it was. *)
Definition attempt_result {T} (parse : nat -> string -> option T)
    (command : string) (response_len : Z) (i : nat) (mem : T) (x : exchange)
    : bool * T :=
  match transport_reply command response_len x with
  | Some r => match parse i r with
              | Some v => (true, v)
              | None => (false, mem)
              end
  | None => (false, mem)
  end.

Definition accepts {T} (parse : nat -> string -> option T)
    (command : string) (response_len : Z) (i : nat) (x : exchange) : bool :=
  match transport_reply command response_len x with
  | Some r => match parse i r with Some _ => true | None => false end
  | None => false
  end.

Definition parse_frequency (i : nat) (response : string) : option spec_float :=
  Some (SFdiv 53 1024 (atof P response) (double_of_Z 1000000000)).

Definition parse_lock (i : nat) (response : string) : option bool :=
  Some (atoi P response =? 1).

Definition parse_power (i : nat) (response : string) : option Z :=
  Some (atoi P response).

Definition parse_temperature (i : nat) (response : string) : option spec_float :=
  match skip_to_number response with
  | EmptyString => None
  | num_start =>
      let temp_value := double_to_float (atof P num_start) in
      if temperature_plausible i temp_value then Some temp_value else None
  end.

(** The identity getter stores into the caller's buffer. *)
Definition identity_accepts (len : Z) (i : nat) (x : exchange) : bool :=
  match transport_reply "*IDN?" len x with
  | Some r => 5 <? strlen r
  | None => false
  end.

Definition identity_store (len : Z) (i : nat) (buffer : option string) (x : exchange)
    : option string :=
  match snd (send_result "*IDN?" Buffer len x) with
  | Some s => Some s
  | None => buffer
  end.

(** The retry law of one getter: [n - 1] transport failures and an
    acceptable reply at the [n]-th attempt, [n] within the ceiling, give
    success after [n] commands; when every attempt fails the getter gives
    up after exactly [ceiling] commands. *)
Definition retry_law {T} (getter : M (Z * T)) (ceiling : nat) (command : string)
    (response_len : Z) (accept : nat -> exchange -> bool) (w : world) : Prop :=
  (forall n, (1 <= n <= ceiling)%nat ->
     (forall j, (j < n - 1)%nat ->
        transport_reply command response_len (line P (written w + j)) = None) ->
     accept (n - 1)%nat (line P (written w + (n - 1))) = true ->
     exists v w', getter w = Done (0, v) w'
       /\ count_writes (log w') = (count_writes (log w) + n)%nat)
  /\ ((forall j, (j < ceiling)%nat -> accept j (line P (written w + j)) = false) ->
      exists v w', getter w = Done (-1, v) w'
        /\ count_writes (log w') = (count_writes (log w) + ceiling)%nat).

Definition in_plausible_range (v : spec_float) : bool :=
  float_ge v (float_of_Z (-50)) && float_le v (float_of_Z 150).

(** The longest one call of [budc_get_lock_status] can take: three
    commands and three delays. *)
Definition GETTER_BUDGET_MS : Z := 3 * (SEND_BUDGET_MS + 100).

(** [clock()] reports the time elapsed, so many ticks in each millisecond,
    whatever the process did meanwhile: the behaviour of the Microsoft C
    runtime, not that of a POSIX system, whose [clock()] counts the
    processor time the process used. *)
Definition follows_elapsed_time : Prop :=
  forall ms k, clock_value P ms k = ms * Z.pos (clocks_per_ms P).

(** [clock()] never goes back, and the process gets at most one [d]-th
    of a processor: over any stretch of time the clock advances by at
    most one [d]-th of the ticks of that stretch. *)
Definition processor_share (d : Z) : Prop :=
  forall ms k ms' k',
    ms <= ms' ->
    0 <= clock_value P ms' k' - clock_value P ms k
    /\ d * (clock_value P ms' k' - clock_value P ms k)
       <= (ms' - ms) * Z.pos (clocks_per_ms P).

(** The lock query never reports locked: each command fails in transport
    or its reply does not read as 1. *)
Definition never_locks : Prop :=
  forall k r, transport_reply "LOCK?" 16 (line P k) = Some r -> (atoi P r =? 1) = false.

Definition lock_accepts : nat -> exchange -> bool :=
  accepts parse_lock "LOCK?" 16.

Definition lock_stores (i : nat) (mem : bool) (x : exchange) : bool :=
  snd (attempt_result parse_lock "LOCK?" 16 i mem x).

(** The lock queries handed to [sp_blocking_write], counted in the log. *)
Fixpoint lock_queries (l : list event) : nat :=
  match l with
  | [] => O
  | BlockingWrite _ data _ :: l' =>
      if String.eqb data (full_command "LOCK?") then S (lock_queries l') else lock_queries l'
  | _ :: l' => lock_queries l'
  end.

Definition frequency_command (freq_ghz : spec_float) : string :=
  truncate 63 ("FREQ " +:+ format_g10 P freq_ghz +:+ "GHZ").

(** In [w] the port object [o] at [port] is all that was added to [w0]. *)
Definition holds_port (w0 w : world) (port : loc) (o : port_obj) : Prop :=
  ports w = <[port := o]> (ports w0) /\ devs w = devs w0 /\ ports w0 !! port = None.

(** [m] run in [w] ends with a value and a world that satisfy [Q]. *)
Definition runs {A} (m : M A) (w : world) (Q : A -> world -> Prop) : Prop :=
  exists a w', m w = Done a w' /\ Q a w'.

(** What [budc_connect] leaves behind. *)
Definition connect_post (w : world) (name : string) (r : ptr) (w' : world) : Prop :=
  (r = None <-> port_exists P name = false \/ open_ok P name = false
                \/ malloc_ok P = false)
  /\ (r = None -> ports w' = ports w /\ devs w' = devs w)
  /\ (forall d, r = Some d ->
        devs w !! d = None
        /\ exists port o,
             ports w !! port = None
             /\ ports w' = <[port := o]> (ports w)
             /\ devs w' = <[d := Some port]> (devs w)
             /\ opened o = true /\ port_name o = name).

End Vocabulary.

(** ** Simulated devices *)

Definition world_of {A} (o : outcome A) (w : world) : world :=
  match o with
  | Done _ w' => w'
  | _ => w
  end.

Definition stored_value {A} (o : outcome (Z * A)) (a : A) : A :=
  match o with
  | Done r _ => snd r
  | _ => a
  end.

(** A sensor that reads 0.0 five times. *)
Definition zero_sensor : platform :=
  scripted [answers "0.0"; answers "0.0"; answers "0.0"; answers "0.0"; answers "0.0"].

(** A line that is silent, then stalls a write, then answers. *)
Definition third_time_lucky : platform :=
  scripted [silent; write_stalls; answers "1"].

(** A device that answers 0 twice and then nothing. *)
Definition unlocked_device : platform := scripted [answers "0"; answers "0"].

(** A device that never answers: every read times out after 800 ms. *)
Definition silent_device : platform := scripted [].

(** A line on which the write of the first command stalls. *)
Definition stalled_line : platform := scripted [write_stalls].

(** A device that reports lock, with white space around the digit. *)
Definition locked_device : platform :=
  scripted [answers (" 1 " +:+ COMMAND_TERMINATOR)].

(** A device that answers with its version between blanks. *)
Definition version_device : platform :=
  scripted [answers ("  v1.0 " +:+ COMMAND_TERMINATOR)].

(** A sensor that reads 200 five times. *)
Definition hot_sensor : platform :=
  scripted [answers "200"; answers "200"; answers "200"; answers "200"; answers "200"].

(** A device that reports lock as a number with a unit after it. *)
Definition verbose_device : platform := scripted [answers "1 lock"].

(** A device that reports lock with a unit glued to the digit. *)
Definition glued_device : platform := scripted [answers "1UNLOCKED"].


(** A device behind a Windows build that never answers. *)
Definition silent_windows : platform := scripted_windows [].

(** A device behind a Windows build that reports lock at the third
    poll. *)
Definition late_lock_windows : platform :=
  scripted_windows [answers "0"; answers "0"; answers "1"].

(** A device behind a Windows build whose sixth answer, as slow as the
    others are quick, is read 2007 ms after the first poll began. *)
Definition punctual_windows : platform :=
  scripted_windows
    [answers "0"; answers "0"; answers "0"; answers "0"; answers "0";
     {| wr := WrRoom 4096; wr_ms := 1; rd := RdBytes "0"; rd_ms := 301 |}].

(** A platform on which no line setting can be applied. *)
Definition fixed_line : platform :=
  {| win32 := false;
     clocks_per_ms := 1000;
     clock_value := fun ms _ => 20 * ms;
     atof := sim_atof;
     atoi_overflow := fun _ => 0;
     format_g10 := fun _ => "5.5";
     port_exists := fun _ => true;
     open_ok := fun _ => true;
     setting_ok := fun _ _ => false;
     malloc_ok := true;
     line := fun _ => silent |}.

(** ** The rest of budc_scpi.c *)

(** printf's [%d]: a minus sign for a negative value, then the decimal
    digits, most significant first.  Ten digits hold every [int]. *)
Definition digit_char (d : Z) : ascii := ascii_of_N (Z.to_N (48 + d)).

Fixpoint decimal_digits (fuel : nat) (n : Z) (acc : string) : string :=
  match fuel with
  | O => acc
  | S fuel' =>
      let acc' := String (digit_char (n mod 10)) acc in
      if n <? 10 then acc' else decimal_digits fuel' (n / 10) acc'
  end.

Definition format_d (n : Z) : string :=
  if n <? 0 then String "-" (decimal_digits 10 (- n) EmptyString)
  else decimal_digits 10 n EmptyString.

(** [budc_set_power_level(dev, power_level)] *)
Definition budc_set_power_level (P : platform) (dev : ptr) (power_level : Z) : M Z :=
  let command := truncate 31 ("PWR " +:+ format_d power_level) in
  bind (budc_send_raw_command P dev command NullBuffer 0) (fun r => ret (fst r)).

(** ** Vocabulary of the further properties *)

(** Every character of [s] satisfies [p]. *)
Fixpoint every (p : ascii -> bool) (s : string) : bool :=
  match s with
  | EmptyString => true
  | String c r => p c && every p r
  end.

(** What [atoi] reads as 1: white space, an optional plus sign, zeros,
    the digit 1, and then nothing or anything but a digit. *)
Definition first_is_digit (s : string) : bool :=
  match s with
  | String c _ => isdigit c
  | EmptyString => false
  end.

Definition reads_one (r : string) : Prop :=
  exists pre sign zeros rest,
    r = pre +:+ sign +:+ zeros +:+ "1" +:+ rest
    /\ all_space pre = true
    /\ (sign = EmptyString \/ sign = "+")
    /\ every (Ascii.eqb "0") zeros = true
    /\ first_is_digit rest = false.

(** The characters [%d] prints. *)
Definition decimal_char (c : ascii) : bool := isdigit c || Ascii.eqb c "-".

Definition not_nul (c : ascii) : bool := negb (Ascii.eqb c Ascii.zero).

Definition power_command (power_level : Z) : string :=
  truncate 31 ("PWR " +:+ format_d power_level).

(** A write that takes the whole terminated command. *)
Definition write_complete (command : string) (x : exchange) : bool :=
  strlen (full_command command) <=? write_result x (strlen (full_command command)).

(** What a setter does over a connected handle: the buffers are flushed,
    the terminated command is written, nothing is read and nothing else is
    called; the result is 0 when the write was complete (and the
    command is no query), -1 otherwise. *)
Definition setter_law (P : platform) (setter : M Z) (command : string)
    (port : loc) (w : world) : Prop :=
  exists w',
    setter w
    = Done (if write_complete command (line P (written w)) && negb (strchr command "?")
            then 0 else -1) w'
    /\ log w' = (log w ++ [Flush port;
                           BlockingWrite port (full_command command) READ_TIMEOUT_MS])%list
    /\ ports w' = ports w /\ devs w' = devs w
    /\ written w' = S (written w)
    /\ now w <= now w' <= now w + READ_TIMEOUT_MS.

(** The world after [n] delays of [ms] milliseconds. *)
Fixpoint after_delays (n : nat) (ms : Z) (w : world) : world :=
  match n with
  | O => w
  | S n' => after_delays n' ms (record (Delay ms) (tick ms w))
  end.

(** A null handle, or a handle whose port pointer is null. *)
Definition unconnected (w : world) (dev : ptr) : Prop :=
  dev = None \/ exists d, dev = Some d /\ devs w !! d = Some None.

(** A call over a connected handle ends with 0 or -1, leaves the handle
    connected and the live ports and handles as they were, writes at most
    [commands] commands and takes at most [budget] milliseconds. *)
Definition bounded_call {A} (call : M (Z * A)) (commands : nat) (budget : Z)
    (dev : ptr) (port : loc) (w : world) : Prop :=
  exists rc out w',
    call w = Done (rc, out) w'
    /\ (rc = 0 \/ rc = -1)
    /\ connected w' dev port
    /\ ports w' = ports w /\ devs w' = devs w
    /\ (written w <= written w' <= written w + commands)%nat
    /\ now w <= now w' <= now w + budget.

(** A getter whose attempts are all rejected has slept after each of
    them, the last one included. *)
Definition sleeps_through {A} (P : platform) (call : M (Z * A)) (ceiling : nat)
    (delay_ms : Z) (accept : nat -> exchange -> bool) (w : world) : Prop :=
  (forall j, (j < ceiling)%nat -> accept j (line P (written w + j)) = false) ->
  exists out w' l,
    call w = Done (-1, out) w'
    /\ log w' = (l ++ [Delay delay_ms])%list
    /\ now w + Z.of_nat ceiling * delay_ms <= now w'.

(** The line settings of [budc_connect], in the order it applies them. *)
Definition LINE_SETTINGS : list setting :=
  [Baudrate 9600; Bits 8; ParityNone; Stopbits 1; FlowcontrolNone; DtrOn; RtsOn].

(** Those of them that the platform accepts for the port. *)
Definition applied_settings (P : platform) (name : string) : list setting :=
  List.filter (setting_ok P name) LINE_SETTINGS.

(** The library calls of a successful [budc_connect]. *)
Definition connect_log (name : string) (port : loc) : list event :=
  GetPortByName name :: Open port :: map (Configure port) LINE_SETTINGS
  ++ [Malloc; Flush port; Delay 50].

(** The library calls of a [budc_connect] that returns null: the port is
    not found; or it is found, does not open and is freed; or it opens,
    is configured, the handle cannot be allocated, and the port is closed
    and then freed. *)
Definition connect_failure_log (P : platform) (name : string) (port : loc) : list event :=
  if negb (port_exists P name) then [GetPortByName name]
  else if negb (open_ok P name) then [GetPortByName name; Open port; FreePort port]
  else GetPortByName name :: Open port :: map (Configure port) LINE_SETTINGS
       ++ [Malloc; Close port; FreePort port].

(** The world a [budc_connect] that returns null leaves: the calls above
    in the log, and nothing else changed. *)
Definition failed_after (P : platform) (name : string) (w : world) : world :=
  {| now := now w;
     ports := ports w;
     devs := devs w;
     written := written w;
     log := log w ++ connect_failure_log P name (fresh (dom (ports w))) |}.

(** The world a successful [budc_connect] leaves. *)
Definition connected_after (P : platform) (name : string) (w : world) : world :=
  let port := fresh (dom (ports w)) in
  {| now := now w + 50;
     ports := <[port := {| port_name := name; opened := true;
                           applied := applied_settings P name |}]> (ports w);
     devs := <[fresh (dom (devs w)) := Some port]> (devs w);
     written := written w;
     log := log w ++ connect_log name port |}.

(** ** Scanning and listing

    [sscanf] for the conversions the callers use: a run of characters
    other than a comma, with or without a width and an assignment, the
    ordinary character comma, and a word.  A conversion that matches
    nothing ends the scan; the outputs not yet assigned keep their
    content. *)
Inductive directive :=
| NotComma (width : option nat) (assign : bool)  (* [%63[^,]], [%*[^,]] *)
| Comma                                          (* [,] *)
| Word (width : nat).                            (* [%63s] *)

(** The longest run of at most [width] characters other than a comma, and
    the input after it. *)
Fixpoint scan_field (width : nat) (input : string) : string * string :=
  match width, input with
  | S width', String c rest =>
      if Ascii.eqb c "," then (EmptyString, input)
      else (String c (fst (scan_field width' rest)), snd (scan_field width' rest))
  | _, _ => (EmptyString, input)
  end.

(** The longest run of at most [width] characters that are not white
    space, and the input after it. *)
Fixpoint scan_word (width : nat) (input : string) : string * string :=
  match width, input with
  | S width', String c rest =>
      if isspace c then (EmptyString, input)
      else (String c (fst (scan_word width' rest)), snd (scan_word width' rest))
  | _, _ => (EmptyString, input)
  end.

(** [sscanf(input, format, outs...)]: the content of the outputs
    afterwards. *)
Fixpoint sscanf (format : list directive) (input : string) (outs : list string)
    : list string :=
  match format with
  | [] => outs
  | NotComma width assign :: format' =>
      let n := match width with Some n => n | None => String.length input end in
      match fst (scan_field n input) with
      | EmptyString => outs
      | field =>
          let rest := snd (scan_field n input) in
          if assign then
            match outs with
            | _ :: outs' => field :: sscanf format' rest outs'
            | [] => []
            end
          else sscanf format' rest outs
      end
  | Comma :: format' =>
      match input with
      | String c rest => if Ascii.eqb c "," then sscanf format' rest outs else outs
      | EmptyString => outs
      end
  | Word width :: format' =>
      match fst (scan_word width (skip_space input)) with
      | EmptyString => outs
      | word =>
          match outs with
          | _ :: outs' =>
              word :: sscanf format' (snd (scan_word width (skip_space input))) outs'
          | [] => []
          end
      end
  end.

(** A [serial_port_info]: [name] in an array of 128 characters,
    [description] in an array of 256. *)
Record serial_port_info := {
  name : string;
  description : string
}.

(** What the port enumeration of libserialport and [calloc] give.  A
    listed port has a name. *)
Record listing := {
  list_ok : bool;                          (* [sp_list_ports] returns [SP_OK] *)
  listed : list (string * option string);  (* of each port: its name, its description or NULL *)
  calloc_ok : bool                         (* [calloc] succeeds *)
}.

(** One entry as the two [strncpy] calls fill it, in zeroed memory. *)
Definition port_entry (p : string * option string) : serial_port_info :=
  {| name := truncate 127 (fst p);
     description := match snd p with
                    | Some desc => truncate 255 desc
                    | None => EmptyString
                    end |}.

(** [budc_find_ports(port_list)]: the return value and what the caller's
    pointer holds afterwards, [None] for [NULL]; [old] is what it held
    before.  The enumeration is freed on every path that obtained it. *)
Definition budc_find_ports (L : listing) (old : option (list serial_port_info))
    : Z * option (list serial_port_info) :=
  if negb (list_ok L) then (-1, old) else
  let count := Z.of_nat (length (listed L)) in
  if count =? 0 then (0, None) else
  if negb (calloc_ok L) then (-1, None) else
  (count, Some (map port_entry (listed L))).

(** ** cli.c

    The options, the commands run over the connection and the exit
    status.  What is printed is not modelled. *)
Module Cli.


Record options := {
  port_name : option string;
  raw_command : option string;
  list_ports : bool;
  get_status : bool;
  get_freq : bool;
  get_power : bool;
  get_temp : bool;
  get_lock : bool;
  do_preset : bool;
  do_save : bool;
  wait_for_lock_after_set : bool;
  set_freq_ghz : spec_float;
  set_freq_hz : spec_float;
  set_freq_mhz : spec_float;
  set_power_level : Z
}.

(** The initial values of the locals of [main]. *)
Definition defaults : options :=
  {| port_name := None;
     raw_command := None;
     list_ports := false;
     get_status := false;
     get_freq := false;
     get_power := false;
     get_temp := false;
     get_lock := false;
     do_preset := false;
     do_save := false;
     wait_for_lock_after_set := false;
     set_freq_ghz := double_of_Z (-1);
     set_freq_hz := double_of_Z (-1);
     set_freq_mhz := double_of_Z (-1);
     set_power_level := -1 |}.

Definition with_port_name (v : option string) (o : options) : options :=
  {| port_name := v;
     raw_command := raw_command o;
     list_ports := list_ports o;
     get_status := get_status o;
     get_freq := get_freq o;
     get_power := get_power o;
     get_temp := get_temp o;
     get_lock := get_lock o;
     do_preset := do_preset o;
     do_save := do_save o;
     wait_for_lock_after_set := wait_for_lock_after_set o;
     set_freq_ghz := set_freq_ghz o;
     set_freq_hz := set_freq_hz o;
     set_freq_mhz := set_freq_mhz o;
     set_power_level := set_power_level o |}.

Definition with_raw_command (v : option string) (o : options) : options :=
  {| port_name := port_name o;
     raw_command := v;
     list_ports := list_ports o;
     get_status := get_status o;
     get_freq := get_freq o;
     get_power := get_power o;
     get_temp := get_temp o;
     get_lock := get_lock o;
     do_preset := do_preset o;
     do_save := do_save o;
     wait_for_lock_after_set := wait_for_lock_after_set o;
     set_freq_ghz := set_freq_ghz o;
     set_freq_hz := set_freq_hz o;
     set_freq_mhz := set_freq_mhz o;
     set_power_level := set_power_level o |}.

Definition with_list_ports (v : bool) (o : options) : options :=
  {| port_name := port_name o;
     raw_command := raw_command o;
     list_ports := v;
     get_status := get_status o;
     get_freq := get_freq o;
     get_power := get_power o;
     get_temp := get_temp o;
     get_lock := get_lock o;
     do_preset := do_preset o;
     do_save := do_save o;
     wait_for_lock_after_set := wait_for_lock_after_set o;
     set_freq_ghz := set_freq_ghz o;
     set_freq_hz := set_freq_hz o;
     set_freq_mhz := set_freq_mhz o;
     set_power_level := set_power_level o |}.

Definition with_get_status (v : bool) (o : options) : options :=
  {| port_name := port_name o;
     raw_command := raw_command o;
     list_ports := list_ports o;
     get_status := v;
     get_freq := get_freq o;
     get_power := get_power o;
     get_temp := get_temp o;
     get_lock := get_lock o;
     do_preset := do_preset o;
     do_save := do_save o;
     wait_for_lock_after_set := wait_for_lock_after_set o;
     set_freq_ghz := set_freq_ghz o;
     set_freq_hz := set_freq_hz o;
     set_freq_mhz := set_freq_mhz o;
     set_power_level := set_power_level o |}.

Definition with_get_freq (v : bool) (o : options) : options :=
  {| port_name := port_name o;
     raw_command := raw_command o;
     list_ports := list_ports o;
     get_status := get_status o;
     get_freq := v;
     get_power := get_power o;
     get_temp := get_temp o;
     get_lock := get_lock o;
     do_preset := do_preset o;
     do_save := do_save o;
     wait_for_lock_after_set := wait_for_lock_after_set o;
     set_freq_ghz := set_freq_ghz o;
     set_freq_hz := set_freq_hz o;
     set_freq_mhz := set_freq_mhz o;
     set_power_level := set_power_level o |}.

Definition with_get_power (v : bool) (o : options) : options :=
  {| port_name := port_name o;
     raw_command := raw_command o;
     list_ports := list_ports o;
     get_status := get_status o;
     get_freq := get_freq o;
     get_power := v;
     get_temp := get_temp o;
     get_lock := get_lock o;
     do_preset := do_preset o;
     do_save := do_save o;
     wait_for_lock_after_set := wait_for_lock_after_set o;
     set_freq_ghz := set_freq_ghz o;
     set_freq_hz := set_freq_hz o;
     set_freq_mhz := set_freq_mhz o;
     set_power_level := set_power_level o |}.

Definition with_get_temp (v : bool) (o : options) : options :=
  {| port_name := port_name o;
     raw_command := raw_command o;
     list_ports := list_ports o;
     get_status := get_status o;
     get_freq := get_freq o;
     get_power := get_power o;
     get_temp := v;
     get_lock := get_lock o;
     do_preset := do_preset o;
     do_save := do_save o;
     wait_for_lock_after_set := wait_for_lock_after_set o;
     set_freq_ghz := set_freq_ghz o;
     set_freq_hz := set_freq_hz o;
     set_freq_mhz := set_freq_mhz o;
     set_power_level := set_power_level o |}.

Definition with_get_lock (v : bool) (o : options) : options :=
  {| port_name := port_name o;
     raw_command := raw_command o;
     list_ports := list_ports o;
     get_status := get_status o;
     get_freq := get_freq o;
     get_power := get_power o;
     get_temp := get_temp o;
     get_lock := v;
     do_preset := do_preset o;
     do_save := do_save o;
     wait_for_lock_after_set := wait_for_lock_after_set o;
     set_freq_ghz := set_freq_ghz o;
     set_freq_hz := set_freq_hz o;
     set_freq_mhz := set_freq_mhz o;
     set_power_level := set_power_level o |}.

Definition with_do_preset (v : bool) (o : options) : options :=
  {| port_name := port_name o;
     raw_command := raw_command o;
     list_ports := list_ports o;
     get_status := get_status o;
     get_freq := get_freq o;
     get_power := get_power o;
     get_temp := get_temp o;
     get_lock := get_lock o;
     do_preset := v;
     do_save := do_save o;
     wait_for_lock_after_set := wait_for_lock_after_set o;
     set_freq_ghz := set_freq_ghz o;
     set_freq_hz := set_freq_hz o;
     set_freq_mhz := set_freq_mhz o;
     set_power_level := set_power_level o |}.

Definition with_do_save (v : bool) (o : options) : options :=
  {| port_name := port_name o;
     raw_command := raw_command o;
     list_ports := list_ports o;
     get_status := get_status o;
     get_freq := get_freq o;
     get_power := get_power o;
     get_temp := get_temp o;
     get_lock := get_lock o;
     do_preset := do_preset o;
     do_save := v;
     wait_for_lock_after_set := wait_for_lock_after_set o;
     set_freq_ghz := set_freq_ghz o;
     set_freq_hz := set_freq_hz o;
     set_freq_mhz := set_freq_mhz o;
     set_power_level := set_power_level o |}.

Definition with_wait_for_lock_after_set (v : bool) (o : options) : options :=
  {| port_name := port_name o;
     raw_command := raw_command o;
     list_ports := list_ports o;
     get_status := get_status o;
     get_freq := get_freq o;
     get_power := get_power o;
     get_temp := get_temp o;
     get_lock := get_lock o;
     do_preset := do_preset o;
     do_save := do_save o;
     wait_for_lock_after_set := v;
     set_freq_ghz := set_freq_ghz o;
     set_freq_hz := set_freq_hz o;
     set_freq_mhz := set_freq_mhz o;
     set_power_level := set_power_level o |}.

Definition with_set_freq_ghz (v : spec_float) (o : options) : options :=
  {| port_name := port_name o;
     raw_command := raw_command o;
     list_ports := list_ports o;
     get_status := get_status o;
     get_freq := get_freq o;
     get_power := get_power o;
     get_temp := get_temp o;
     get_lock := get_lock o;
     do_preset := do_preset o;
     do_save := do_save o;
     wait_for_lock_after_set := wait_for_lock_after_set o;
     set_freq_ghz := v;
     set_freq_hz := set_freq_hz o;
     set_freq_mhz := set_freq_mhz o;
     set_power_level := set_power_level o |}.

Definition with_set_freq_hz (v : spec_float) (o : options) : options :=
  {| port_name := port_name o;
     raw_command := raw_command o;
     list_ports := list_ports o;
     get_status := get_status o;
     get_freq := get_freq o;
     get_power := get_power o;
     get_temp := get_temp o;
     get_lock := get_lock o;
     do_preset := do_preset o;
     do_save := do_save o;
     wait_for_lock_after_set := wait_for_lock_after_set o;
     set_freq_ghz := set_freq_ghz o;
     set_freq_hz := v;
     set_freq_mhz := set_freq_mhz o;
     set_power_level := set_power_level o |}.

Definition with_set_freq_mhz (v : spec_float) (o : options) : options :=
  {| port_name := port_name o;
     raw_command := raw_command o;
     list_ports := list_ports o;
     get_status := get_status o;
     get_freq := get_freq o;
     get_power := get_power o;
     get_temp := get_temp o;
     get_lock := get_lock o;
     do_preset := do_preset o;
     do_save := do_save o;
     wait_for_lock_after_set := wait_for_lock_after_set o;
     set_freq_ghz := set_freq_ghz o;
     set_freq_hz := set_freq_hz o;
     set_freq_mhz := v;
     set_power_level := set_power_level o |}.

Definition with_set_power_level (v : Z) (o : options) : options :=
  {| port_name := port_name o;
     raw_command := raw_command o;
     list_ports := list_ports o;
     get_status := get_status o;
     get_freq := get_freq o;
     get_power := get_power o;
     get_temp := get_temp o;
     get_lock := get_lock o;
     do_preset := do_preset o;
     do_save := do_save o;
     wait_for_lock_after_set := wait_for_lock_after_set o;
     set_freq_ghz := set_freq_ghz o;
     set_freq_hz := set_freq_hz o;
     set_freq_mhz := set_freq_mhz o;
     set_power_level := v |}.

(** What one turn of the argument loop does. *)
Inductive step :=
| Usage                   (* [print_usage(); return 0;] *)
| Next (o : options)      (* on to [argv[i + 1]] *)
| SkipNext (o : options). (* [argv[++i]] was taken as a value *)

Section Main.

Variable P : platform.
Variable L : listing.

(** One turn of the loop: [arg] is [argv[i]], [next] is [argv[i + 1]]
    when [i + 1 < argc]. *)
Definition arg_step (arg : string) (next : option string) (o : options) : step :=
  let has_next := match next with Some _ => true | None => false end in
  let value := match next with Some v => v | None => EmptyString end in
  if String.eqb arg "--list" then Next (with_list_ports true o)
  else if String.eqb arg "--port" && has_next then SkipNext (with_port_name (Some value) o)
  else if String.eqb arg "--cmd" && has_next then SkipNext (with_raw_command (Some value) o)
  else if String.eqb arg "--status" then Next (with_get_status true o)
  else if String.eqb arg "--freq" && has_next then SkipNext (with_set_freq_ghz (atof P value) o)
  else if String.eqb arg "--freq-hz" && has_next then SkipNext (with_set_freq_hz (atof P value) o)
  else if String.eqb arg "--freq-mhz" && has_next
       then SkipNext (with_set_freq_mhz (atof P value) o)
  else if String.eqb arg "--power" && has_next
       then SkipNext (with_set_power_level (atoi P value) o)
  else if String.eqb arg "--get-freq" then Next (with_get_freq true o)
  else if String.eqb arg "--get-power" then Next (with_get_power true o)
  else if String.eqb arg "--get-temp" then Next (with_get_temp true o)
  else if String.eqb arg "--get-lock" then Next (with_get_lock true o)
  else if String.eqb arg "--preset" then Next (with_do_preset true o)
  else if String.eqb arg "--save" then Next (with_do_save true o)
  else if String.eqb arg "--wait-lock" then Next (with_wait_for_lock_after_set true o)
  else if String.eqb arg "--help" then Usage
  else Next o.

(** The argument loop over [argv[1]], ..., [argv[argc - 1]]; [None] when
    it left [main] through [--help]. *)
Fixpoint parse_arguments (args : list string) (o : options) : option options :=
  match args with
  | [] => Some o
  | arg :: rest =>
      match arg_step arg (head rest) o with
      | Usage => None
      | Next o' => parse_arguments rest o'
      | SkipNext o' =>
          match rest with
          | _ :: rest' => parse_arguments rest' o'
          | [] => Some o'
          end
      end
  end.

(** [if (call != 0) result = 1;] *)
Definition failed (rc : Z) (result : Z) : Z := if rc =? 0 then result else 1.

(** The locals that [main] passes to a getter without initialising
    them. *)
Record locals := {
  freq : spec_float;
  power : Z;
  temp : spec_float;
  locked : bool
}.

Variable junk : locals.

(** The part of [main] between [budc_connect] and [budc_disconnect]:
    the value of [result] at the end. *)
Definition commands (fuel : nat) (o : options) (dev : ptr) : M Z :=
  let zero := double_of_Z 0 in
  result <-
    (if float_ge (set_freq_ghz o) zero then
       rc <- budc_set_frequency_ghz P dev (set_freq_ghz o) ;; ret (failed rc 0)
     else if float_ge (set_freq_mhz o) zero then
       rc <- budc_set_frequency_mhz P dev (set_freq_mhz o) ;; ret (failed rc 0)
     else if float_ge (set_freq_hz o) zero then
       rc <- budc_set_frequency_hz P dev (set_freq_hz o) ;; ret (failed rc 0)
     else ret 0) ;;
  result <-
    (if 0 <=? set_power_level o then
       rc <- budc_set_power_level P dev (set_power_level o) ;; ret (failed rc result)
     else ret result) ;;
  result <-
    (if wait_for_lock_after_set o then
       rc <- budc_wait_for_lock P fuel dev 5000 ;; ret (failed rc result)
     else ret result) ;;
  result <-
    (if do_preset o then rc <- budc_preset P dev ;; ret (failed rc result)
     else ret result) ;;
  result <-
    (if do_save o then rc <- budc_save_settings P dev ;; ret (failed rc result)
     else ret result) ;;
  result <-
    (if get_freq o then
       r <- budc_get_frequency_ghz P dev (freq junk) ;; ret (failed (fst r) result)
     else ret result) ;;
  result <-
    (if get_power o then
       r <- budc_get_power_level P dev (power junk) ;; ret (failed (fst r) result)
     else ret result) ;;
  (if get_temp o then budc_get_temperature_c P dev (temp junk) ;; ret tt
   else ret tt) ;;
  result <-
    (if get_lock o then
       r <- budc_get_lock_status P dev (locked junk) ;; ret (failed (fst r) result)
     else ret result) ;;
  result <-
    (match raw_command o with
     | Some command =>
         r <- budc_send_raw_command P dev command Buffer 512 ;; ret (failed (fst r) result)
     | None => ret result
     end) ;;
  (if get_status o then
     budc_get_identity P dev (Some "N/A") 256 ;;
     budc_get_frequency_ghz P dev (double_of_Z 0) ;;
     budc_get_lock_status P dev false ;;
     budc_get_temperature_c P dev (float_of_Z 0) ;;
     budc_get_power_level P dev 0 ;;
     ret tt
   else ret tt) ;;
  ret result.

(** [main(argc, argv)]: the exit status. *)
Definition main (fuel : nat) (argv : list string) : M Z :=
  match parse_arguments (tl argv) defaults with
  | None => ret 0
  | Some o =>
      if list_ports o then
        ret (if fst (budc_find_ports L None) <? 0 then 1 else 0)
      else
        match port_name o with
        | None => ret 0
        | Some port =>
            dev <- budc_connect P port ;;
            match dev with
            | None => ret 1
            | Some _ =>
                result <- commands fuel o dev ;;
                budc_disconnect dev ;;
                ret result
            end
        end
  end.

End Main.

(** The format of the status report, [%*[^,],%*[^,],%63[^,],%63s]. *)
Definition STATUS_FORMAT : list directive :=
  [NotComma None false; Comma; NotComma None false; Comma;
   NotComma (Some 63%nat) true; Comma; Word 63].

(** [serial] and [fw] of the status report, arrays of 64 characters that
    start as [N/A], after the [sscanf] on the identity. *)
Definition status_fields (identity : string) : list string :=
  sscanf STATUS_FORMAT identity ["N/A"; "N/A"].

End Cli.

(** ** gui.cpp

    The application state and the functions that refresh it.  The
    rendering is not modelled. *)
Module Gui.


Record AppState := {
  dev : ptr;
  port_list : option (list serial_port_info);
  port_count : Z;
  selected_port_idx : Z;
  is_connected : bool;
  identity : string;
  serial_number : string;
  fw_version : string;
  current_freq_ghz : spec_float;
  is_locked : bool;
  temperature_c : spec_float;
  power_level : Z;
  temp_supported : bool;
  target_freq_ghz : spec_float;
  target_power_level : Z;
  scpi_command : string;
  scpi_log : string;
  last_update_time : Z;
  auto_refresh_enabled : bool
}.

(** [memset(state, 0, sizeof(AppState))] *)
Definition zeroed : AppState :=
  {| dev := None;
     port_list := None;
     port_count := 0;
     selected_port_idx := 0;
     is_connected := false;
     identity := EmptyString;
     serial_number := EmptyString;
     fw_version := EmptyString;
     current_freq_ghz := S754_zero false;
     is_locked := false;
     temperature_c := S754_zero false;
     power_level := 0;
     temp_supported := false;
     target_freq_ghz := S754_zero false;
     target_power_level := 0;
     scpi_command := EmptyString;
     scpi_log := EmptyString;
     last_update_time := 0;
     auto_refresh_enabled := false |}.

Definition with_port_list (v : option (list serial_port_info)) (state : AppState) : AppState :=
  {| dev := dev state;
     port_list := v;
     port_count := port_count state;
     selected_port_idx := selected_port_idx state;
     is_connected := is_connected state;
     identity := identity state;
     serial_number := serial_number state;
     fw_version := fw_version state;
     current_freq_ghz := current_freq_ghz state;
     is_locked := is_locked state;
     temperature_c := temperature_c state;
     power_level := power_level state;
     temp_supported := temp_supported state;
     target_freq_ghz := target_freq_ghz state;
     target_power_level := target_power_level state;
     scpi_command := scpi_command state;
     scpi_log := scpi_log state;
     last_update_time := last_update_time state;
     auto_refresh_enabled := auto_refresh_enabled state |}.

Definition with_port_count (v : Z) (state : AppState) : AppState :=
  {| dev := dev state;
     port_list := port_list state;
     port_count := v;
     selected_port_idx := selected_port_idx state;
     is_connected := is_connected state;
     identity := identity state;
     serial_number := serial_number state;
     fw_version := fw_version state;
     current_freq_ghz := current_freq_ghz state;
     is_locked := is_locked state;
     temperature_c := temperature_c state;
     power_level := power_level state;
     temp_supported := temp_supported state;
     target_freq_ghz := target_freq_ghz state;
     target_power_level := target_power_level state;
     scpi_command := scpi_command state;
     scpi_log := scpi_log state;
     last_update_time := last_update_time state;
     auto_refresh_enabled := auto_refresh_enabled state |}.

Definition with_selected_port_idx (v : Z) (state : AppState) : AppState :=
  {| dev := dev state;
     port_list := port_list state;
     port_count := port_count state;
     selected_port_idx := v;
     is_connected := is_connected state;
     identity := identity state;
     serial_number := serial_number state;
     fw_version := fw_version state;
     current_freq_ghz := current_freq_ghz state;
     is_locked := is_locked state;
     temperature_c := temperature_c state;
     power_level := power_level state;
     temp_supported := temp_supported state;
     target_freq_ghz := target_freq_ghz state;
     target_power_level := target_power_level state;
     scpi_command := scpi_command state;
     scpi_log := scpi_log state;
     last_update_time := last_update_time state;
     auto_refresh_enabled := auto_refresh_enabled state |}.

Definition with_identity (v : string) (state : AppState) : AppState :=
  {| dev := dev state;
     port_list := port_list state;
     port_count := port_count state;
     selected_port_idx := selected_port_idx state;
     is_connected := is_connected state;
     identity := v;
     serial_number := serial_number state;
     fw_version := fw_version state;
     current_freq_ghz := current_freq_ghz state;
     is_locked := is_locked state;
     temperature_c := temperature_c state;
     power_level := power_level state;
     temp_supported := temp_supported state;
     target_freq_ghz := target_freq_ghz state;
     target_power_level := target_power_level state;
     scpi_command := scpi_command state;
     scpi_log := scpi_log state;
     last_update_time := last_update_time state;
     auto_refresh_enabled := auto_refresh_enabled state |}.

Definition with_serial_number (v : string) (state : AppState) : AppState :=
  {| dev := dev state;
     port_list := port_list state;
     port_count := port_count state;
     selected_port_idx := selected_port_idx state;
     is_connected := is_connected state;
     identity := identity state;
     serial_number := v;
     fw_version := fw_version state;
     current_freq_ghz := current_freq_ghz state;
     is_locked := is_locked state;
     temperature_c := temperature_c state;
     power_level := power_level state;
     temp_supported := temp_supported state;
     target_freq_ghz := target_freq_ghz state;
     target_power_level := target_power_level state;
     scpi_command := scpi_command state;
     scpi_log := scpi_log state;
     last_update_time := last_update_time state;
     auto_refresh_enabled := auto_refresh_enabled state |}.

Definition with_fw_version (v : string) (state : AppState) : AppState :=
  {| dev := dev state;
     port_list := port_list state;
     port_count := port_count state;
     selected_port_idx := selected_port_idx state;
     is_connected := is_connected state;
     identity := identity state;
     serial_number := serial_number state;
     fw_version := v;
     current_freq_ghz := current_freq_ghz state;
     is_locked := is_locked state;
     temperature_c := temperature_c state;
     power_level := power_level state;
     temp_supported := temp_supported state;
     target_freq_ghz := target_freq_ghz state;
     target_power_level := target_power_level state;
     scpi_command := scpi_command state;
     scpi_log := scpi_log state;
     last_update_time := last_update_time state;
     auto_refresh_enabled := auto_refresh_enabled state |}.

Definition with_current_freq_ghz (v : spec_float) (state : AppState) : AppState :=
  {| dev := dev state;
     port_list := port_list state;
     port_count := port_count state;
     selected_port_idx := selected_port_idx state;
     is_connected := is_connected state;
     identity := identity state;
     serial_number := serial_number state;
     fw_version := fw_version state;
     current_freq_ghz := v;
     is_locked := is_locked state;
     temperature_c := temperature_c state;
     power_level := power_level state;
     temp_supported := temp_supported state;
     target_freq_ghz := target_freq_ghz state;
     target_power_level := target_power_level state;
     scpi_command := scpi_command state;
     scpi_log := scpi_log state;
     last_update_time := last_update_time state;
     auto_refresh_enabled := auto_refresh_enabled state |}.

Definition with_is_locked (v : bool) (state : AppState) : AppState :=
  {| dev := dev state;
     port_list := port_list state;
     port_count := port_count state;
     selected_port_idx := selected_port_idx state;
     is_connected := is_connected state;
     identity := identity state;
     serial_number := serial_number state;
     fw_version := fw_version state;
     current_freq_ghz := current_freq_ghz state;
     is_locked := v;
     temperature_c := temperature_c state;
     power_level := power_level state;
     temp_supported := temp_supported state;
     target_freq_ghz := target_freq_ghz state;
     target_power_level := target_power_level state;
     scpi_command := scpi_command state;
     scpi_log := scpi_log state;
     last_update_time := last_update_time state;
     auto_refresh_enabled := auto_refresh_enabled state |}.

Definition with_temperature_c (v : spec_float) (state : AppState) : AppState :=
  {| dev := dev state;
     port_list := port_list state;
     port_count := port_count state;
     selected_port_idx := selected_port_idx state;
     is_connected := is_connected state;
     identity := identity state;
     serial_number := serial_number state;
     fw_version := fw_version state;
     current_freq_ghz := current_freq_ghz state;
     is_locked := is_locked state;
     temperature_c := v;
     power_level := power_level state;
     temp_supported := temp_supported state;
     target_freq_ghz := target_freq_ghz state;
     target_power_level := target_power_level state;
     scpi_command := scpi_command state;
     scpi_log := scpi_log state;
     last_update_time := last_update_time state;
     auto_refresh_enabled := auto_refresh_enabled state |}.

Definition with_power_level (v : Z) (state : AppState) : AppState :=
  {| dev := dev state;
     port_list := port_list state;
     port_count := port_count state;
     selected_port_idx := selected_port_idx state;
     is_connected := is_connected state;
     identity := identity state;
     serial_number := serial_number state;
     fw_version := fw_version state;
     current_freq_ghz := current_freq_ghz state;
     is_locked := is_locked state;
     temperature_c := temperature_c state;
     power_level := v;
     temp_supported := temp_supported state;
     target_freq_ghz := target_freq_ghz state;
     target_power_level := target_power_level state;
     scpi_command := scpi_command state;
     scpi_log := scpi_log state;
     last_update_time := last_update_time state;
     auto_refresh_enabled := auto_refresh_enabled state |}.

Definition with_temp_supported (v : bool) (state : AppState) : AppState :=
  {| dev := dev state;
     port_list := port_list state;
     port_count := port_count state;
     selected_port_idx := selected_port_idx state;
     is_connected := is_connected state;
     identity := identity state;
     serial_number := serial_number state;
     fw_version := fw_version state;
     current_freq_ghz := current_freq_ghz state;
     is_locked := is_locked state;
     temperature_c := temperature_c state;
     power_level := power_level state;
     temp_supported := v;
     target_freq_ghz := target_freq_ghz state;
     target_power_level := target_power_level state;
     scpi_command := scpi_command state;
     scpi_log := scpi_log state;
     last_update_time := last_update_time state;
     auto_refresh_enabled := auto_refresh_enabled state |}.

Definition with_target_freq_ghz (v : spec_float) (state : AppState) : AppState :=
  {| dev := dev state;
     port_list := port_list state;
     port_count := port_count state;
     selected_port_idx := selected_port_idx state;
     is_connected := is_connected state;
     identity := identity state;
     serial_number := serial_number state;
     fw_version := fw_version state;
     current_freq_ghz := current_freq_ghz state;
     is_locked := is_locked state;
     temperature_c := temperature_c state;
     power_level := power_level state;
     temp_supported := temp_supported state;
     target_freq_ghz := v;
     target_power_level := target_power_level state;
     scpi_command := scpi_command state;
     scpi_log := scpi_log state;
     last_update_time := last_update_time state;
     auto_refresh_enabled := auto_refresh_enabled state |}.

Definition with_target_power_level (v : Z) (state : AppState) : AppState :=
  {| dev := dev state;
     port_list := port_list state;
     port_count := port_count state;
     selected_port_idx := selected_port_idx state;
     is_connected := is_connected state;
     identity := identity state;
     serial_number := serial_number state;
     fw_version := fw_version state;
     current_freq_ghz := current_freq_ghz state;
     is_locked := is_locked state;
     temperature_c := temperature_c state;
     power_level := power_level state;
     temp_supported := temp_supported state;
     target_freq_ghz := target_freq_ghz state;
     target_power_level := v;
     scpi_command := scpi_command state;
     scpi_log := scpi_log state;
     last_update_time := last_update_time state;
     auto_refresh_enabled := auto_refresh_enabled state |}.

Definition with_last_update_time (v : Z) (state : AppState) : AppState :=
  {| dev := dev state;
     port_list := port_list state;
     port_count := port_count state;
     selected_port_idx := selected_port_idx state;
     is_connected := is_connected state;
     identity := identity state;
     serial_number := serial_number state;
     fw_version := fw_version state;
     current_freq_ghz := current_freq_ghz state;
     is_locked := is_locked state;
     temperature_c := temperature_c state;
     power_level := power_level state;
     temp_supported := temp_supported state;
     target_freq_ghz := target_freq_ghz state;
     target_power_level := target_power_level state;
     scpi_command := scpi_command state;
     scpi_log := scpi_log state;
     last_update_time := v;
     auto_refresh_enabled := auto_refresh_enabled state |}.

Definition with_auto_refresh_enabled (v : bool) (state : AppState) : AppState :=
  {| dev := dev state;
     port_list := port_list state;
     port_count := port_count state;
     selected_port_idx := selected_port_idx state;
     is_connected := is_connected state;
     identity := identity state;
     serial_number := serial_number state;
     fw_version := fw_version state;
     current_freq_ghz := current_freq_ghz state;
     is_locked := is_locked state;
     temperature_c := temperature_c state;
     power_level := power_level state;
     temp_supported := temp_supported state;
     target_freq_ghz := target_freq_ghz state;
     target_power_level := target_power_level state;
     scpi_command := scpi_command state;
     scpi_log := scpi_log state;
     last_update_time := last_update_time state;
     auto_refresh_enabled := v |}.

(** The format of [update_all_values],
    [%63[^,],%63[^,],%63[^,],%63s]. *)
Definition IDENTITY_FORMAT : list directive :=
  [NotComma (Some 63%nat) true; Comma; NotComma (Some 63%nat) true; Comma;
   NotComma (Some 63%nat) true; Comma; Word 63].

Section Refresh.

Variable P : platform.
Variable L : listing.

(** [time(NULL)] *)
Variable time : world -> Z.

(** [safe_delay(milliseconds)] *)
Definition safe_delay (milliseconds : Z) : M unit :=
  fun w => Done tt (record (Delay milliseconds) (tick milliseconds w)).

(** [refresh_port_list(state)] *)
Definition refresh_port_list (state : AppState) : AppState :=
  let state := match port_list state with
               | Some _ => with_port_list None state
               | None => state
               end in
  let state := with_selected_port_idx (-1) state in
  let found := budc_find_ports L (port_list state) in
  with_port_count (fst found) (with_port_list (snd found) state).

(** [update_frequency_only(state)] *)
Definition update_frequency_only (state : AppState) : M AppState :=
  if negb (is_connected state) then ret state else
  r <- budc_get_frequency_ghz P (dev state) (current_freq_ghz state) ;;
  let state := with_current_freq_ghz (snd r) state in
  if fst r =? 0 then ret (with_target_freq_ghz (current_freq_ghz state) state)
  else ret state.

(** [update_power_only(state)] *)
Definition update_power_only (state : AppState) : M AppState :=
  if negb (is_connected state) then ret state else
  r <- budc_get_power_level P (dev state) (power_level state) ;;
  let state := with_power_level (snd r) state in
  if fst r =? 0 then ret (with_target_power_level (power_level state) state)
  else ret state.

(** [update_device_status(state)] *)
Definition update_device_status (state : AppState) : M AppState :=
  if negb (is_connected state) then ret state else
  state <- update_frequency_only state ;;
  safe_delay 50 ;;
  r <- budc_get_lock_status P (dev state) (is_locked state) ;;
  let state := with_is_locked (snd r) state in
  safe_delay 50 ;;
  r <- budc_get_temperature_c P (dev state) (temperature_c state) ;;
  let state := with_temperature_c (snd r) state in
  let state := if fst r =? 0 then with_temp_supported true state
               else with_temperature_c (float_of_Z (-999))
                      (with_temp_supported false state) in
  safe_delay 50 ;;
  state <- update_power_only state ;;
  fun w => Done (with_last_update_time (time w) state) w.

(** [update_all_values(state)] *)
Definition update_all_values (state : AppState) : M AppState :=
  if negb (is_connected state) then ret state else
  r <- budc_get_identity P (dev state) (Some (identity state)) 256 ;;
  let state := match snd r with
               | Some s => with_identity s state
               | None => state
               end in
  let state :=
    if fst r =? 0 then
      match sscanf IDENTITY_FORMAT (identity state)
              [EmptyString; EmptyString; serial_number state; fw_version state] with
      | [company; product; serial; fw] =>
          with_identity (truncate 255 (company +:+ " " +:+ product))
            (with_fw_version fw (with_serial_number serial state))
      | _ => state
      end
    else
      with_fw_version EmptyString
        (with_serial_number EmptyString
           (with_identity "Error: Failed to read IDN" state)) in
  safe_delay 100 ;;
  update_device_status state.

(** [init_app_state(state)] *)
Definition init_app_state : AppState :=
  let state := with_selected_port_idx (-1) zeroed in
  let state := with_port_list None state in
  let found := budc_find_ports L (port_list state) in
  let state := with_port_count (fst found) (with_port_list (snd found) state) in
  with_auto_refresh_enabled false state.

(** [cleanup_app_state(state)]; the port list it frees is not part of
    the world. *)
Definition cleanup_app_state (state : AppState) : M unit :=
  if is_connected state then budc_disconnect (dev state) else ret tt.

End Refresh.

End Gui.

(** ** Vocabulary of the callers' properties *)

(** [m] run in [w] ends with a value that satisfies [R], and leaves the
    live ports and handles as they were. *)
Definition settles {A} (m : M A) (w : world) (R : A -> Prop) : Prop :=
  exists a w', m w = Done a w' /\ ports w' = ports w /\ devs w' = devs w /\ R a.

(** The options under which no command of [main] can set [result]. *)
Definition quiet (o : Cli.options) : Prop :=
  float_ge (Cli.set_freq_ghz o) (double_of_Z 0) = false
  /\ float_ge (Cli.set_freq_mhz o) (double_of_Z 0) = false
  /\ float_ge (Cli.set_freq_hz o) (double_of_Z 0) = false
  /\ (0 <=? Cli.set_power_level o) = false
  /\ Cli.wait_for_lock_after_set o = false
  /\ Cli.do_preset o = false
  /\ Cli.do_save o = false
  /\ Cli.get_freq o = false
  /\ Cli.get_power o = false
  /\ Cli.get_lock o = false
  /\ Cli.raw_command o = None.

(** The polls [budc_wait_for_lock] can make within the 5000 ms that
    [main] gives it. *)
Definition CLI_POLLS : nat := 27.

(** A field of the identity reply as [%63[^,]] takes it whole: not
    empty, no comma, at most 63 characters. *)
Definition not_comma (c : ascii) : bool := negb (Ascii.eqb c ",").

Definition identity_field (s : string) : Prop :=
  s <> EmptyString /\ every not_comma s = true /\ (String.length s <= 63)%nat.

(** The last field as [%63s] takes it whole: not empty, no white space,
    at most 63 characters. *)
Definition identity_word (s : string) : Prop :=
  s <> EmptyString /\ every (fun c => negb (isspace c)) s = true
  /\ (String.length s <= 63)%nat.

(** Every width of an assigning conversion of [format] is at most [n]. *)
Fixpoint widths_within (n : nat) (format : list directive) : Prop :=
  match format with
  | [] => True
  | NotComma (Some width) _ :: format' => (width <= n)%nat /\ widths_within n format'
  | NotComma None assign :: format' => assign = false /\ widths_within n format'
  | Comma :: format' => widths_within n format'
  | Word width :: format' => (width <= n)%nat /\ widths_within n format'
  end.

(** The port list of the application state and its count agree: no list
    when the count is not positive, a list of [port_count] entries
    otherwise. *)
Definition port_list_consistent (state : Gui.AppState) : Prop :=
  match Gui.port_list state with
  | None => Gui.port_count state <= 0
  | Some l => 0 < Gui.port_count state /\ Z.of_nat (length l) = Gui.port_count state
  end.

(** The longest [update_device_status] can take: nine commands with a
    retry delay of 100 ms, five with one of 250 ms, three pauses of
    50 ms. *)
Definition STATUS_BUDGET_MS (P : platform) : Z :=
  9 * (SEND_BUDGET_MS P + 100) + 5 * (SEND_BUDGET_MS P + 250) + 150.

(** What [update_device_status] does to the state over a connected
    handle. *)
Definition status_refreshed (state state' : Gui.AppState) : Prop :=
  (if Gui.temp_supported state'
   then in_plausible_range (Gui.temperature_c state') = true
   else Gui.temperature_c state' = float_of_Z (-999))
  /\ (Gui.target_freq_ghz state' = Gui.current_freq_ghz state'
      \/ (Gui.target_freq_ghz state' = Gui.target_freq_ghz state
          /\ Gui.current_freq_ghz state' = Gui.current_freq_ghz state))
  /\ (Gui.target_power_level state' = Gui.power_level state'
      \/ (Gui.target_power_level state' = Gui.target_power_level state
          /\ Gui.power_level state' = Gui.power_level state))
  /\ Gui.dev state' = Gui.dev state
  /\ Gui.is_connected state' = Gui.is_connected state
  /\ Gui.identity state' = Gui.identity state
  /\ Gui.serial_number state' = Gui.serial_number state
  /\ Gui.fw_version state' = Gui.fw_version state
  /\ Gui.port_list state' = Gui.port_list state
  /\ Gui.port_count state' = Gui.port_count state
  /\ Gui.selected_port_idx state' = Gui.selected_port_idx state.

(** ** Further simulated devices and callers *)

(** A device that answers the power query with 7 between white space. *)
Definition power_device : platform := scripted [answers (" 7" +:+ COMMAND_TERMINATOR)].

(** A device that answers the identity query with four fields, and
    nothing after that. *)
Definition identity_device : platform :=
  scripted [answers ("ACME,BUDC,SN0042,1.2" +:+ COMMAND_TERMINATOR)].

(** A machine with two serial ports, one without a description. *)
Definition two_ports : listing :=
  {| list_ok := true;
     listed := [("/dev/ttyACM0", Some "BUDC"); ("/dev/ttyS0", None)];
     calloc_ok := true |}.

(** Some content of the uninitialised locals of [main]. *)
Definition stack_junk : Cli.locals :=
  {| Cli.freq := S754_nan; Cli.power := 12345; Cli.temp := S754_nan; Cli.locked := true |}.

(** A wall clock that started at some second and follows the elapsed
    time. *)
Definition wall_clock (w : world) : Z := 1700000000 + now w / 1000.

(** The application state after a connect over [handle P], showing the
    values of an earlier refresh. *)
Definition connected_state (P : platform) : Gui.AppState :=
  {| Gui.dev := handle P;
     Gui.port_list := Gui.port_list Gui.zeroed;
     Gui.port_count := Gui.port_count Gui.zeroed;
     Gui.selected_port_idx := -1;
     Gui.is_connected := true;
     Gui.identity := Gui.identity Gui.zeroed;
     Gui.serial_number := "SN0001";
     Gui.fw_version := "0.9";
     Gui.current_freq_ghz := Gui.current_freq_ghz Gui.zeroed;
     Gui.is_locked := Gui.is_locked Gui.zeroed;
     Gui.temperature_c := float_of_Z 25;
     Gui.power_level := Gui.power_level Gui.zeroed;
     Gui.temp_supported := true;
     Gui.target_freq_ghz := Gui.target_freq_ghz Gui.zeroed;
     Gui.target_power_level := Gui.target_power_level Gui.zeroed;
     Gui.scpi_command := Gui.scpi_command Gui.zeroed;
     Gui.scpi_log := Gui.scpi_log Gui.zeroed;
     Gui.last_update_time := Gui.last_update_time Gui.zeroed;
     Gui.auto_refresh_enabled := Gui.auto_refresh_enabled Gui.zeroed |}.

(** * Properties *)

(** ** Evaluation on examples *)

Example trim_ex1 : trim_whitespace (" 12.5 " +:+ COMMAND_TERMINATOR) = "12.5".
Proof. reflexivity. Qed.
Example trim_ex2 : trim_whitespace (" " +:+ COMMAND_TERMINATOR) = "".
Proof. reflexivity. Qed.
Example atoi_ex1 : decimal_prefix " -12abc" = -12.
Proof. reflexivity. Qed.
Example scan_ex1 : skip_to_number "T=-3.5C" = "-3.5C".
Proof. reflexivity. Qed.

(** ** Trimming *)

Lemma append_cons c a b : String c a +:+ b = String c (a +:+ b).
Proof. reflexivity. Qed.

Lemma append_empty b : EmptyString +:+ b = b.
Proof. reflexivity. Qed.

Lemma skip_space_split s :
  exists pre, s = pre +:+ skip_space s /\ all_space pre = true.
Proof.
  induction s as [|c r [pre [Hr Hpre]]]; simpl.
  - exists EmptyString. auto.
  - destruct (isspace c) eqn:Hc.
    + exists (String c pre). simpl. rewrite Hc, Hpre, append_cons, <- Hr. auto.
    + exists EmptyString. auto.
Qed.

Lemma skip_space_first s : first_is_space (skip_space s) = false.
Proof.
  induction s as [|c r IH]; simpl; [reflexivity|].
  destruct (isspace c) eqn:Hc; [exact IH | simpl; exact Hc].
Qed.

Lemma rstrip_split s :
  exists post, s = rstrip s +:+ post /\ all_space post = true.
Proof.
  induction s as [|c r [post [Hr Hpost]]]; simpl.
  - exists EmptyString. auto.
  - destruct (rstrip r) as [|d r'] eqn:Hs.
    + rewrite append_empty in Hr. subst post.
      destruct (isspace c) eqn:Hc.
      * exists (String c r). simpl. rewrite Hc, Hpost. auto.
      * exists r. auto.
    + exists post. rewrite append_cons, <- Hr. auto.
Qed.

Lemma rstrip_last s : last_is_space (rstrip s) = false.
Proof.
  induction s as [|c r IH]; simpl; [reflexivity|].
  destruct (rstrip r) as [|d r'] eqn:Hs.
  - destruct (isspace c) eqn:Hc; simpl; [reflexivity | exact Hc].
  - exact IH.
Qed.

Lemma rstrip_nonspace_head c r :
  isspace c = false -> last_is_space (String c (rstrip r)) = false.
Proof.
  intros Hc. pose proof (rstrip_last r) as H.
  simpl. destruct (rstrip r); [exact Hc | exact H].
Qed.

(** What [trim_whitespace] leaves: the string without the white space
    before and after it. *)
Lemma trim_whitespace_split s :
  exists pre post,
    s = pre +:+ trim_whitespace s +:+ post
    /\ all_space pre = true /\ all_space post = true.
Proof.
  destruct s as [|c0 r0].
  - exists EmptyString, EmptyString. auto.
  - unfold trim_whitespace.
    destruct (skip_space_split (String c0 r0)) as [pre [Hs Hpre]].
    destruct (skip_space (String c0 r0)) as [|c r] eqn:Hk.
    + exists pre, EmptyString. rewrite Hs. auto.
    + destruct (rstrip_split r) as [post [Hr Hpost]].
      exists pre, post. rewrite append_cons, <- Hr. auto.
Qed.

Lemma trim_whitespace_first s : first_is_space (trim_whitespace s) = false.
Proof.
  destruct s as [|c0 r0]; [reflexivity|].
  unfold trim_whitespace. pose proof (skip_space_first (String c0 r0)) as H.
  destruct (skip_space (String c0 r0)); [reflexivity | exact H].
Qed.

Lemma trim_whitespace_last s : last_is_space (trim_whitespace s) = false.
Proof.
  destruct s as [|c0 r0]; [reflexivity|].
  unfold trim_whitespace. pose proof (skip_space_first (String c0 r0)) as H.
  destruct (skip_space (String c0 r0)) as [|c r]; [reflexivity|].
  apply rstrip_nonspace_head. exact H.
Qed.

Lemma strlen_zero s : (strlen s =? 0) = true <-> s = EmptyString.
Proof.
  unfold strlen. destruct s; simpl; split; intros H;
    try reflexivity; try discriminate.
Qed.

(** ** One command on the line *)

Section Transport.

Variable P : platform.

Lemma world_eq (w1 w2 : world) :
  now w1 = now w2 -> ports w1 = ports w2 -> devs w1 = devs w2 ->
  written w1 = written w2 -> log w1 = log w2 -> w1 = w2.
Proof. destruct w1, w2; simpl; intros; subst; reflexivity. Qed.

Lemma bind_run {A B} (m : M A) (k : A -> M B) w a w' :
  m w = Done a w' -> bind m k w = k a w'.
Proof. unfold bind. intros ->. reflexivity. Qed.

Lemma is_connected_run w dev port :
  connected w dev port -> budc_is_connected dev w = Done true w.
Proof.
  intros (d & o & -> & Hd & _). unfold budc_is_connected, bind, load_port.
  rewrite Hd. reflexivity.
Qed.

Lemma port_of_run w dev port :
  connected w dev port -> port_of dev w = Done port w.
Proof.
  intros (d & o & -> & Hd & _). unfold port_of, bind, load_port.
  rewrite Hd. reflexivity.
Qed.

Lemma sp_flush_run w port o :
  ports w !! port = Some o -> sp_flush port w = Done tt (record (Flush port) w).
Proof. intros H. unfold sp_flush, live_port. rewrite H. reflexivity. Qed.

Lemma sp_blocking_write_run w port o buf count timeout :
  ports w !! port = Some o -> opened o = true ->
  sp_blocking_write P port buf count timeout w
  = Done (write_result (line P (written w)) count)
         (count_write (tick (blocked (wr_ms (line P (written w))) timeout)
                            (record (BlockingWrite port buf timeout) w))).
Proof. intros H Ho. unfold sp_blocking_write. rewrite H, Ho. reflexivity. Qed.

Lemma sp_blocking_read_next_run w port o count timeout :
  ports w !! port = Some o -> opened o = true ->
  sp_blocking_read_next P port count timeout w
  = let w1 := record (BlockingReadNext port count timeout) w in
    if count =? 0 then Done (0, EmptyString) w1
    else Done (read_result (line P (Nat.pred (written w))) count)
              (tick (blocked (rd_ms (line P (Nat.pred (written w)))) timeout) w1).
Proof. intros H Ho. unfold sp_blocking_read_next. rewrite H, Ho. reflexivity. Qed.

Ltac same_world :=
  f_equal; apply world_eq; simpl; try reflexivity; try lia;
  repeat rewrite <- app_assoc; reflexivity.

Lemma send_raw_run w dev port command response response_len :
  connected w dev port ->
  budc_send_raw_command P dev command response response_len w
  = Done (send_result command response response_len (line P (written w)))
         (send_world P command response response_len port w).
Proof.
  intros Hc. pose proof Hc as (d & o & -> & Hd & Hp & Ho).
  unfold budc_send_raw_command, send_result, send_world, send_log, send_ms, reaches_read.
  rewrite (bind_run _ _ _ _ _ (is_connected_run _ _ _ Hc)).
  cbv beta. cbn [negb].
  rewrite (bind_run _ _ _ _ _ (port_of_run _ _ _ Hc)). cbv beta.
  rewrite (bind_run _ _ _ _ _ (sp_flush_run _ _ _ Hp)). cbv beta.
  rewrite (bind_run _ _ _ _ _
             (sp_blocking_write_run (record (Flush port) w) port o _ _ _ Hp Ho)).
  cbv beta.
  simpl written. simpl now.
  destruct (write_result _ _ <? _) eqn:Hw; [unfold ret; same_world|].
  destruct (strchr command "?") eqn:Hq; [|unfold ret; same_world].
  destruct response; [unfold ret; same_world|].
  destruct (response_len =? 0) eqn:Hl; [unfold ret; same_world|].
  cbn [negb andb].
  assert (Hrd : forall w1 : world,
             ports w1 = ports w -> written w1 = S (written w) ->
             sp_blocking_read_next P port (response_len - 1) READ_TIMEOUT_MS w1
             = let w2 := record (BlockingReadNext port (response_len - 1) READ_TIMEOUT_MS) w1 in
               if response_len - 1 =? 0 then Done (0, EmptyString) w2
               else Done (read_result (line P (written w)) (response_len - 1))
                         (tick (blocked (rd_ms (line P (written w))) READ_TIMEOUT_MS) w2)).
  { intros w1 H1 H2. rewrite (sp_blocking_read_next_run w1 port o); [|congruence|exact Ho].
    rewrite H2. reflexivity. }
  destruct (win32 P).
  - unfold scpi_delay at 1. unfold bind at 1.
    unfold bind at 1. rewrite Hrd by reflexivity. cbv zeta.
    destruct (response_len - 1 =? 0); cbv beta iota.
    + simpl. unfold ret. same_world.
    + destruct (0 <? fst _); [destruct (strlen _ =? 0)|]; unfold ret; same_world.
  - unfold ret at 1. unfold bind at 1.
    unfold bind at 1. rewrite Hrd by reflexivity. cbv zeta.
    destruct (response_len - 1 =? 0); cbv beta iota.
    + simpl. unfold ret. same_world.
    + destruct (0 <? fst _); [destruct (strlen _ =? 0)|]; unfold ret; same_world.
Qed.

Lemma count_writes_app l1 l2 :
  count_writes (l1 ++ l2) = (count_writes l1 + count_writes l2)%nat.
Proof.
  induction l1 as [|e l1 IH]; simpl; [reflexivity|].
  destruct e; simpl; rewrite IH; reflexivity.
Qed.

Lemma count_writes_send command response response_len port x :
  count_writes (send_log P command response response_len port x) = 1%nat.
Proof.
  unfold send_log. simpl.
  destruct (reaches_read _ _ _ _); [|reflexivity].
  destruct (win32 P); reflexivity.
Qed.

Lemma blocked_bounds ms timeout : 0 <= timeout -> 0 <= blocked ms timeout <= timeout.
Proof. unfold blocked. lia. Qed.

Lemma send_ms_bounds command response response_len x :
  0 <= send_ms P command response response_len x <= SEND_BUDGET_MS P.
Proof.
  unfold send_ms, SEND_BUDGET_MS.
  pose proof (blocked_bounds (wr_ms x) READ_TIMEOUT_MS) as Hw.
  pose proof (blocked_bounds (rd_ms x) READ_TIMEOUT_MS) as Hr.
  unfold READ_TIMEOUT_MS in *.
  destruct (reaches_read _ _ _ _), (win32 P), (response_len - 1 =? 0); lia.
Qed.

Lemma send_world_connected w dev port command response response_len :
  connected w dev port ->
  connected (send_world P command response response_len port w) dev port.
Proof. intros (d & o & H). exists d, o. exact H. Qed.

Lemma delay_connected w dev port ms :
  connected w dev port -> connected (record (Delay ms) (tick ms w)) dev port.
Proof. intros (d & o & H). exists d, o. exact H. Qed.

(** *** The retry loop over a connected handle *)

Section Retry.

Context {T : Type}.
Variables (dev : ptr) (port : loc).
Variable body : nat -> T -> M (bool * T).
Variables (command : string) (response : buffer_arg) (response_len : Z).
Variable accept : nat -> exchange -> bool.
Variable store : nat -> T -> exchange -> T.
Variable valid : T -> Prop.

Hypothesis store_valid : forall i mem x, valid mem -> valid (store i mem x).

Hypothesis body_run : forall w i mem,
  valid mem ->
  connected w dev port ->
  body i mem w
  = Done (accept i (line P (written w)), store i mem (line P (written w)))
         (send_world P command response response_len port w).

Lemma for_attempts_step w n i0 delay_ms mem :
  valid mem ->
  connected w dev port ->
  for_attempts (S n) i0 delay_ms body mem w
  = let x := line P (written w) in
    let w1 := send_world P command response response_len port w in
    if accept i0 x then Done (0, store i0 mem x) w1
    else for_attempts n (S i0) delay_ms body (store i0 mem x)
           (record (Delay delay_ms) (tick delay_ms w1)).
Proof.
  intros Hv Hc. simpl. rewrite (bind_run _ _ _ _ _ (body_run w i0 mem Hv Hc)).
  cbv beta zeta. simpl fst. simpl snd.
  destruct (accept i0 _); reflexivity.
Qed.

(** The loop always ends, with 0 or -1, the handle still connected, and
    within [n] commands and delays. *)
Lemma for_attempts_total n : forall i0 delay_ms mem w,
  0 <= delay_ms ->
  valid mem ->
  connected w dev port ->
  exists rc mem' w',
    for_attempts n i0 delay_ms body mem w = Done (rc, mem') w'
    /\ (rc = 0 \/ rc = -1)
    /\ connected w' dev port
    /\ (written w <= written w' <= written w + n)%nat
    /\ now w <= now w' <= now w + Z.of_nat n * (SEND_BUDGET_MS P + delay_ms).
Proof.
  induction n as [|n IH]; intros i0 delay_ms mem w Hd Hv Hc.
  - exists (-1), mem, w. simpl. unfold ret. repeat split; auto; lia.
  - rewrite for_attempts_step by assumption. cbv zeta.
    pose proof (send_ms_bounds command response response_len (line P (written w))) as Hb.
    rewrite Nat2Z.inj_succ, Z.mul_succ_l.
    assert (0 <= Z.of_nat n * (SEND_BUDGET_MS P + delay_ms)) as Hpos
      by (apply Z.mul_nonneg_nonneg; lia).
    destruct (accept i0 _).
    + eexists _, _, _. split; [reflexivity|].
      split; [auto|]. split; [apply send_world_connected; exact Hc|].
      simpl. split; lia.
    + edestruct (IH (S i0) delay_ms (store i0 mem (line P (written w)))) as
        (rc & mem' & w' & Hrun & Hrc & Hc' & Hwr & Hnow);
        [exact Hd | apply store_valid; exact Hv
        | apply delay_connected, send_world_connected; exact Hc |].
      exists rc, mem', w'. split; [exact Hrun|].
      split; [exact Hrc|]. split; [exact Hc'|].
      simpl in Hwr, Hnow. split; lia.
Qed.

(** Rejected [m - 1] times and accepted at the [m]-th attempt, within the
    ceiling: success after exactly [m] commands. *)
Lemma for_attempts_succeeds m : forall n i0 delay_ms mem w,
  valid mem ->
  connected w dev port ->
  (m < n)%nat ->
  rejected_run P accept w i0 m ->
  accept (i0 + m) (line P (written w + m)) = true ->
  exists mem' w',
    for_attempts n i0 delay_ms body mem w = Done (0, mem') w'
    /\ written w' = (written w + S m)%nat
    /\ count_writes (log w') = (count_writes (log w) + S m)%nat
    /\ exists mem0, mem' = store (i0 + m) mem0 (line P (written w + m)).
Proof.
  induction m as [|m IH]; intros n i0 delay_ms mem w Hv Hc Hn Hrej Hacc.
  - destruct n as [|n]; [lia|].
    rewrite for_attempts_step by assumption. cbv zeta.
    rewrite !Nat.add_0_r in *. rewrite Hacc.
    eexists _, _. split; [reflexivity|]. simpl.
    rewrite count_writes_app, count_writes_send.
    split; [lia|]. split; [lia|]. exists mem. reflexivity.
  - destruct n as [|n]; [lia|].
    rewrite for_attempts_step by assumption. cbv zeta.
    pose proof (Hrej O ltac:(lia)) as H0. rewrite !Nat.add_0_r in H0. rewrite H0.
    edestruct (IH n (S i0) delay_ms (store i0 mem (line P (written w)))) as
      (mem' & w' & Hrun & Hwr & Hcnt & mem0 & Hst).
    + apply store_valid. exact Hv.
    + apply delay_connected, send_world_connected. exact Hc.
    + lia.
    + intros j Hj. simpl written.
      replace (S i0 + j)%nat with (i0 + S j)%nat by lia.
      replace (S (written w) + j)%nat with (written w + S j)%nat by lia.
      apply Hrej. lia.
    + simpl written.
      replace (S i0 + m)%nat with (i0 + S m)%nat by lia.
      replace (S (written w) + m)%nat with (written w + S m)%nat by lia.
      exact Hacc.
    + exists mem', w'. split; [exact Hrun|].
      simpl in Hwr, Hcnt. simpl written in Hst. rewrite count_writes_app in Hcnt.
      rewrite count_writes_app, count_writes_send in Hcnt. simpl in Hcnt.
      replace (S i0 + m)%nat with (i0 + S m)%nat in Hst by lia.
      replace (S (written w) + m)%nat with (written w + S m)%nat in Hst by lia.
      split; [lia|]. split; [lia|]. exists mem0. exact Hst.
Qed.

(** Every attempt rejected: failure after exactly [n] commands. *)
Lemma for_attempts_exhausts n : forall i0 delay_ms mem w,
  valid mem ->
  connected w dev port ->
  rejected_run P accept w i0 n ->
  exists mem' w',
    for_attempts n i0 delay_ms body mem w = Done (-1, mem') w'
    /\ written w' = (written w + n)%nat
    /\ count_writes (log w') = (count_writes (log w) + n)%nat.
Proof.
  induction n as [|n IH]; intros i0 delay_ms mem w Hv Hc Hrej.
  - exists mem, w. simpl. unfold ret. repeat split; lia.
  - rewrite for_attempts_step by assumption. cbv zeta.
    pose proof (Hrej O ltac:(lia)) as H0. rewrite !Nat.add_0_r in H0. rewrite H0.
    edestruct (IH (S i0) delay_ms (store i0 mem (line P (written w)))) as
      (mem' & w' & Hrun & Hwr & Hcnt).
    + apply store_valid. exact Hv.
    + apply delay_connected, send_world_connected. exact Hc.
    + intros j Hj. simpl written.
      replace (S i0 + j)%nat with (i0 + S j)%nat by lia.
      replace (S (written w) + j)%nat with (written w + S j)%nat by lia.
      apply Hrej. lia.
    + exists mem', w'. split; [exact Hrun|].
      simpl in Hwr, Hcnt. rewrite count_writes_app in Hcnt.
      rewrite count_writes_app, count_writes_send in Hcnt. simpl in Hcnt.
      split; lia.
Qed.

(** A successful loop stopped at the first accepted attempt. *)
Lemma for_attempts_success_inv n : forall i0 delay_ms mem w mem' w',
  valid mem ->
  connected w dev port ->
  for_attempts n i0 delay_ms body mem w = Done (0, mem') w' ->
  exists m mem0,
    (m < n)%nat
    /\ rejected_run P accept w i0 m
    /\ accept (i0 + m) (line P (written w + m)) = true
    /\ mem' = store (i0 + m) mem0 (line P (written w + m))
    /\ count_writes (log w') = (count_writes (log w) + S m)%nat.
Proof.
  induction n as [|n IH]; intros i0 delay_ms mem w mem' w' Hv Hc Hrun.
  - simpl in Hrun. unfold ret in Hrun. discriminate.
  - rewrite for_attempts_step in Hrun by assumption. cbv zeta in Hrun.
    destruct (accept i0 (line P (written w))) eqn:Hacc.
    + injection Hrun as <- <-. exists O, mem. rewrite !Nat.add_0_r.
      split; [lia|]. split; [intros j Hj; lia|]. split; [exact Hacc|].
      split; [reflexivity|]. simpl.
      rewrite count_writes_app, count_writes_send. lia.
    + apply IH in Hrun;
        [| apply store_valid; exact Hv
         | apply delay_connected, send_world_connected; exact Hc].
      destruct Hrun as (m & mem0 & Hm & Hrej & Ha & Hs & Hcnt).
      unfold rejected_run in Hrej. simpl written in Hrej, Ha, Hs.
      replace (S i0 + m)%nat with (i0 + S m)%nat in Ha, Hs by lia.
      replace (S (written w) + m)%nat with (written w + S m)%nat in Ha, Hs by lia.
      exists (S m), mem0. split; [lia|]. split.
      * intros j Hj. destruct j as [|j].
        -- rewrite !Nat.add_0_r. exact Hacc.
        -- assert (Hj' : (j < m)%nat) by lia.
           pose proof (Hrej j Hj') as Hr.
           replace (S i0 + j)%nat with (i0 + S j)%nat in Hr by lia.
           replace (S (written w) + j)%nat with (written w + S j)%nat in Hr by lia.
           exact Hr.
      * split; [exact Ha|]. split; [exact Hs|].
        simpl in Hcnt. rewrite count_writes_app in Hcnt.
        rewrite count_writes_app, count_writes_send in Hcnt. simpl in Hcnt. lia.
Qed.

End Retry.

End Transport.

(** ** The getters, attempt by attempt *)

Section Getters.

Variable P : platform.

Lemma query_result command response_len x :
  strchr command "?" = true ->
  match transport_reply command response_len x with
  | Some r => send_result command Buffer response_len x = (0, Some r)
  | None => fst (send_result command Buffer response_len x) = -1
  end.
Proof.
  intros Hq. unfold transport_reply, send_result. rewrite Hq. cbn [negb].
  destruct (write_result _ _ <? _); [reflexivity|].
  destruct (reaches_read _ _ _ _); [|reflexivity].
  destruct (0 <? fst _); [|reflexivity].
  destruct (strlen _ =? 0); reflexivity.
Qed.

Lemma attempt_result_accepts {T} (parse : nat -> string -> option T) command len i mem x :
  attempt_result parse command len i mem x
  = (accepts parse command len i x, snd (attempt_result parse command len i mem x)).
Proof.
  unfold attempt_result, accepts.
  destruct (transport_reply _ _ _); [destruct (parse i _)|]; reflexivity.
Qed.

Ltac attempt_run Hc :=
  rewrite (bind_run _ _ _ _ _ (send_raw_run P _ _ _ _ _ _ Hc)); cbv beta;
  unfold attempt_result;
  let Hq := fresh "Hq" in
  let rc := fresh "rc" in
  let out := fresh "out" in
  match goal with
  | |- context [transport_reply ?c ?l ?x] =>
      pose proof (query_result c l x eq_refl) as Hq;
      destruct (transport_reply c l x) as [r|]
  end;
  [ rewrite Hq; cbn [fst snd Z.eqb]
  | destruct (send_result _ _ _ _) as [rc out]; cbn [fst snd] in *; subst rc;
    reflexivity ].

Lemma frequency_attempt_run w dev port i mem :
  connected w dev port ->
  frequency_attempt P dev i mem w
  = Done (attempt_result (parse_frequency P) "FREQ?" 64 i mem (line P (written w)))
         (send_world P "FREQ?" Buffer 64 port w).
Proof. intros Hc. unfold frequency_attempt. attempt_run Hc. reflexivity. Qed.

Lemma lock_attempt_run w dev port i mem :
  connected w dev port ->
  lock_attempt P dev i mem w
  = Done (attempt_result (parse_lock P) "LOCK?" 16 i mem (line P (written w)))
         (send_world P "LOCK?" Buffer 16 port w).
Proof. intros Hc. unfold lock_attempt. attempt_run Hc. reflexivity. Qed.

Lemma power_attempt_run w dev port i mem :
  connected w dev port ->
  power_attempt P dev i mem w
  = Done (attempt_result (parse_power P) "PWR?" 16 i mem (line P (written w)))
         (send_world P "PWR?" Buffer 16 port w).
Proof. intros Hc. unfold power_attempt. attempt_run Hc. reflexivity. Qed.

Lemma temperature_attempt_run w dev port i mem :
  connected w dev port ->
  temperature_attempt P dev i mem w
  = Done (attempt_result (parse_temperature P) "TEMP?" 64 i mem (line P (written w)))
         (send_world P "TEMP?" Buffer 64 port w).
Proof.
  intros Hc. unfold temperature_attempt. attempt_run Hc.
  unfold parse_temperature, temperature_plausible.
  destruct (skip_to_number r); [reflexivity|].
  destruct (float_ge _ _ && float_le _ _); [|reflexivity].
  destruct (float_ne _ _ || _); reflexivity.
Qed.

Lemma identity_store_valid len i buffer x :
  is_Some buffer -> is_Some (identity_store len i buffer x).
Proof.
  intros H. unfold identity_store.
  destruct (snd _); [eexists; reflexivity | exact H].
Qed.

Lemma identity_attempt_run w dev port len i buffer :
  is_Some buffer ->
  connected w dev port ->
  identity_attempt P dev len i buffer w
  = Done (identity_accepts len i (line P (written w)),
          identity_store len i buffer (line P (written w)))
         (send_world P "*IDN?" Buffer len port w).
Proof.
  intros [s0 ->] Hc. unfold identity_attempt.
  rewrite (bind_run _ _ _ _ _ (send_raw_run P _ _ _ _ _ _ Hc)). cbv beta.
  unfold identity_accepts, identity_store.
  pose proof (query_result "*IDN?" len (line P (written w)) eq_refl) as Hq.
  destruct (transport_reply _ _ _) as [r|].
  - rewrite Hq. reflexivity.
  - destruct (send_result _ _ _ _) as [rc out]. cbn [fst snd] in *. subst rc.
    reflexivity.
Qed.

(** *** The retry ceiling *)

Lemma retry_law_intro {T} (dev : ptr) (port : loc) (body : nat -> T -> M (bool * T))
    (command : string) (response_len : Z) (accept : nat -> exchange -> bool)
    (store : nat -> T -> exchange -> T) (valid : T -> Prop)
    (ceiling : nat) (delay_ms : Z) (mem : T) (w : world) :
  (forall i mem x, valid mem -> valid (store i mem x)) ->
  (forall w i mem, valid mem -> connected w dev port ->
     body i mem w
     = Done (accept i (line P (written w)), store i mem (line P (written w)))
            (send_world P command Buffer response_len port w)) ->
  (forall i x, transport_reply command response_len x = None -> accept i x = false) ->
  valid mem ->
  connected w dev port ->
  retry_law P (for_attempts ceiling 0 delay_ms body mem) ceiling command response_len accept w.
Proof.
  intros Hsv Hbody Hfail Hv Hc. split.
  - intros n Hn Hrej Hacc.
    destruct (for_attempts_succeeds P dev port body command Buffer response_len
                accept store valid Hsv Hbody (n - 1) ceiling 0 delay_ms mem w)
      as (v & w' & Hrun & _ & Hcnt & _); try assumption; [lia | |].
    + intros j Hj. apply Hfail. apply Hrej. exact Hj.
    + exists v, w'. split; [exact Hrun|]. rewrite Hcnt. lia.
  - intros Hrej.
    destruct (for_attempts_exhausts P dev port body command Buffer response_len
                accept store valid Hsv Hbody ceiling 0 delay_ms mem w)
      as (v & w' & Hrun & _ & Hcnt); try assumption.
    exists v, w'. split; [exact Hrun | exact Hcnt].
Qed.

Lemma accepts_transport_failure {T} (parse : nat -> string -> option T) command len i x :
  transport_reply command len x = None -> accepts parse command len i x = false.
Proof. unfold accepts. intros ->. reflexivity. Qed.

(** C2. Each retrying getter over a connected handle: when the transport
    fails the first [n - 1] attempts and the [n]-th attempt gets an
    acceptable reply, with [n] at most the ceiling (3 for identity,
    frequency, lock and power, 5 for temperature), the getter returns 0
    after [n] commands; when every attempt fails it returns -1 after
    exactly the ceiling number of commands. *)
Theorem retrying_getters_ceiling (w : world) (dev : ptr) (port : loc)
    (buffer : string) (len : Z) (freq_ghz : spec_float) (is_locked : bool)
    (temp_c : spec_float) (power_level : Z) :
  connected w dev port ->
  retry_law P (budc_get_identity P dev (Some buffer) len) 3 "*IDN?" len
            (identity_accepts len) w
  /\ retry_law P (budc_get_frequency_ghz P dev freq_ghz) 3 "FREQ?" 64
               (accepts (parse_frequency P) "FREQ?" 64) w
  /\ retry_law P (budc_get_lock_status P dev is_locked) 3 "LOCK?" 16
               (accepts (parse_lock P) "LOCK?" 16) w
  /\ retry_law P (budc_get_power_level P dev power_level) 3 "PWR?" 16
               (accepts (parse_power P) "PWR?" 16) w
  /\ retry_law P (budc_get_temperature_c P dev temp_c) 5 "TEMP?" 64
               (accepts (parse_temperature P) "TEMP?" 64) w.
Proof.
  intros Hc. split; [|split; [|split; [|split]]].
  - apply (retry_law_intro dev port _ _ _ _ (identity_store len) is_Some);
      try assumption.
    + intros i mem x. apply identity_store_valid.
    + intros w0 i mem Hv Hc0. apply identity_attempt_run; assumption.
    + intros i x Hx. unfold identity_accepts. rewrite Hx. reflexivity.
    + eexists; reflexivity.
  - apply (retry_law_intro dev port _ _ _ _
             (fun i mem x => snd (attempt_result (parse_frequency P) "FREQ?" 64 i mem x))
             (fun _ => True)); auto.
    + intros w0 i mem _ Hc0. rewrite <- attempt_result_accepts.
      apply frequency_attempt_run. exact Hc0.
    + intros i x. apply accepts_transport_failure.
  - apply (retry_law_intro dev port _ _ _ _
             (fun i mem x => snd (attempt_result (parse_lock P) "LOCK?" 16 i mem x))
             (fun _ => True)); auto.
    + intros w0 i mem _ Hc0. rewrite <- attempt_result_accepts.
      apply lock_attempt_run. exact Hc0.
    + intros i x. apply accepts_transport_failure.
  - apply (retry_law_intro dev port _ _ _ _
             (fun i mem x => snd (attempt_result (parse_power P) "PWR?" 16 i mem x))
             (fun _ => True)); auto.
    + intros w0 i mem _ Hc0. rewrite <- attempt_result_accepts.
      apply power_attempt_run. exact Hc0.
    + intros i x. apply accepts_transport_failure.
  - apply (retry_law_intro dev port _ _ _ _
             (fun i mem x => snd (attempt_result (parse_temperature P) "TEMP?" 64 i mem x))
             (fun _ => True)); auto.
    + intros w0 i mem _ Hc0. rewrite <- attempt_result_accepts.
      apply temperature_attempt_run. exact Hc0.
    + intros i x. apply accepts_transport_failure.
Qed.

(** *** What a failed getter leaves at its output pointer *)

Lemma for_attempts_frame {T} (body : nat -> T -> M (bool * T)) :
  (forall i mem w b mem' w', body i mem w = Done (b, mem') w' -> b = false -> mem' = mem) ->
  forall n i0 delay_ms mem w rc mem' w',
    for_attempts n i0 delay_ms body mem w = Done (rc, mem') w' ->
    rc <> 0 -> mem' = mem.
Proof.
  intros Hbody. induction n as [|n IH]; intros i0 delay_ms mem w rc mem' w' Hrun Hrc.
  - simpl in Hrun. unfold ret in Hrun. congruence.
  - simpl in Hrun. unfold bind in Hrun.
    destruct (body i0 mem w) as [[b m1] w1| |] eqn:Hb; try discriminate.
    cbn [fst snd] in Hrun. destruct b.
    + unfold ret in Hrun. congruence.
    + unfold scpi_delay in Hrun.
      apply IH in Hrun; [|exact Hrc]. subst mem'.
      eapply Hbody; [exact Hb | reflexivity].
Qed.

Ltac attempt_frame :=
  let Hrun := fresh "Hrun" in
  let Hb := fresh "Hb" in
  intros ? ? ? ? ? ? Hrun Hb; subst;
  unfold bind, ret, undefined in Hrun;
  destruct (budc_send_raw_command _ _ _ _ _ _) as [[? [?|]] ?| |];
  cbn [fst snd] in Hrun;
  repeat match type of Hrun with
         | context [if ?c then _ else _] => destruct c
         | context [match ?c with EmptyString => _ | String _ _ => _ end] => destruct c
         end;
  congruence.

Lemma frequency_attempt_frame dev :
  forall i mem w b mem' w',
    frequency_attempt P dev i mem w = Done (b, mem') w' -> b = false -> mem' = mem.
Proof. unfold frequency_attempt. attempt_frame. Qed.

Lemma lock_attempt_frame dev :
  forall i mem w b mem' w',
    lock_attempt P dev i mem w = Done (b, mem') w' -> b = false -> mem' = mem.
Proof. unfold lock_attempt. attempt_frame. Qed.

Lemma power_attempt_frame dev :
  forall i mem w b mem' w',
    power_attempt P dev i mem w = Done (b, mem') w' -> b = false -> mem' = mem.
Proof. unfold power_attempt. attempt_frame. Qed.

Lemma temperature_attempt_frame dev :
  forall i mem w b mem' w',
    temperature_attempt P dev i mem w = Done (b, mem') w' -> b = false -> mem' = mem.
Proof. unfold temperature_attempt. attempt_frame. Qed.

(** C9. A numeric getter that returns failure leaves the value at its
    output pointer as it was before the call: it stores there only on the
    path that returns 0.  This holds in every world, connected or not. *)
Theorem getter_failure_preserves_output (dev : ptr) (w : world) :
  (forall (freq_ghz : spec_float) rc out w',
      budc_get_frequency_ghz P dev freq_ghz w = Done (rc, out) w' ->
      rc <> 0 -> out = freq_ghz)
  /\ (forall (is_locked : bool) rc out w',
      budc_get_lock_status P dev is_locked w = Done (rc, out) w' ->
      rc <> 0 -> out = is_locked)
  /\ (forall (temp_c : spec_float) rc out w',
      budc_get_temperature_c P dev temp_c w = Done (rc, out) w' ->
      rc <> 0 -> out = temp_c)
  /\ (forall (power_level : Z) rc out w',
      budc_get_power_level P dev power_level w = Done (rc, out) w' ->
      rc <> 0 -> out = power_level).
Proof.
  split; [|split; [|split]]; intros v rc out w' Hrun Hrc.
  - exact (for_attempts_frame _ (frequency_attempt_frame dev) _ _ _ _ _ _ _ _ Hrun Hrc).
  - exact (for_attempts_frame _ (lock_attempt_frame dev) _ _ _ _ _ _ _ _ Hrun Hrc).
  - exact (for_attempts_frame _ (temperature_attempt_frame dev) _ _ _ _ _ _ _ _ Hrun Hrc).
  - exact (for_attempts_frame _ (power_attempt_frame dev) _ _ _ _ _ _ _ _ Hrun Hrc).
Qed.

(** *** Lock status *)

Lemma atoi_one : atoi P "1" = 1.
Proof. reflexivity. Qed.

Lemma atoi_in_range s :
  INT_MIN <= decimal_prefix s <= INT_MAX -> atoi P s = decimal_prefix s.
Proof.
  intros [H1 H2]. unfold atoi.
  apply Z.leb_le in H1, H2. rewrite H1, H2. reflexivity.
Qed.

(** The first attempt that gets through the transport decides. *)
Lemma lock_status_first_success (w : world) (dev : ptr) (port : loc)
    (is_locked : bool) (n : nat) (r : string) :
  connected w dev port ->
  (1 <= n <= 3)%nat ->
  (forall j, (j < n - 1)%nat ->
     transport_reply "LOCK?" 16 (line P (written w + j)) = None) ->
  transport_reply "LOCK?" 16 (line P (written w + (n - 1))) = Some r ->
  exists w', budc_get_lock_status P dev is_locked w = Done (0, atoi P r =? 1) w'.
Proof.
  intros Hc Hn Hfail Hr.
  destruct (for_attempts_succeeds P dev port (lock_attempt P dev) "LOCK?" Buffer 16
              (accepts (parse_lock P) "LOCK?" 16)
              (fun i mem x => snd (attempt_result (parse_lock P) "LOCK?" 16 i mem x))
              (fun _ => True)) with (m := (n - 1)%nat) (n := 3%nat) (i0 := O)
              (delay_ms := 100) (mem := is_locked) (w := w)
    as (v & w' & Hrun & _ & _ & mem0 & Hv); auto.
  + intros w0 i mem _ Hc0. rewrite <- attempt_result_accepts.
    apply lock_attempt_run. exact Hc0.
  + lia.
  + intros j Hj. apply accepts_transport_failure. apply Hfail. exact Hj.
  + unfold accepts. simpl Nat.add. rewrite Hr. reflexivity.
  + exists w'. unfold budc_get_lock_status, MAX_RETRIES. rewrite Hrun. f_equal. f_equal.
    rewrite Hv. unfold attempt_result. simpl Nat.add. rewrite Hr. reflexivity.
Qed.

(** *** Temperature *)

(** C1. [budc_get_temperature_c] over a connected handle.  A value it
    returns lies in [-50.0, 150.0], and a returned 0.0 comes from the fifth
    attempt.  On each attempt the value parsed from a reply is rejected
    when out of range; in range it is accepted when non-zero or when the
    attempt is the fifth (index 4).  A 0.0 read at the fifth attempt after
    four rejected ones is returned with success. *)
Theorem temperature_acceptance (w : world) (dev : ptr) (port : loc) (temp_c : spec_float) :
  connected w dev port ->
  (forall v w',
      budc_get_temperature_c P dev temp_c w = Done (0, v) w' ->
      float_ge v (float_of_Z (-50)) = true
      /\ float_le v (float_of_Z 150) = true
      /\ (float_ne v (float_of_Z 0) = false ->
          count_writes (log w') = (count_writes (log w) + 5)%nat))
  /\ (forall i r,
        transport_reply "TEMP?" 64 (line P (written w)) = Some r ->
        skip_to_number r <> EmptyString ->
        let v := double_to_float (atof P (skip_to_number r)) in
        temperature_attempt P dev i temp_c w
        = Done (if in_plausible_range v
                then if float_ne v (float_of_Z 0) || (i =? 4)%nat
                     then (true, v) else (false, temp_c)
                else (false, temp_c))
               (send_world P "TEMP?" Buffer 64 port w))
  /\ (forall r,
        (forall j, (j < 4)%nat ->
           accepts (parse_temperature P) "TEMP?" 64 j (line P (written w + j)) = false) ->
        transport_reply "TEMP?" 64 (line P (written w + 4)) = Some r ->
        skip_to_number r <> EmptyString ->
        let v := double_to_float (atof P (skip_to_number r)) in
        in_plausible_range v = true ->
        float_ne v (float_of_Z 0) = false ->
        exists w', budc_get_temperature_c P dev temp_c w = Done (0, v) w').
Proof.
  intros Hc.
  assert (Hbody : forall w0 i mem, True -> connected w0 dev port ->
            temperature_attempt P dev i mem w0
            = Done (accepts (parse_temperature P) "TEMP?" 64 i (line P (written w0)),
                    snd (attempt_result (parse_temperature P) "TEMP?" 64 i mem (line P (written w0))))
                   (send_world P "TEMP?" Buffer 64 port w0)).
  { intros w0 i mem _ Hc0. rewrite <- attempt_result_accepts.
    apply temperature_attempt_run. exact Hc0. }
  split; [|split].
  - intros v w' Hrun.
    destruct (for_attempts_success_inv P dev port (temperature_attempt P dev) "TEMP?" Buffer 64
                (accepts (parse_temperature P) "TEMP?" 64)
                (fun i mem x => snd (attempt_result (parse_temperature P) "TEMP?" 64 i mem x))
                (fun _ => True) ltac:(auto) Hbody 5%nat O 250 temp_c w v w' I Hc Hrun)
      as (m & mem0 & Hm & _ & Hacc & Hv & Hcnt).
    simpl Nat.add in Hacc, Hv.
    unfold accepts in Hacc. unfold attempt_result in Hv.
    destruct (transport_reply _ _ _) as [r|]; [|discriminate].
    unfold parse_temperature in Hacc, Hv.
    destruct (skip_to_number r) as [|c s]; [discriminate|].
    destruct (temperature_plausible m _) eqn:Hp; [|discriminate].
    cbn [snd] in Hv. subst v.
    unfold temperature_plausible in Hp.
    apply andb_prop in Hp as [Hrange Hzero].
    apply andb_prop in Hrange as [Hge Hle].
    split; [exact Hge|]. split; [exact Hle|].
    intros Hz. rewrite Hz in Hzero. cbn [orb] in Hzero.
    apply Nat.eqb_eq in Hzero. subst m. exact Hcnt.
  - intros i r Hr Hs v. rewrite (temperature_attempt_run w dev port i temp_c Hc).
    f_equal. unfold attempt_result. rewrite Hr.
    unfold parse_temperature, temperature_plausible, in_plausible_range. subst v.
    destruct (skip_to_number r) as [|c s]; [congruence|].
    destruct (float_ge _ _ && float_le _ _); cbn [andb]; [|reflexivity].
    destruct (float_ne _ _ || _); reflexivity.
  - intros r Hrej Hr Hs v Hrange Hz.
    assert (Hparse : (parse_temperature P) 4 r = Some v).
    { unfold parse_temperature, temperature_plausible.
      unfold in_plausible_range in Hrange. subst v.
      revert Hs Hrange Hz. destruct (skip_to_number r) as [|c s]; [congruence|].
      intros _ -> ->. reflexivity. }
    destruct (for_attempts_succeeds P dev port (temperature_attempt P dev) "TEMP?" Buffer 64
                (accepts (parse_temperature P) "TEMP?" 64)
                (fun i mem x => snd (attempt_result (parse_temperature P) "TEMP?" 64 i mem x))
                (fun _ => True) ltac:(auto) Hbody 4%nat 5%nat O 250 temp_c w I Hc)
      as (v' & w' & Hrun & _ & _ & mem0 & Hv).
    + lia.
    + exact Hrej.
    + simpl Nat.add. unfold accepts. rewrite Hr, Hparse. reflexivity.
    + exists w'. unfold budc_get_temperature_c. rewrite Hrun. f_equal. f_equal.
      rewrite Hv. simpl Nat.add. unfold attempt_result. rewrite Hr, Hparse.
      reflexivity.
Qed.

End Getters.

(** ** The raw command *)

Section RawCommand.

Variable P : platform.

Lemma read_nothing x : fst (read_result x 0) <= 0.
Proof. unfold read_result. destruct (rd x); simpl; lia. Qed.

(** C6. [budc_send_raw_command] over a connected handle.  For a query
    (a command with a question mark), success means that the read returned
    more than zero bytes and that the response is the C string read with
    the white space before and after it removed, and not empty; zero or
    negative bytes read, or nothing left after trimming, is failure.  For
    a command without a question mark, a complete write is success and the
    response buffer is not stored to. *)
Theorem raw_command_response (w : world) (dev : ptr) (port : loc)
    (command : string) (response : buffer_arg) (response_len : Z)
    (rc : Z) (out : option string) (w' : world) :
  connected w dev port ->
  budc_send_raw_command P dev command response response_len w = Done (rc, out) w' ->
  let x := line P (written w) in
  let bytes_read := fst (read_result x (response_len - 1)) in
  let text := cstr (snd (read_result x (response_len - 1))) in
  (strchr command "?" = true ->
     (rc = 0 ->
        0 < bytes_read
        /\ out = Some (trim_whitespace text)
        /\ trim_whitespace text <> EmptyString
        /\ first_is_space (trim_whitespace text) = false
        /\ last_is_space (trim_whitespace text) = false
        /\ exists pre post,
             text = pre +:+ trim_whitespace text +:+ post
             /\ all_space pre = true /\ all_space post = true)
     /\ (bytes_read <= 0 \/ trim_whitespace text = EmptyString -> rc = -1)
     /\ (rc = 0 -> out <> Some EmptyString))
  /\ (strchr command "?" = false ->
      strlen (full_command command) <= write_result x (strlen (full_command command)) ->
      rc = 0 /\ out = None).
Proof.
  intros Hc Hrun x bytes_read text.
  rewrite (send_raw_run P w dev port command response response_len Hc) in Hrun.
  injection Hrun as Hres _. fold x in Hres.
  unfold send_result, reaches_read in Hres.
  split.
  - intros Hq. rewrite Hq in Hres. cbn [negb andb] in Hres.
    destruct (write_result x _ <? _).
    { injection Hres as <- <-. split; [intros; lia|]. split; intros; [reflexivity | lia]. }
    cbn [negb andb] in Hres.
    destruct response.
    { injection Hres as <- <-. split; [intros; lia|]. split; intros; [reflexivity | lia]. }
    destruct (response_len =? 0).
    { injection Hres as <- <-. split; [intros; lia|]. split; intros; [reflexivity | lia]. }
    cbn [negb] in Hres.
    destruct (response_len - 1 =? 0) eqn:Hcount.
    { cbn [fst] in Hres. change (0 <? 0) with false in Hres.
      injection Hres as <- <-. split; [intros; lia|]. split; intros; [reflexivity | lia]. }
    fold bytes_read in Hres. fold text in Hres.
    destruct (0 <? bytes_read) eqn:Hb.
    2:{ injection Hres as <- <-. split; [intros; lia|]. split; intros; [reflexivity | lia]. }
    apply Z.ltb_lt in Hb.
    destruct (strlen (trim_whitespace text) =? 0) eqn:He.
    { injection Hres as <- <-. split; [intros; lia|]. split; intros; [reflexivity | lia]. }
    injection Hres as <- <-.
    assert (Hne : trim_whitespace text <> EmptyString).
    { intros H. apply strlen_zero in H. congruence. }
    split; [|split].
    + intros _. split; [exact Hb|]. split; [reflexivity|]. split; [exact Hne|].
      split; [apply trim_whitespace_first|]. split; [apply trim_whitespace_last|].
      apply trim_whitespace_split.
    + intros [H|H]; [lia | contradiction].
    + intros _ [= H]. contradiction.
  - intros Hq Hw. rewrite Hq in Hres. cbn [negb] in Hres.
    apply Z.ltb_ge in Hw. rewrite Hw in Hres.
    injection Hres as <- <-. split; reflexivity.
Qed.

(** C10. A query with a null response buffer, or with a buffer of length
    zero, fails over a connected handle, and it fails after the write: the
    buffers have been flushed and the terminated command has been handed to
    [sp_blocking_write]; nothing is read.  A complete write does not change
    the result. *)
Theorem query_without_buffer_fails_after_write (w : world) (dev : ptr) (port : loc)
    (command : string) (response : buffer_arg) (response_len : Z) :
  connected w dev port ->
  strchr command "?" = true ->
  response = NullBuffer \/ response_len = 0 ->
  exists w',
    budc_send_raw_command P dev command response response_len w = Done (-1, None) w'
    /\ log w' = (log w ++ [Flush port;
                           BlockingWrite port (full_command command) READ_TIMEOUT_MS])%list
    /\ written w' = S (written w).
Proof.
  intros Hc Hq Hbuf.
  rewrite (send_raw_run P w dev port command response response_len Hc).
  assert (Hnr : reaches_read command response response_len (line P (written w)) = false).
  { unfold reaches_read. destruct Hbuf as [-> | ->].
    - apply andb_false_r.
    - destruct response; [apply andb_false_r|]. simpl. apply andb_false_r. }
  eexists. split; [|split].
  - f_equal. unfold send_result. rewrite Hq, Hnr. cbn [negb].
    destruct (write_result _ _ <? _); reflexivity.
  - simpl. unfold send_log. rewrite Hnr. reflexivity.
  - reflexivity.
Qed.

End RawCommand.

(** ** The deadline test in binary64

    The test [(double)(current - start) / CLOCKS_PER_SEC * 1000.0 >
    timeout_ms] rounds three times.  Rounding to nearest leaves every
    number that has a 53-bit mantissa on the side of the exact value it
    was on; with that, the test is decided by the exact quotient as soon
    as it is a millisecond away from the timeout. *)

Lemma digits2_pos_bounds p :
  2 ^ (Z.pos (digits2_pos p) - 1) <= Z.pos p < 2 ^ Z.pos (digits2_pos p).
Proof.
  induction p as [p IH | p IH |]; cbn [digits2_pos].
  - rewrite Pos2Z.inj_succ, (Pos2Z.inj_xI p).
    replace (Z.succ (Z.pos (digits2_pos p)) - 1) with (Z.succ (Z.pos (digits2_pos p) - 1)) by lia.
    rewrite !Z.pow_succ_r by lia.
    generalize dependent (2 ^ (Z.pos (digits2_pos p) - 1)).
    generalize (2 ^ Z.pos (digits2_pos p)). intros; lia.
  - rewrite Pos2Z.inj_succ, (Pos2Z.inj_xO p).
    replace (Z.succ (Z.pos (digits2_pos p)) - 1) with (Z.succ (Z.pos (digits2_pos p) - 1)) by lia.
    rewrite !Z.pow_succ_r by lia.
    generalize dependent (2 ^ (Z.pos (digits2_pos p) - 1)).
    generalize (2 ^ Z.pos (digits2_pos p)). intros; lia.
  - simpl. lia.
Qed.

Lemma digits2_pos_unique q k :
  2 ^ (k - 1) <= Z.pos q < 2 ^ k -> Z.pos (digits2_pos q) = k.
Proof.
  intros [Hlo Hhi]. pose proof (digits2_pos_bounds q) as [Dlo Dhi].
  set (d := Z.pos (digits2_pos q)) in *.
  destruct (Z.lt_trichotomy d k) as [H | [H | H]]; [|exact H|]; exfalso.
  - assert (2 ^ d <= 2 ^ (k - 1)) by (apply Z.pow_le_mono_r; lia). lia.
  - assert (2 ^ k <= 2 ^ (d - 1)) by (apply Z.pow_le_mono_r; lia). lia.
Qed.

Lemma shr_1_shifted rs : 0 <= shr_m rs -> shifted 1 rs (shr_1 rs).
Proof.
  destruct rs as [m r s]. cbn [shr_m]. intros Hm.
  destruct m as [|[p|p|]|]; try lia; cbn [shr_1]; unfold shifted; cbn [shr_m shr_r shr_s].
  - split; [lia|]. exists 0. split; [lia|]. split; [lia|]. destruct r, s; reflexivity.
  - split; [lia|]. exists 1. split; [lia|]. split; [lia|]. destruct r, s; reflexivity.
  - split; [lia|]. exists 0. split; [lia|]. split; [lia|]. destruct r, s; reflexivity.
  - split; [lia|]. exists 1. split; [lia|]. split; [lia|]. destruct r, s; reflexivity.
Qed.

Lemma shifted_trans a b rs rs1 rs2 :
  0 <= a -> 0 <= b ->
  shifted a rs rs1 -> shifted b rs1 rs2 -> shifted (a + b) rs rs2.
Proof.
  intros Ha Hb (H1 & rem1 & Hr1 & E1 & F1) (H2 & rem2 & Hr2 & E2 & F2).
  split; [exact H2|]. exists (rem1 + rem2 * 2 ^ a).
  assert (Hpa : 0 < 2 ^ a) by (apply Z.pow_pos_nonneg; lia).
  assert (Hpb : 0 < 2 ^ b) by (apply Z.pow_pos_nonneg; lia).
  rewrite Z.pow_add_r by lia.
  split; [nia|]. split; [rewrite E1, E2; ring|].
  rewrite F2, F1.
  assert (Hz : (rem1 + rem2 * 2 ^ a =? 0) = (rem1 =? 0) && (rem2 =? 0)).
  { destruct (rem1 =? 0) eqn:A, (rem2 =? 0) eqn:B; cbn;
      rewrite ?Z.eqb_eq, ?Z.eqb_neq in *; nia. }
  rewrite Hz. destruct (shr_r rs || shr_s rs), (rem1 =? 0), (rem2 =? 0); reflexivity.
Qed.

Lemma iter_pos_shifted p : forall rs,
  0 <= shr_m rs -> shifted (Z.pos p) rs (SpecFloat.iter_pos shr_1 p rs).
Proof.
  induction p as [p IH | p IH |]; intros rs Hm; cbn [SpecFloat.iter_pos].
  - pose proof (shr_1_shifted rs Hm) as S1.
    assert (H1 : 0 <= shr_m (shr_1 rs)) by apply S1.
    pose proof (IH _ H1) as S2.
    assert (H2 : 0 <= shr_m (SpecFloat.iter_pos shr_1 p (shr_1 rs))) by apply S2.
    pose proof (IH _ H2) as S3.
    replace (Z.pos p~1) with (1 + Z.pos p + Z.pos p) by (rewrite (Pos2Z.inj_xI p); lia).
    pose proof (shifted_trans 1 (Z.pos p) _ _ _ ltac:(lia) ltac:(lia) S1 S2) as S12.
    apply (shifted_trans (1 + Z.pos p) (Z.pos p) _ _ _ ltac:(lia) ltac:(lia) S12 S3).
  - pose proof (IH _ Hm) as S2.
    assert (H2 : 0 <= shr_m (SpecFloat.iter_pos shr_1 p rs)) by apply S2.
    pose proof (IH _ H2) as S3.
    replace (Z.pos p~0) with (Z.pos p + Z.pos p) by (rewrite (Pos2Z.inj_xO p); lia).
    apply (shifted_trans (Z.pos p) (Z.pos p) _ _ _ ltac:(lia) ltac:(lia) S2 S3).
  - apply shr_1_shifted. exact Hm.
Qed.

Lemma shr_shifted rs e n :
  0 <= shr_m rs -> 0 <= n ->
  shifted n rs (fst (shr rs e n)) /\ snd (shr rs e n) = e + n.
Proof.
  intros Hm Hn. destruct n as [|p|p]; try lia; cbn [shr fst snd].
  - split; [|lia]. split; [exact Hm|]. exists 0. cbn.
    split; [lia|]. split; [lia|]. rewrite orb_false_r. reflexivity.
  - split; [apply iter_pos_shifted; exact Hm | reflexivity].
Qed.

Lemma shifted_div k rs rs' :
  0 <= k -> shifted k rs rs' ->
  shr_m rs' = shr_m rs / 2 ^ k
  /\ (shr_r rs' || shr_s rs') = (shr_r rs || shr_s rs) || negb (shr_m rs mod 2 ^ k =? 0).
Proof.
  intros Hk (H & rem & Hr & E & F).
  assert (Hp : 0 < 2 ^ k) by (apply Z.pow_pos_nonneg; lia).
  assert (Hd : shr_m rs / 2 ^ k = shr_m rs') by (symmetry; apply (Z.div_unique_pos _ _ _ rem); lia).
  assert (Hm : shr_m rs mod 2 ^ k = rem) by (symmetry; apply (Z.mod_unique_pos _ _ (shr_m rs')); lia).
  rewrite Hd, Hm. auto.
Qed.

Lemma round_nearest_even_cases m rs :
  shr_m rs = m ->
  round_nearest_even m (loc_of_shr_record rs) = m
  \/ (round_nearest_even m (loc_of_shr_record rs) = m + 1
      /\ (shr_r rs || shr_s rs) = true).
Proof.
  intros _. destruct rs as [m0 r s]. destruct r, s; cbn; auto.
  destruct (Z.even m); auto.
Qed.

Lemma loc_inexact_flag m lx :
  (shr_r (shr_record_of_loc m lx) || shr_s (shr_record_of_loc m lx)) = true -> lx <> loc_Exact.
Proof. destruct lx as [|[| |]]; cbn; congruence. Qed.

Lemma shr_record_of_loc_m m lx : shr_m (shr_record_of_loc m lx) = m.
Proof. destruct lx as [|[| |]]; reflexivity. Qed.

Lemma binary_round_aux_normal (sx : bool) (p : positive) (ex : Z) (lx : location) :
  let n := Z.pos (digits2_pos p) - 53 in
  0 <= n ->
  -1074 <= ex + n ->
  ex + n + 1 <= 971 ->
  exists Mf ef,
    binary_round_aux 53 1024 sx (Z.pos p) ex lx = S754_finite sx Mf ef
    /\ 2 ^ 52 <= Z.pos Mf < 2 ^ 53
    /\ ex + n <= ef
    /\ (Z.pos Mf * 2 ^ (ef - (ex + n)) = Z.pos p / 2 ^ n
        \/ (Z.pos Mf * 2 ^ (ef - (ex + n)) = Z.pos p / 2 ^ n + 1
            /\ (lx <> loc_Exact \/ Z.pos p mod 2 ^ n <> 0))).
Proof.
  intros n Hn Hlo Hhi.
  pose proof (digits2_pos_bounds p) as [Dlo Dhi].
  assert (Hpn : 0 < 2 ^ n) by (apply Z.pow_pos_nonneg; lia).
  assert (E52 : 2 ^ (Z.pos (digits2_pos p) - 1) = 2 ^ 52 * 2 ^ n).
  { rewrite <- Z.pow_add_r by lia. f_equal. unfold n. lia. }
  assert (E53 : 2 ^ Z.pos (digits2_pos p) = 2 ^ 53 * 2 ^ n).
  { rewrite <- Z.pow_add_r by lia. f_equal. unfold n. lia. }
  rewrite E52 in Dlo. rewrite E53 in Dhi.
  unfold binary_round_aux, shr_fexp. cbn [Zdigits2].
  assert (Hf : fexp 53 1024 (Z.pos (digits2_pos p) + ex) - ex = n).
  { unfold fexp, emin, n in *. lia. }
  rewrite Hf.
  set (rs0 := shr_record_of_loc (Z.pos p) lx).
  assert (H0 : 0 <= shr_m rs0) by (unfold rs0; rewrite shr_record_of_loc_m; lia).
  destruct (shr_shifted rs0 ex n H0 Hn) as [Hs He].
  destruct (shr rs0 ex n) as [rs1 e1]. cbn [fst snd] in Hs, He. subst e1.
  destruct (shifted_div n rs0 rs1 Hn Hs) as [Hm1 Hfl1].
  unfold rs0 in Hm1, Hfl1. rewrite shr_record_of_loc_m in Hm1, Hfl1.
  fold rs0 in Hfl1.
  set (m1 := Z.pos p / 2 ^ n) in *.
  assert (Bm1 : 2 ^ 52 <= m1 < 2 ^ 53).
  { unfold m1. split.
    - apply Z.div_le_lower_bound; lia.
    - apply Z.div_lt_upper_bound; lia. }
  set (M := round_nearest_even (shr_m rs1) (loc_of_shr_record rs1)).
  assert (HM : M = m1 \/ (M = m1 + 1 /\ (lx <> loc_Exact \/ Z.pos p mod 2 ^ n <> 0))).
  { destruct (round_nearest_even_cases (shr_m rs1) rs1 eq_refl) as [E | [E F]].
    - left. unfold M. rewrite E. exact Hm1.
    - right. split; [unfold M; rewrite E, Hm1; reflexivity|].
      rewrite Hfl1 in F. apply orb_true_iff in F as [F | F].
      + left. apply (loc_inexact_flag _ _ F).
      + right. apply negb_true_iff, Z.eqb_neq in F. exact F. }
  clearbody M.
  assert (P52 : 2 ^ 52 = 4503599627370496) by reflexivity.
  assert (P53 : 2 ^ 53 = 9007199254740992) by reflexivity.
  destruct (Z_lt_le_dec M (2 ^ 53)) as [Hlt | Hge].
  - (* no second shift *)
    assert (HMpos : 2 ^ 52 <= M) by (destruct HM as [-> | [-> _]]; lia).
    destruct M as [|Mf|Mf]; try lia.
    assert (Hd : Z.pos (digits2_pos Mf) = 53) by (apply digits2_pos_unique; simpl (53 - 1); lia).
    cbn [Zdigits2]. rewrite Hd.
    assert (Hf2 : fexp 53 1024 (53 + (ex + n)) - (ex + n) = 0) by (unfold fexp, emin; lia).
    rewrite Hf2. cbn [shr shr_record_of_loc shr_m].
    assert (Hle : (ex + n <=? 1024 - 53) = true) by (apply Z.leb_le; lia).
    rewrite Hle. exists Mf, (ex + n).
    split; [reflexivity|]. split; [lia|]. split; [lia|].
    rewrite Z.sub_diag, Z.pow_0_r, Z.mul_1_r. exact HM.
  - (* the mantissa became 2^53 *)
    assert (HM53 : M = 2 ^ 53) by (destruct HM as [-> | [-> _]]; lia).
    assert (Hup : M = m1 + 1 /\ (lx <> loc_Exact \/ Z.pos p mod 2 ^ n <> 0))
      by (destruct HM as [-> | H]; [lia | exact H]).
    subst M. rewrite P53.
    change (Zdigits2 9007199254740992) with 54.
    exists 4503599627370496%positive, (ex + n + 1).
    split.
    + unfold fexp, emin.
      replace (Z.max (54 + (ex + n) - 53) (3 - 1024 - 53) - (ex + n)) with 1 by lia.
      cbn [shr shr_record_of_loc SpecFloat.iter_pos shr_1 shr_m].
      assert (Hle : (ex + n + 1 <=? 1024 - 53) = true) by (apply Z.leb_le; lia).
      rewrite Hle. reflexivity.
    + split; [lia|]. split; [lia|]. right.
      replace (ex + n + 1 - (ex + n)) with 1 by lia.
      split; [|apply Hup]. destruct Hup as [Hup _]. rewrite <- Hup, P53. reflexivity.
Qed.

Lemma pos_iter_xO (m : positive) (k : positive) :
  Z.pos (Pos.iter xO m k) = Z.pos m * 2 ^ Z.pos k.
Proof.
  induction k as [|k IH] using Pos.peano_ind.
  - cbn. lia.
  - rewrite Pos.iter_succ, Pos2Z.inj_succ, Z.pow_succ_r by lia.
    rewrite (Pos2Z.inj_xO (Pos.iter xO m k)), IH. ring.
Qed.

(** A positive integer below [2^53] converts to a double exactly. *)
Lemma double_of_Z_exact (z : Z) :
  0 < z < 2 ^ 53 ->
  exists M e,
    double_of_Z z = S754_finite false M e
    /\ 2 ^ 52 <= Z.pos M < 2 ^ 53
    /\ -52 <= e <= 0
    /\ Z.pos M = z * 2 ^ (- e).
Proof.
  intros [Hz0 Hz53]. destruct z as [|p|p]; try lia.
  unfold double_of_Z, binary_normalize, binary_round.
  pose proof (digits2_pos_bounds p) as [Dlo Dhi].
  set (d := Z.pos (digits2_pos p)) in *.
  assert (Hd1 : 1 <= d) by (unfold d; lia).
  assert (Hd53 : d <= 53).
  { destruct (Z_le_gt_dec d 53) as [H | H]; [exact H|]. exfalso.
    assert (2 ^ 53 <= 2 ^ (d - 1)) by (apply Z.pow_le_mono_r; lia). lia. }
  assert (Hf : fexp 53 1024 (d + 0) = d - 53) by (unfold fexp, emin; lia).
  rewrite Hf. unfold shl_align.
  assert (Hal : exists mz ez,
            (match d - 53 - 0 with
             | Z.neg k => (Pos.iter xO p k, d - 53)
             | _ => (p, 0)
             end) = (mz, ez)
            /\ ez = d - 53 /\ Z.pos mz = Z.pos p * 2 ^ (53 - d)).
  { destruct (d - 53 - 0) as [|k|k] eqn:E; try lia.
    - exists p, 0. split; [reflexivity|]. split; [lia|].
      replace (53 - d) with 0 by lia. lia.
    - exists (Pos.iter xO p k), (d - 53). split; [reflexivity|]. split; [reflexivity|].
      rewrite pos_iter_xO. f_equal. f_equal. lia. }
  destruct Hal as (mz & ez & -> & -> & Hmz).
  assert (Hpw : 2 ^ 53 = 2 ^ d * 2 ^ (53 - d)).
  { rewrite <- Z.pow_add_r by lia. f_equal. lia. }
  assert (Hpw' : 2 ^ 52 = 2 ^ (d - 1) * 2 ^ (53 - d)).
  { rewrite <- Z.pow_add_r by lia. f_equal. lia. }
  assert (Hp : 0 < 2 ^ (53 - d)) by (apply Z.pow_pos_nonneg; lia).
  assert (Bmz : 2 ^ 52 <= Z.pos mz < 2 ^ 53).
  { rewrite Hmz, Hpw, Hpw'. split; nia. }
  assert (Hdz : Z.pos (digits2_pos mz) = 53) by (apply digits2_pos_unique; simpl (53 - 1); lia).
  destruct (binary_round_aux_normal false mz (d - 53) loc_Exact)
    as (Mf & ef & Hrun & BMf & Hef & Hval).
  { rewrite Hdz. lia. }
  { rewrite Hdz. lia. }
  { rewrite Hdz. lia. }
  rewrite Hdz in Hef, Hval.
  replace (53 - 53) with 0 in Hef, Hval by lia.
  rewrite Z.pow_0_r, Z.div_1_r, Z.mod_1_r, Z.add_0_r in Hval.
  destruct Hval as [Hval | [_ [H | H]]]; try congruence.
  assert (Hk : ef = d - 53).
  { destruct (Z.eq_dec ef (d - 53)) as [H | H]; [exact H|]. exfalso.
    assert (2 ^ 1 <= 2 ^ (ef - (d - 53))) by (apply Z.pow_le_mono_r; lia).
    change (2 ^ 1) with 2 in *.
    assert (P52 : 2 ^ 52 = 4503599627370496) by reflexivity.
    assert (P53 : 2 ^ 53 = 9007199254740992) by reflexivity.
    nia. }
  subst ef. rewrite Z.sub_diag, Z.pow_0_r, Z.mul_1_r in Hval.
  exists Mf, (d - 53).
  split; [exact Hrun|]. split; [exact BMf|]. split; [lia|].
  rewrite Hval, Hmz. f_equal. f_equal. lia.
Qed.

Lemma scale_lt (x y a b : Z) :
  0 <= x < 2 ^ 53 -> 2 ^ 52 <= y -> 0 < a -> 2 <= b -> x * a < y * (b * a).
Proof.
  intros Hx Hy Ha Hb.
  assert (P52 : 2 ^ 52 = 4503599627370496) by reflexivity.
  assert (P53 : 2 ^ 53 = 9007199254740992) by reflexivity.
  assert (S1 : x * a < 2 ^ 53 * a) by (apply Z.mul_lt_mono_pos_r; lia).
  assert (S2 : 2 ^ 53 <= y * b) by (rewrite P53; nia).
  assert (S3 : 2 ^ 53 * a <= y * b * a) by (apply Z.mul_le_mono_nonneg_r; lia).
  rewrite Z.mul_assoc. lia.
Qed.

(** Between two neighbouring 53-bit numbers there is no 53-bit number. *)
Lemma granularity (m' n mz kz : Z) :
  0 <= n -> 0 <= kz -> 2 ^ 52 <= m' -> 0 <= mz < 2 ^ 53 ->
  (mz * 2 ^ kz < (m' + 1) * 2 ^ n -> mz * 2 ^ kz <= m' * 2 ^ n)
  /\ (m' * 2 ^ n < mz * 2 ^ kz -> (m' + 1) * 2 ^ n <= mz * 2 ^ kz).
Proof.
  intros Hn Hk Hm Hz.
  assert (P52 : 2 ^ 52 = 4503599627370496) by reflexivity.
  assert (P53 : 2 ^ 53 = 9007199254740992) by reflexivity.
  destruct (Z_le_gt_dec n kz) as [H | H].
  - assert (E : 2 ^ kz = 2 ^ (kz - n) * 2 ^ n).
    { rewrite <- Z.pow_add_r by lia. f_equal. lia. }
    assert (Hp : 0 < 2 ^ n) by (apply Z.pow_pos_nonneg; lia).
    assert (Hq : 0 < 2 ^ (kz - n)) by (apply Z.pow_pos_nonneg; lia).
    rewrite E. generalize dependent (2 ^ (kz - n)). generalize dependent (2 ^ n).
    intros a Ha b _ Hb. split; intros H1.
    + assert (mz * b < m' + 1) by nia. nia.
    + assert (m' < mz * b) by nia. nia.
  - assert (E : 2 ^ n = 2 ^ (n - kz) * 2 ^ kz).
    { rewrite <- Z.pow_add_r by lia. f_equal. lia. }
    assert (Hp : 0 < 2 ^ kz) by (apply Z.pow_pos_nonneg; lia).
    assert (Hq : 2 ^ 1 <= 2 ^ (n - kz)) by (apply Z.pow_le_mono_r; lia).
    change (2 ^ 1) with 2 in Hq.
    rewrite E. generalize dependent (2 ^ (n - kz)). generalize dependent (2 ^ kz).
    intros a Ha b _ Hb.
    pose proof (scale_lt mz m' a b Hz Hm Ha Hb) as S4.
    split; intros H1; nia.
Qed.

Lemma SFltb_normal (m1 m2 : positive) (e1 e2 K : Z) :
  2 ^ 52 <= Z.pos m1 < 2 ^ 53 ->
  2 ^ 52 <= Z.pos m2 < 2 ^ 53 ->
  0 <= e1 + K -> 0 <= e2 + K ->
  SFltb (S754_finite false m1 e1) (S754_finite false m2 e2)
  = (Z.pos m1 * 2 ^ (e1 + K) <? Z.pos m2 * 2 ^ (e2 + K)).
Proof.
  intros B1 B2 H1 H2.
  assert (P52 : 2 ^ 52 = 4503599627370496) by reflexivity.
  assert (P53 : 2 ^ 53 = 9007199254740992) by reflexivity.
  unfold SFltb, SFcompare.
  destruct (Z.compare_spec e1 e2) as [E | E | E].
  - subst e2. rewrite Pos.compare_cont_spec. cbn [Pos.switch_Eq].
    assert (Hp : 0 < 2 ^ (e1 + K)) by (apply Z.pow_pos_nonneg; lia).
    destruct (Pos.compare_spec m1 m2) as [F | F | F].
    + subst. symmetry. apply Z.ltb_irrefl.
    + symmetry. apply Z.ltb_lt. apply Z.mul_lt_mono_pos_r; [exact Hp | lia].
    + symmetry. apply Z.ltb_ge. apply Z.mul_le_mono_nonneg_r; lia.
  - symmetry. apply Z.ltb_lt.
    assert (Ee : 2 ^ (e2 + K) = 2 ^ (e2 - e1) * 2 ^ (e1 + K)).
    { rewrite <- Z.pow_add_r by lia. f_equal. lia. }
    assert (Hp : 0 < 2 ^ (e1 + K)) by (apply Z.pow_pos_nonneg; lia).
    assert (Hq : 2 ^ 1 <= 2 ^ (e2 - e1)) by (apply Z.pow_le_mono_r; lia).
    change (2 ^ 1) with 2 in Hq. rewrite Ee.
    generalize dependent (2 ^ (e2 - e1)). generalize dependent (2 ^ (e1 + K)).
    intros a Ha b _ Hb. apply scale_lt; lia.
  - symmetry. apply Z.ltb_ge.
    assert (Ee : 2 ^ (e1 + K) = 2 ^ (e1 - e2) * 2 ^ (e2 + K)).
    { rewrite <- Z.pow_add_r by lia. f_equal. lia. }
    assert (Hp : 0 < 2 ^ (e2 + K)) by (apply Z.pow_pos_nonneg; lia).
    assert (Hq : 2 ^ 1 <= 2 ^ (e1 - e2)) by (apply Z.pow_le_mono_r; lia).
    change (2 ^ 1) with 2 in Hq. rewrite Ee.
    generalize dependent (2 ^ (e1 - e2)). generalize dependent (2 ^ (e2 + K)).
    intros a Ha b _ Hb. apply Z.lt_le_incl. apply scale_lt; lia.
Qed.

(** Rounding leaves every 53-bit number on the side of the exact value it
    was on.  The exact value is [p] when [lx] is exact and lies strictly
    between [p] and [p + 1] otherwise, in units of [2 ^ ex]. *)
Lemma binary_round_aux_sandwich (sx : bool) (p : positive) (ex : Z) (lx : location) :
  53 <= Z.pos (digits2_pos p) ->
  -1000 <= ex <= 800 ->
  Z.pos (digits2_pos p) <= 120 ->
  exists Mf ef,
    binary_round_aux 53 1024 sx (Z.pos p) ex lx = S754_finite sx Mf ef
    /\ 2 ^ 52 <= Z.pos Mf < 2 ^ 53
    /\ ex <= ef <= ex + Z.pos (digits2_pos p) - 52
    /\ forall mz kz, 0 <= mz < 2 ^ 53 -> 0 <= kz ->
         (mz * 2 ^ kz <= Z.pos p -> mz * 2 ^ kz <= Z.pos Mf * 2 ^ (ef - ex))
         /\ (Z.pos p < mz * 2 ^ kz \/ (lx = loc_Exact /\ Z.pos p <= mz * 2 ^ kz) ->
             Z.pos Mf * 2 ^ (ef - ex) <= mz * 2 ^ kz).
Proof.
  intros Hd Hex Hd'.
  set (n := Z.pos (digits2_pos p) - 53).
  destruct (binary_round_aux_normal sx p ex lx) as (Mf & ef & Hrun & BMf & Hef & Hval);
    fold n; try lia.
  fold n in Hef, Hval.
  pose proof (digits2_pos_bounds p) as [Dlo Dhi].
  assert (Hn : 0 <= n) by (unfold n; lia).
  assert (Hpn : 0 < 2 ^ n) by (apply Z.pow_pos_nonneg; lia).
  assert (E52 : 2 ^ (Z.pos (digits2_pos p) - 1) = 2 ^ 52 * 2 ^ n).
  { rewrite <- Z.pow_add_r by lia. f_equal. unfold n. lia. }
  rewrite E52 in Dlo.
  set (m' := Z.pos p / 2 ^ n) in *.
  assert (Bm' : 2 ^ 52 <= m') by (apply Z.div_le_lower_bound; lia).
  pose proof (Z.div_mod (Z.pos p) (2 ^ n) ltac:(lia)) as Hdm.
  pose proof (Z.mod_pos_bound (Z.pos p) (2 ^ n) Hpn) as Hmb.
  fold m' in Hdm.
  assert (P52 : 2 ^ 52 = 4503599627370496) by reflexivity.
  assert (P53 : 2 ^ 53 = 9007199254740992) by reflexivity.
  assert (Hef2 : ef <= ex + n + 1).
  { destruct (Z_le_gt_dec ef (ex + n + 1)) as [H | H]; [exact H|]. exfalso.
    assert (2 ^ 2 <= 2 ^ (ef - (ex + n))) by (apply Z.pow_le_mono_r; lia).
    change (2 ^ 2) with 4 in *.
    assert (m' < 2 ^ 53).
    { apply Z.div_lt_upper_bound; [lia|].
      replace (2 ^ n * 2 ^ 53) with (2 ^ Z.pos (digits2_pos p)); [lia|].
      rewrite <- Z.pow_add_r by lia. f_equal. unfold n. lia. }
    destruct Hval as [Hval | [Hval _]]; nia. }
  exists Mf, ef. split; [exact Hrun|]. split; [exact BMf|].
  split; [unfold n in *; lia|].
  assert (EU : Z.pos Mf * 2 ^ (ef - ex) = Z.pos Mf * 2 ^ (ef - (ex + n)) * 2 ^ n).
  { rewrite <- Z.mul_assoc, <- Z.pow_add_r by lia. f_equal. f_equal. lia. }
  intros mz kz Hmz Hkz.
  destruct (granularity m' n mz kz Hn Hkz Bm' Hmz) as [Glo Ghi].
  rewrite EU. split.
  - intros Hle.
    assert (mz * 2 ^ kz <= m' * 2 ^ n) by (apply Glo; nia).
    destruct Hval as [-> | [-> _]]; nia.
  - intros Hup. destruct Hval as [-> | [-> Hin]].
    + destruct Hup as [Hup | [_ Hup]]; nia.
    + apply Ghi. destruct Hup as [Hup | [Hex' Hup]]; [nia|].
      destruct Hin as [Hin | Hin]; [congruence|]. nia.
Qed.

Lemma SFmul_sandwich (mx my : positive) (ex ey : Z) :
  2 ^ 52 <= Z.pos mx < 2 ^ 53 ->
  2 ^ 52 <= Z.pos my < 2 ^ 53 ->
  -1000 <= ex + ey <= 800 ->
  exists Mf ef,
    SFmul 53 1024 (S754_finite false mx ex) (S754_finite false my ey)
    = S754_finite false Mf ef
    /\ 2 ^ 52 <= Z.pos Mf < 2 ^ 53
    /\ ex + ey <= ef <= ex + ey + 54
    /\ forall mz kz, 0 <= mz < 2 ^ 53 -> 0 <= kz ->
         (mz * 2 ^ kz <= Z.pos mx * Z.pos my ->
          mz * 2 ^ kz <= Z.pos Mf * 2 ^ (ef - (ex + ey)))
         /\ (Z.pos mx * Z.pos my <= mz * 2 ^ kz ->
             Z.pos Mf * 2 ^ (ef - (ex + ey)) <= mz * 2 ^ kz).
Proof.
  intros Bx By Hex.
  assert (P52 : 2 ^ 52 = 4503599627370496) by reflexivity.
  assert (P53 : 2 ^ 53 = 9007199254740992) by reflexivity.
  assert (P104 : 2 ^ 104 = 4503599627370496 * 4503599627370496) by reflexivity.
  assert (P106 : 2 ^ 106 = 9007199254740992 * 9007199254740992) by reflexivity.
  cbn [SFmul xorb].
  pose proof (digits2_pos_bounds (mx * my)) as [Dlo Dhi].
  rewrite Pos2Z.inj_mul in Dlo, Dhi.
  assert (Bp : 2 ^ 104 <= Z.pos mx * Z.pos my < 2 ^ 106) by (rewrite P104, P106; nia).
  assert (Hd : 105 <= Z.pos (digits2_pos (mx * my)) <= 106).
  { set (d := Z.pos (digits2_pos (mx * my))) in *. split.
    - destruct (Z_le_gt_dec 105 d) as [H | H]; [exact H|]. exfalso.
      assert (2 ^ d <= 2 ^ 104) by (apply Z.pow_le_mono_r; lia). lia.
    - destruct (Z_le_gt_dec d 106) as [H | H]; [exact H|]. exfalso.
      assert (2 ^ 106 <= 2 ^ (d - 1)) by (apply Z.pow_le_mono_r; lia). lia. }
  destruct (binary_round_aux_sandwich false (mx * my) (ex + ey) loc_Exact)
    as (Mf & ef & Hrun & BMf & Hef & Hs); try lia.
  exists Mf, ef. split; [exact Hrun|]. split; [exact BMf|]. split; [lia|].
  intros mz kz Hmz Hkz. destruct (Hs mz kz Hmz Hkz) as [Hlo Hhi].
  rewrite Pos2Z.inj_mul in Hlo, Hhi. split; [exact Hlo|].
  intros H. apply Hhi. right. split; [reflexivity | exact H].
Qed.

Lemma new_location_exact (nb_steps k : Z) :
  (k = 0 -> new_location nb_steps k = loc_Exact)
  /\ (k <> 0 -> new_location nb_steps k <> loc_Exact).
Proof.
  unfold new_location, new_location_even, new_location_odd.
  split; intros H.
  - subst k. destruct (Z.even nb_steps); reflexivity.
  - apply Z.eqb_neq in H. destruct (Z.even nb_steps); rewrite H; discriminate.
Qed.

Lemma SFdiv_sandwich (mx my : positive) (ex ey : Z) :
  2 ^ 52 <= Z.pos mx < 2 ^ 53 ->
  2 ^ 52 <= Z.pos my < 2 ^ 53 ->
  -900 <= ex - ey <= 800 ->
  exists Mf ef,
    SFdiv 53 1024 (S754_finite false mx ex) (S754_finite false my ey)
    = S754_finite false Mf ef
    /\ 2 ^ 52 <= Z.pos Mf < 2 ^ 53
    /\ ex - ey - 53 <= ef <= ex - ey - 51
    /\ forall mz kz, 0 <= mz < 2 ^ 53 -> 0 <= kz ->
         (mz * 2 ^ kz * Z.pos my <= Z.pos mx * 2 ^ 53 ->
          mz * 2 ^ kz <= Z.pos Mf * 2 ^ (ef - (ex - ey - 53)))
         /\ (Z.pos mx * 2 ^ 53 <= mz * 2 ^ kz * Z.pos my ->
             Z.pos Mf * 2 ^ (ef - (ex - ey - 53)) <= mz * 2 ^ kz).
Proof.
  intros Bx By Hex.
  assert (P52 : 2 ^ 52 = 4503599627370496) by reflexivity.
  assert (P53 : 2 ^ 53 = 9007199254740992) by reflexivity.
  assert (P54 : 2 ^ 54 = 18014398509481984) by reflexivity.
  assert (Hdx : Z.pos (digits2_pos mx) = 53) by (apply digits2_pos_unique; simpl (53 - 1); lia).
  assert (Hdy : Z.pos (digits2_pos my) = 53) by (apply digits2_pos_unique; simpl (53 - 1); lia).
  cbn [SFdiv xorb]. unfold SFdiv_core_binary. cbn [Zdigits2]. rewrite Hdx, Hdy.
  assert (He : Z.min (fexp 53 1024 (53 + ex - (53 + ey))) (ex - ey) = ex - ey - 53)
    by (unfold fexp, emin; lia).
  rewrite He. replace (ex - ey - (ex - ey - 53)) with 53 by lia.
  cbv iota. rewrite Z.shiftl_mul_pow2 by lia.
  pose proof (Z_div_mod (Z.pos mx * 2 ^ 53) (Z.pos my) ltac:(lia)) as Hdiv.
  destruct (Z.div_eucl (Z.pos mx * 2 ^ 53) (Z.pos my)) as [q0 r0].
  destruct Hdiv as [Hq Hr].
  assert (Bq : 2 ^ 52 <= q0 < 2 ^ 54) by (rewrite P52, P54; nia).
  destruct q0 as [|pq|pq]; try lia.
  pose proof (digits2_pos_bounds pq) as [Dlo Dhi].
  assert (Hd : 53 <= Z.pos (digits2_pos pq) <= 54).
  { set (d := Z.pos (digits2_pos pq)) in *. split.
    - destruct (Z_le_gt_dec 53 d) as [H | H]; [exact H|]. exfalso.
      assert (2 ^ d <= 2 ^ 52) by (apply Z.pow_le_mono_r; lia). lia.
    - destruct (Z_le_gt_dec d 54) as [H | H]; [exact H|]. exfalso.
      assert (2 ^ 54 <= 2 ^ (d - 1)) by (apply Z.pow_le_mono_r; lia). lia. }
  destruct (binary_round_aux_sandwich false pq (ex - ey - 53) (new_location (Z.pos my) r0))
    as (Mf & ef & Hrun & BMf & Hef & Hs); try lia.
  exists Mf, ef. split; [exact Hrun|]. split; [exact BMf|]. split; [lia|].
  intros mz kz Hmz Hkz. destruct (Hs mz kz Hmz Hkz) as [Hlo Hhi].
  assert (Hz : 0 <= mz * 2 ^ kz) by (apply Z.mul_nonneg_nonneg; [lia | apply Z.pow_nonneg; lia]).
  generalize dependent (mz * 2 ^ kz). intros z Hlo Hhi Hz.
  destruct (new_location_exact (Z.pos my) r0) as [Lex Lin].
  split.
  - intros H. apply Hlo. nia.
  - intros H. apply Hhi. destruct (Z.eq_dec r0 0) as [E | E].
    + right. split; [apply Lex, E | nia].
    + left. nia.
Qed.

Lemma double_of_1000 : double_of_Z 1000 = S754_finite false 8796093022208000 (-43).
Proof. reflexivity. Qed.

(** The double that [elapsed_ms] computes, between two approximations of
    the exact quotient taken to eleven binary places. *)
Lemma elapsed_ms_sandwich (a c : Z) :
  0 < a < 2 ^ 53 -> 0 < c < 2 ^ 53 -> a <= 2 ^ 32 * c ->
  exists Mr er K,
    elapsed_ms a c = S754_finite false Mr er
    /\ 2 ^ 52 <= Z.pos Mr < 2 ^ 53
    /\ 60 <= K /\ 0 <= er + K
    /\ forall T, 0 <= T < 2 ^ 32 ->
         ((2 * T + 1) * 1024 * c <= 1000 * (a * 2048 - c) ->
          (2 * T + 1) * 2 ^ (K - 1) <= Z.pos Mr * 2 ^ (er + K))
         /\ (1 <= T -> 1000 * (a * 2048 + c) <= (2 * T - 1) * 1024 * c ->
             Z.pos Mr * 2 ^ (er + K) <= (2 * T - 1) * 2 ^ (K - 1)).
Proof.
  intros Ha Hc Hac.
  assert (P32 : 2 ^ 32 = 4294967296) by reflexivity.
  assert (P52 : 2 ^ 52 = 4503599627370496) by reflexivity.
  assert (P53 : 2 ^ 53 = 9007199254740992) by reflexivity.
  destruct (double_of_Z_exact a Ha) as (Ma & ea & Da & BMa & Hea & EMa).
  destruct (double_of_Z_exact c Hc) as (Mc & ec & Dc & BMc & Hec & EMc).
  unfold elapsed_ms. rewrite Da, Dc, double_of_1000.
  set (al := - ea) in *. set (ga := - ec) in *.
  assert (Hal : 0 <= al <= 52) by (unfold al; lia).
  assert (Hga : 0 <= ga <= 52) by (unfold ga; lia).
  assert (Hpa : 0 < 2 ^ al) by (apply Z.pow_pos_nonneg; lia).
  assert (Hpg : 0 < 2 ^ ga) by (apply Z.pow_pos_nonneg; lia).
  (* the quotient is below [2 ^ 33] *)
  assert (Hdig : ga - al <= 32).
  { destruct (Z_le_gt_dec (ga - al) 32) as [H | H]; [exact H|]. exfalso.
    assert (E : 2 ^ ga = 2 ^ (ga - al - 33) * (2 ^ 33 * 2 ^ al)).
    { rewrite <- !Z.pow_add_r by lia. f_equal. lia. }
    assert (Hp : 0 < 2 ^ (ga - al - 33)) by (apply Z.pow_pos_nonneg; lia).
    assert (P33 : 2 ^ 33 = 8589934592) by reflexivity.
    rewrite E in EMc. rewrite P33 in EMc.
    generalize dependent (2 ^ (ga - al - 33)). generalize dependent (2 ^ al).
    intros x Hx EMa y EMc Hy. nia. }
  destruct (SFdiv_sandwich Ma Mc ea ec BMa BMc ltac:(lia))
    as (Mq & eq & -> & BMq & Heq & Sq).
  set (B := 53 + al - ga).
  assert (HB : 21 <= B) by (unfold B; lia).
  assert (Ee' : ea - ec - 53 = - B) by (unfold B, al, ga; lia).
  rewrite Ee' in Heq, Sq.
  set (g := eq + B) in *.
  assert (Hg : 0 <= g <= 2) by (unfold g; lia).
  replace (eq - - B) with g in Sq by (unfold g; lia).
  destruct (SFmul_sandwich Mq 8796093022208000 eq (-43) BMq ltac:(lia) ltac:(lia))
    as (Mr & er & -> & BMr & Her & Sr).
  set (K := 43 + B - g).
  assert (EK : eq + -43 = - K) by (unfold K, g; lia).
  rewrite EK in Her, Sr.
  replace (er - - K) with (er + K) in Sr by lia.
  exists Mr, er, K. split; [reflexivity|]. split; [exact BMr|].
  split; [unfold K; lia|]. split; [lia|].
  intros T HT.
  (* the powers of two that occur *)
  set (S := 2 ^ (42 + al)).
  assert (HS : 0 < S) by (apply Z.pow_pos_nonneg; lia).
  assert (E1 : 2 ^ (B - 11) * 2 ^ ga = S).
  { unfold S. rewrite <- Z.pow_add_r by lia. f_equal. unfold B. lia. }
  assert (E2 : 2 ^ al * 2 ^ 53 = 2048 * S).
  { unfold S. change 2048 with (2 ^ 11). rewrite <- !Z.pow_add_r by lia. f_equal. lia. }
  set (R := 2 ^ (32 + B - g)).
  assert (HR : 0 < R) by (apply Z.pow_pos_nonneg; lia).
  assert (E3 : 2 ^ (B - 11) * 2 ^ (43 - g) = R).
  { unfold R. rewrite <- Z.pow_add_r by lia. f_equal. lia. }
  assert (E4 : 2 ^ (K - 1) = 1024 * R).
  { unfold R, K. change 1024 with (2 ^ 10). rewrite <- Z.pow_add_r by lia. f_equal. lia. }
  assert (E5 : 2 ^ g * 2 ^ (43 - g) = 8796093022208).
  { rewrite <- Z.pow_add_r by lia. replace (g + (43 - g)) with 43 by lia. reflexivity. }
  assert (Hpg' : 0 < 2 ^ (43 - g)) by (apply Z.pow_pos_nonneg; lia).
  assert (Hpb : 0 < 2 ^ (B - 11)) by (apply Z.pow_pos_nonneg; lia).
  assert (Hpgg : 0 < 2 ^ g) by (apply Z.pow_pos_nonneg; lia).
  split.
  - intros Hlate.
    set (N := a * 2048 / c).
    assert (HN : N * c <= a * 2048 < (N + 1) * c).
    { unfold N. pose proof (Z.div_mod (a * 2048) c ltac:(lia)).
      pose proof (Z.mod_pos_bound (a * 2048) c ltac:(lia)). nia. }
    assert (HN0 : 0 <= N) by (unfold N; apply Z.div_pos; lia).
    assert (HN53 : N < 2 ^ 53).
    { unfold N. apply Z.div_lt_upper_bound; [lia|]. nia. }
    assert (H1000 : (2 * T + 1) * 1024 <= 1000 * N) by nia.
    destruct (Sq N (B - 11) ltac:(lia) ltac:(lia)) as [Sq1 _].
    assert (Q : N * 2 ^ (B - 11) <= Z.pos Mq * 2 ^ g).
    { apply Sq1. rewrite EMa, EMc.
      replace (N * 2 ^ (B - 11) * (c * 2 ^ ga)) with (N * c * (2 ^ (B - 11) * 2 ^ ga)) by ring.
      replace (a * 2 ^ al * 2 ^ 53) with (a * (2 ^ al * 2 ^ 53)) by ring.
      rewrite E1, E2. nia. }
    destruct (Sr (2 * T + 1) (K - 1) ltac:(lia) ltac:(unfold K; lia)) as [Sr1 _].
    apply Sr1. rewrite E4.
    assert (Q' : N * R <= Z.pos Mq * 8796093022208).
    { rewrite <- E3, <- E5.
      replace (N * (2 ^ (B - 11) * 2 ^ (43 - g))) with (N * 2 ^ (B - 11) * 2 ^ (43 - g)) by ring.
      replace (Z.pos Mq * (2 ^ g * 2 ^ (43 - g))) with (Z.pos Mq * 2 ^ g * 2 ^ (43 - g)) by ring.
      apply Z.mul_le_mono_nonneg_r; lia. }
    change (Z.pos 8796093022208000) with (1000 * 8796093022208).
    nia.
  - intros HT1 Hearly.
    set (N := a * 2048 / c + 1).
    assert (HN : a * 2048 < N * c <= a * 2048 + c).
    { unfold N. pose proof (Z.div_mod (a * 2048) c ltac:(lia)).
      pose proof (Z.mod_pos_bound (a * 2048) c ltac:(lia)). nia. }
    assert (HN0 : 0 <= N) by (unfold N; pose proof (Z.div_pos (a * 2048) c); lia).
    assert (HN53 : N < 2 ^ 53).
    { unfold N. assert (a * 2048 / c < 2 ^ 52); [|lia].
      apply Z.div_lt_upper_bound; [lia|]. nia. }
    assert (H1000 : 1000 * N <= (2 * T - 1) * 1024) by nia.
    destruct (Sq N (B - 11) ltac:(lia) ltac:(lia)) as [_ Sq2].
    assert (Q : Z.pos Mq * 2 ^ g <= N * 2 ^ (B - 11)).
    { apply Sq2. rewrite EMa, EMc.
      replace (N * 2 ^ (B - 11) * (c * 2 ^ ga)) with (N * c * (2 ^ (B - 11) * 2 ^ ga)) by ring.
      replace (a * 2 ^ al * 2 ^ 53) with (a * (2 ^ al * 2 ^ 53)) by ring.
      rewrite E1, E2. nia. }
    destruct (Sr (2 * T - 1) (K - 1) ltac:(lia) ltac:(unfold K; lia)) as [_ Sr2].
    apply Sr2. rewrite E4.
    assert (Q' : Z.pos Mq * 8796093022208 <= N * R).
    { rewrite <- E3, <- E5.
      replace (N * (2 ^ (B - 11) * 2 ^ (43 - g))) with (N * 2 ^ (B - 11) * 2 ^ (43 - g)) by ring.
      replace (Z.pos Mq * (2 ^ g * 2 ^ (43 - g))) with (Z.pos Mq * 2 ^ g * 2 ^ (43 - g)) by ring.
      apply Z.mul_le_mono_nonneg_r; lia. }
    change (Z.pos 8796093022208000) with (1000 * 8796093022208).
    nia.
Qed.

Lemma pow2_split_K (T eT K : Z) (MT : positive) :
  -52 <= eT <= 0 -> 60 <= K -> Z.pos MT = T * 2 ^ (- eT) ->
  Z.pos MT * 2 ^ (eT + K) = 2 * T * 2 ^ (K - 1).
Proof.
  intros He HK E. rewrite E.
  replace (T * 2 ^ (- eT) * 2 ^ (eT + K)) with (T * (2 ^ (- eT) * 2 ^ (eT + K))) by ring.
  rewrite <- Z.pow_add_r by lia. replace (- eT + (eT + K)) with (1 + (K - 1)) by lia.
  rewrite Z.pow_add_r by lia. change (2 ^ 1) with 2. ring.
Qed.

(** The deadline test succeeds once a whole millisecond more than the
    timeout has elapsed. *)
Lemma deadline_test_late (a c T : Z) :
  0 < a < 2 ^ 53 -> 0 < c < 2 ^ 53 -> a <= 2 ^ 32 * c -> 0 <= T < 2 ^ 32 ->
  (T + 1) * c <= a * 1000 ->
  SFltb (double_of_Z T) (elapsed_ms a c) = true.
Proof.
  intros Ha Hc Hac HT Hlate.
  destruct (elapsed_ms_sandwich a c Ha Hc Hac) as (Mr & er & K & Hrun & BMr & HK & HerK & Hs).
  destruct (Hs T HT) as [Hlo _].
  rewrite Hrun.
  destruct (Z.eq_dec T 0) as [-> | HT0]; [reflexivity|].
  assert (P32 : 2 ^ 32 = 4294967296) by reflexivity.
  assert (P53 : 2 ^ 53 = 9007199254740992) by reflexivity.
  destruct (double_of_Z_exact T ltac:(lia)) as (MT & eT & -> & BMT & HeT & EMT).
  rewrite (SFltb_normal MT Mr eT er K BMT BMr ltac:(lia) HerK).
  apply Z.ltb_lt. rewrite (pow2_split_K T eT K MT HeT HK EMT).
  assert (Hp : 0 < 2 ^ (K - 1)) by (apply Z.pow_pos_nonneg; lia).
  assert (H : (2 * T + 1) * 2 ^ (K - 1) <= Z.pos Mr * 2 ^ (er + K)) by (apply Hlo; nia).
  nia.
Qed.

(** The deadline test fails as long as a whole millisecond less than the
    timeout has elapsed. *)
Lemma deadline_test_early (a c T : Z) :
  0 <= a < 2 ^ 53 -> 0 < c < 2 ^ 53 -> 0 <= T < 2 ^ 32 ->
  a * 1000 <= (T - 1) * c ->
  SFltb (double_of_Z T) (elapsed_ms a c) = false.
Proof.
  intros Ha Hc HT Hearly.
  assert (P32 : 2 ^ 32 = 4294967296) by reflexivity.
  assert (P53 : 2 ^ 53 = 9007199254740992) by reflexivity.
  destruct (Z.eq_dec a 0) as [-> | Ha0].
  - unfold elapsed_ms.
    destruct (double_of_Z_exact c Hc) as (Mc & ec & -> & _).
    rewrite double_of_1000. change (double_of_Z 0) with (S754_zero false).
    cbn [SFdiv SFmul xorb].
    destruct (Z.eq_dec T 0) as [-> | HT0]; [reflexivity|].
    destruct (double_of_Z_exact T ltac:(lia)) as (MT & eT & -> & _). reflexivity.
  - assert (HT2 : 2 <= T) by nia.
    destruct (elapsed_ms_sandwich a c ltac:(lia) Hc ltac:(nia))
      as (Mr & er & K & Hrun & BMr & HK & HerK & Hs).
    destruct (Hs T HT) as [_ Hhi].
    rewrite Hrun.
    destruct (double_of_Z_exact T ltac:(lia)) as (MT & eT & -> & BMT & HeT & EMT).
    rewrite (SFltb_normal MT Mr eT er K BMT BMr ltac:(lia) HerK).
    apply Z.ltb_ge. rewrite (pow2_split_K T eT K MT HeT HK EMT).
    assert (Hp : 0 < 2 ^ (K - 1)) by (apply Z.pow_pos_nonneg; lia).
    assert (H : Z.pos Mr * 2 ^ (er + K) <= (2 * T - 1) * 2 ^ (K - 1)) by (apply Hhi; nia).
    nia.
Qed.

(** At 2007 ms the product of the rounded quotient by 1000 exceeds the
    timeout at the very millisecond it equals it. *)
Example deadline_test_at_2007 :
  SFltb (double_of_Z 2007) (elapsed_ms 2007000 1000000) = true.
Proof. vm_compute. reflexivity. Qed.
Example deadline_test_at_2006 :
  SFltb (double_of_Z 2006) (elapsed_ms 2006000 1000000) = false.
Proof. vm_compute. reflexivity. Qed.

(** ** Waiting for lock *)

Section LockWait.

Variable P : platform.

Lemma lock_body_run (dev : ptr) (port : loc) : forall w i mem,
  True -> connected w dev port ->
  lock_attempt P dev i mem w
  = Done (lock_accepts P i (line P (written w)), (lock_stores P) i mem (line P (written w)))
         (send_world P "LOCK?" Buffer 16 port w).
Proof.
  intros w i mem _ Hc. unfold lock_accepts, lock_stores.
  rewrite <- attempt_result_accepts.
  apply lock_attempt_run. exact Hc.
Qed.

Lemma lock_status_never (w : world) (dev : ptr) (port : loc) :
  never_locks P ->
  connected w dev port ->
  exists rc w',
    budc_get_lock_status P dev false w = Done (rc, false) w'
    /\ connected w' dev port
    /\ now w <= now w' <= now w + GETTER_BUDGET_MS P.
Proof.
  intros Hnever Hc.
  destruct (for_attempts_total P dev port (lock_attempt P dev) "LOCK?" Buffer 16
              (lock_accepts P) (lock_stores P) (fun _ => True) ltac:(auto) (lock_body_run dev port)
              3%nat O 100 false w ltac:(lia) I Hc)
    as (rc & v & w' & Hrun & Hrc & Hc' & _ & Hnow).
  exists rc, w'. unfold budc_get_lock_status, MAX_RETRIES. rewrite Hrun.
  split; [|split; [exact Hc' | exact Hnow]].
  f_equal. f_equal. destruct Hrc as [-> | ->].
  - destruct (for_attempts_success_inv P dev port (lock_attempt P dev) "LOCK?" Buffer 16
                (lock_accepts P) (lock_stores P) (fun _ => True) ltac:(auto) (lock_body_run dev port)
                3%nat O 100 false w v w' I Hc Hrun)
      as (m & mem0 & _ & _ & Hacc & Hv & _).
    unfold lock_accepts, accepts in Hacc. unfold lock_stores, attempt_result in Hv.
    destruct (transport_reply _ _ _) as [r|] eqn:Hr; [|discriminate].
    cbn in Hv. subst v. apply (Hnever _ _ Hr).
  - apply (for_attempts_frame _ (lock_attempt_frame P dev) _ _ _ _ _ _ _ _ Hrun).
    discriminate.
Qed.

End LockWait.

(** ** Tuning and waiting *)

Section Tune.

Variable P : platform.

Lemma lock_queries_app l1 l2 :
  lock_queries (l1 ++ l2) = (lock_queries l1 + lock_queries l2)%nat.
Proof.
  induction l1 as [|e l1 IH]; simpl; [reflexivity|].
  destruct e; simpl; try exact IH.
  destruct (String.eqb _ _); simpl; rewrite IH; reflexivity.
Qed.

Lemma frequency_command_not_lock_query freq_ghz :
  String.eqb (full_command (frequency_command P freq_ghz)) (full_command "LOCK?") = false.
Proof. reflexivity. Qed.

(** C4. [budc_set_frequency_and_wait]: when the frequency-set step
    returns failure the call returns -1 in the world that step left, and
    over a connected handle no lock query has been written; when the set
    step returns 0 the call delays 200 ms and then is
    [budc_wait_for_lock] with the caller's timeout. *)
Theorem set_frequency_and_wait_steps (w : world) (dev : ptr) (port : loc)
    (freq_ghz : spec_float) (timeout_ms : Z) (fuel : nat) (rc : Z) (w1 : world) :
  budc_set_frequency_ghz P dev freq_ghz w = Done rc w1 ->
  (rc <> 0 ->
     budc_set_frequency_and_wait P fuel dev freq_ghz timeout_ms w = Done (-1) w1
     /\ (connected w dev port -> lock_queries (log w1) = lock_queries (log w)))
  /\ (rc = 0 ->
      budc_set_frequency_and_wait P fuel dev freq_ghz timeout_ms w
      = budc_wait_for_lock P fuel dev timeout_ms (record (Delay 200) (tick 200 w1))).
Proof.
  intros Hset. split.
  - intros Hrc. split.
    + unfold budc_set_frequency_and_wait. rewrite (bind_run _ _ _ _ _ Hset). cbv beta.
      apply Z.eqb_neq in Hrc. rewrite Hrc. reflexivity.
    + intros Hc. unfold budc_set_frequency_ghz in Hset.
      fold (frequency_command P freq_ghz) in Hset.
      rewrite (bind_run _ _ _ _ _ (send_raw_run P w dev port _ NullBuffer 0 Hc)) in Hset.
      unfold ret in Hset. injection Hset as _ <-.
      simpl. rewrite lock_queries_app. unfold send_log, reaches_read.
      rewrite andb_false_r. cbn [lock_queries].
      rewrite frequency_command_not_lock_query. simpl. lia.
  - intros ->. unfold budc_set_frequency_and_wait.
    rewrite (bind_run _ _ _ _ _ Hset). cbv beta. cbn [Z.eqb negb].
    reflexivity.
Qed.

End Tune.

(** ** Connecting and disconnecting *)

Section Connection.

Variable P : platform.

Lemma holds_port_lookup w0 w port o :
  holds_port w0 w port o -> ports w !! port = Some o.
Proof. intros (Hp & _ & _). rewrite Hp. apply lookup_insert_eq. Qed.

Lemma sp_get_port_by_name_run w name :
  (port_exists P name = false
   /\ sp_get_port_by_name P name w = Done None (record (GetPortByName name) w))
  \/ (port_exists P name = true
      /\ exists port w',
           sp_get_port_by_name P name w = Done (Some port) w'
           /\ holds_port w w' port {| port_name := name; opened := false; applied := [] |}).
Proof.
  unfold sp_get_port_by_name. destruct (port_exists P name).
  - right. split; [reflexivity|]. eexists _, _. split; [reflexivity|].
    split; [reflexivity|]. split; [reflexivity|].
    simpl. apply not_elem_of_dom. apply is_fresh.
  - left. split; reflexivity.
Qed.

Lemma sp_open_run w0 w port o :
  holds_port w0 w port o ->
  exists ok w' o',
    sp_open P port w = Done ok w'
    /\ ok = open_ok P (port_name o)
    /\ holds_port w0 w' port o'
    /\ port_name o' = port_name o
    /\ opened o' = (ok || opened o).
Proof.
  intros H. pose proof (holds_port_lookup _ _ _ _ H) as Hl.
  destruct H as (Hp & Hd & Hf).
  unfold sp_open. rewrite Hl. destruct (open_ok P (port_name o)).
  - eexists true, _, {| port_name := port_name o; opened := true; applied := applied o |}.
    split; [reflexivity|]. split; [reflexivity|].
    split; [|split; reflexivity].
    split; [|split; [exact Hd | exact Hf]].
    simpl. rewrite Hp. apply insert_insert_eq.
  - exists false, (record (Open port) w), o.
    split; [reflexivity|]. split; [reflexivity|].
    split; [|split; reflexivity].
    split; [exact Hp | split; [exact Hd | exact Hf]].
Qed.

Lemma sp_set_run w0 w port o s :
  holds_port w0 w port o ->
  exists ok w' o',
    sp_set P port s w = Done ok w'
    /\ holds_port w0 w' port o'
    /\ opened o' = opened o /\ port_name o' = port_name o.
Proof.
  intros H. pose proof (holds_port_lookup _ _ _ _ H) as Hl.
  destruct H as (Hp & Hd & Hf).
  unfold sp_set. rewrite Hl. destruct (opened o && setting_ok P (port_name o) s).
  - eexists true, _, {| port_name := port_name o; opened := opened o;
                        applied := applied o ++ [s] |}.
    split; [reflexivity|]. split; [|split; reflexivity].
    split; [|split; [exact Hd | exact Hf]].
    simpl. rewrite Hp. apply insert_insert_eq.
  - exists false, (record (Configure port s) w), o.
    split; [reflexivity|]. split; [|split; reflexivity].
    split; [exact Hp | split; [exact Hd | exact Hf]].
Qed.

Lemma sp_close_run w0 w port o :
  holds_port w0 w port o ->
  exists w' o', sp_close port w = Done tt w' /\ holds_port w0 w' port o'.
Proof.
  intros H. pose proof (holds_port_lookup _ _ _ _ H) as Hl.
  destruct H as (Hp & Hd & Hf).
  unfold sp_close, live_port. rewrite Hl.
  eexists _, _. split; [reflexivity|].
  split; [|split; [exact Hd | exact Hf]].
  simpl. rewrite Hp. apply insert_insert_eq.
Qed.

Lemma sp_free_port_run w0 w port o :
  holds_port w0 w port o ->
  exists w', sp_free_port port w = Done tt w'
             /\ ports w' = ports w0 /\ devs w' = devs w0.
Proof.
  intros H. pose proof (holds_port_lookup _ _ _ _ H) as Hl.
  destruct H as (Hp & Hd & Hf).
  unfold sp_free_port, live_port. rewrite Hl.
  eexists. split; [reflexivity|]. split; [|exact Hd].
  simpl. rewrite Hp, delete_insert_eq. apply delete_id. exact Hf.
Qed.

Lemma runs_ret {A} (a : A) w (Q : A -> world -> Prop) : Q a w -> runs (ret a) w Q.
Proof. intros H. exists a, w. split; [reflexivity | exact H]. Qed.

Lemma runs_bind {A B} (m : M A) (k : A -> M B) w (Q : B -> world -> Prop) :
  runs m w (fun a w' => runs (k a) w' Q) -> runs (bind m k) w Q.
Proof.
  intros (a & w' & Hm & b & w'' & Hk & HQ).
  exists b, w''. split; [|exact HQ]. rewrite (bind_run _ _ _ _ _ Hm). exact Hk.
Qed.

Lemma sp_open_runs w0 w port o (Q : bool -> world -> Prop) :
  holds_port w0 w port o ->
  (forall w' o', holds_port w0 w' port o' -> port_name o' = port_name o ->
                 opened o' = (open_ok P (port_name o) || opened o) ->
                 Q (open_ok P (port_name o)) w') ->
  runs (sp_open P port) w Q.
Proof.
  intros H HQ. destruct (sp_open_run _ _ _ _ H) as (ok & w' & o' & Hrun & -> & H' & Hn & Ho).
  exists (open_ok P (port_name o)), w'. split; [exact Hrun|].
  apply (HQ w' o'); assumption.
Qed.

Lemma sp_set_runs w0 w port o s (Q : bool -> world -> Prop) :
  holds_port w0 w port o ->
  (forall ok w' o', holds_port w0 w' port o' -> opened o' = opened o ->
                    port_name o' = port_name o -> Q ok w') ->
  runs (sp_set P port s) w Q.
Proof.
  intros H HQ.
  destruct (sp_set_run _ _ _ _ s H) as (ok & w' & o' & Hrun & H' & Ho & Hn).
  exists ok, w'. split; [exact Hrun|]. apply (HQ ok w' o'); assumption.
Qed.

Lemma sp_close_runs w0 w port o (Q : unit -> world -> Prop) :
  holds_port w0 w port o ->
  (forall w' o', holds_port w0 w' port o' -> Q tt w') ->
  runs (sp_close port) w Q.
Proof.
  intros H HQ. destruct (sp_close_run _ _ _ _ H) as (w' & o' & Hrun & H').
  exists tt, w'. split; [exact Hrun|]. apply (HQ w' o'); assumption.
Qed.

Lemma sp_free_port_runs w0 w port o (Q : unit -> world -> Prop) :
  holds_port w0 w port o ->
  (forall w', ports w' = ports w0 -> devs w' = devs w0 -> Q tt w') ->
  runs (sp_free_port port) w Q.
Proof.
  intros H HQ. destruct (sp_free_port_run _ _ _ _ H) as (w' & Hrun & Hp & Hd).
  exists tt, w'. split; [exact Hrun|]. apply HQ; assumption.
Qed.

Lemma connect_post_holds (w : world) (name : string) :
  exists r w', budc_connect P name w = Done r w' /\ connect_post P w name r w'.
Proof.
  change (runs (budc_connect P name) w (connect_post P w name)).
  unfold budc_connect. apply runs_bind.
  destruct (sp_get_port_by_name_run w name) as [[Hex Hrun] | [Hex (port & w1 & Hrun & H1)]].
  { eexists None, _. split; [exact Hrun|]. apply runs_ret.
    split; [|split].
    - split; auto.
    - intros _. split; reflexivity.
    - intros d [=]. }
  exists (Some port), w1. split; [exact Hrun|].
  apply runs_bind. eapply sp_open_runs; [exact H1|]. cbn [port_name opened].
  intros w2 o2 H2 Hn2 Ho2.
  destruct (open_ok P name) eqn:Hopen; cbn [negb].
  2:{ apply runs_bind. eapply sp_free_port_runs; [exact H2|].
      intros w3 Hp3 Hd3. apply runs_ret.
      split; [|split].
      - split; auto.
      - intros _. split; assumption.
      - intros d [=]. }
  cbn [orb] in Ho2.
  apply runs_bind. eapply sp_set_runs; [exact H2|]. intros ok3 w3 o3 H3 Ho3 Hn3.
  apply runs_bind. eapply sp_set_runs; [exact H3|]. intros ok4 w4 o4 H4 Ho4 Hn4.
  apply runs_bind. eapply sp_set_runs; [exact H4|]. intros ok5 w5 o5 H5 Ho5 Hn5.
  apply runs_bind. eapply sp_set_runs; [exact H5|]. intros ok6 w6 o6 H6 Ho6 Hn6.
  apply runs_bind. eapply sp_set_runs; [exact H6|]. intros ok7 w7 o7 H7 Ho7 Hn7.
  apply runs_bind. eapply sp_set_runs; [exact H7|]. intros ok8 w8 o8 H8 Ho8 Hn8.
  apply runs_bind. eapply sp_set_runs; [exact H8|]. intros ok9 w9 o9 H9 Ho9 Hn9.
  apply runs_bind. unfold malloc_device.
  destruct (malloc_ok P) eqn:Hmalloc.
  2:{ exists None, (record Malloc w9). split; [reflexivity|].
      apply runs_bind. eapply (sp_close_runs w (record Malloc w9)); [exact H9|].
      intros w10 o10 H10.
      apply runs_bind. eapply sp_free_port_runs; [exact H10|].
      intros w11 Hp11 Hd11. apply runs_ret.
      split; [|split].
      - split; auto.
      - intros _. split; assumption.
      - intros d [=]. }
  destruct H9 as (Hp9 & Hd9 & Hf9).
  unfold runs at 1. cbv beta zeta iota.
  remember (fresh (dom (devs (record Malloc w9)))) as d eqn:Hdef.
  assert (Hfresh : devs w !! d = None).
  { rewrite <- Hd9. apply not_elem_of_dom. subst d. apply is_fresh. }
  eexists (Some d), _. split; [reflexivity|].
  apply runs_bind. unfold store_port. eexists tt, _. split.
  { cbn [devs with_devs]. rewrite lookup_insert_eq. reflexivity. }
  apply runs_bind. eexists tt, _. split.
  { unfold sp_flush, live_port. cbn [ports with_devs record].
    rewrite Hp9, lookup_insert_eq. reflexivity. }
  apply runs_bind. eexists tt, _. split; [reflexivity|].
  apply runs_ret. split; [|split].
  - split; [discriminate|]. intros [H | [H | H]]; congruence.
  - discriminate.
  - intros d' [= <-]. split; [exact Hfresh|].
    exists port, o9. split; [exact Hf9|]. split; [exact Hp9|].
    split.
    + simpl. rewrite insert_insert_eq, Hd9. reflexivity.
    + split; congruence.
Qed.

End Connection.

(** ** Releasing a handle *)

(** C8, as the code has it.  [budc_disconnect] does nothing for a null
    handle.  For a live handle it closes and frees the port, when the
    handle has one, and frees the handle.  It does not look at whether a
    non-null handle is still live: for a handle that has been released,
    so for a second disconnect of the same handle, the behaviour is
    undefined. *)
Theorem disconnect_releases (w : world) :
  budc_disconnect None w = Done tt w
  /\ (forall d port o,
        devs w !! d = Some (Some port) -> ports w !! port = Some o ->
        exists w',
          budc_disconnect (Some d) w = Done tt w'
          /\ devs w' = delete d (devs w)
          /\ ports w' = delete port (ports w)
          /\ log w' = (log w ++ [Close port; FreePort port; Free d])%list
          /\ budc_disconnect (Some d) w' = Undefined)
  /\ (forall d,
        devs w !! d = Some None ->
        exists w',
          budc_disconnect (Some d) w = Done tt w'
          /\ devs w' = delete d (devs w)
          /\ ports w' = ports w
          /\ log w' = (log w ++ [Free d])%list)
  /\ (forall d, devs w !! d = None -> budc_disconnect (Some d) w = Undefined).
Proof.
  split; [reflexivity|]. split; [|split].
  - intros d port o Hd Hp.
    unfold budc_disconnect, bind, load_port. rewrite Hd.
    unfold sp_close, sp_free_port, live_port. rewrite Hp.
    cbn [ports with_ports record]. rewrite lookup_insert_eq.
    unfold free_device. cbn [devs with_ports record]. rewrite Hd.
    eexists. split; [reflexivity|]. cbn.
    split; [reflexivity|]. split; [apply delete_insert_eq|].
    split; [rewrite <- !app_assoc; reflexivity|].
    rewrite lookup_delete_eq. reflexivity.
  - intros d Hd.
    unfold budc_disconnect, bind, load_port. rewrite Hd.
    unfold ret, free_device. rewrite Hd.
    eexists. split; [reflexivity|]. cbn. repeat split; reflexivity.
  - intros d Hd. unfold budc_disconnect, bind, load_port. rewrite Hd. reflexivity.
Qed.

(** * The theorems on simulated devices *)

Lemma scripted_connected (script : list exchange) :
  connected (connected_world (scripted script)) (handle (scripted script)) 1.
Proof.
  exists 1%positive.
  exists {| port_name := "/dev/ttyACM0"; opened := true;
            applied := [Baudrate 9600; Bits 8; ParityNone; Stopbits 1;
                        FlowcontrolNone; DtrOn; RtsOn] |}.
  repeat split; vm_compute; reflexivity.
Qed.

Lemma temperature_acceptance_witness :
  connected (connected_world zero_sensor) (handle zero_sensor) 1
  /\ exists w',
       budc_get_temperature_c zero_sensor (handle zero_sensor) S754_nan
         (connected_world zero_sensor)
       = Done (0, S754_zero false) w'.
Proof.
  split; [apply scripted_connected|].
  apply (proj2 (proj2 (temperature_acceptance zero_sensor (connected_world zero_sensor)
                         (handle zero_sensor) 1%positive S754_nan
                         (scripted_connected _))) "0.0").
  - intros j Hj. destruct j as [|[|[|[|j]]]]; try reflexivity. lia.
  - reflexivity.
  - discriminate.
  - reflexivity.
  - reflexivity.
Defined.

Lemma retrying_getters_ceiling_witness :
  connected (connected_world third_time_lucky) (handle third_time_lucky) 1
  /\ exists v w',
       budc_get_lock_status third_time_lucky (handle third_time_lucky) false
         (connected_world third_time_lucky)
       = Done (0, v) w'
       /\ count_writes (log w')
          = (count_writes (log (connected_world third_time_lucky)) + 3)%nat.
Proof.
  split; [apply scripted_connected|].
  apply (proj1 (proj1 (proj2 (proj2
           (retrying_getters_ceiling third_time_lucky (connected_world third_time_lucky)
              (handle third_time_lucky) 1%positive EmptyString 64 S754_nan false S754_nan 0
              (scripted_connected _))))) 3%nat).
  - lia.
  - intros j Hj. destruct j as [|[|j]]; try reflexivity. lia.
  - reflexivity.
Defined.

Lemma set_frequency_and_wait_steps_witness :
  let W := connected_world stalled_line in
  let w1 := world_of (budc_set_frequency_ghz stalled_line (handle stalled_line)
                        (double_of_Z 5) W) W in
  budc_set_frequency_ghz stalled_line (handle stalled_line) (double_of_Z 5) W = Done (-1) w1
  /\ budc_set_frequency_and_wait stalled_line 10 (handle stalled_line) (double_of_Z 5) 1000 W
     = Done (-1) w1
  /\ lock_queries (log w1) = lock_queries (log W).
Proof.
  intros W w1.
  assert (Hset : budc_set_frequency_ghz stalled_line (handle stalled_line)
                   (double_of_Z 5) W = Done (-1) w1) by (vm_compute; reflexivity).
  split; [exact Hset|].
  destruct (proj1 (set_frequency_and_wait_steps stalled_line W (handle stalled_line)
                     1%positive (double_of_Z 5) 1000 10 (-1) w1 Hset) ltac:(lia))
    as [Hrun Hlog].
  split; [exact Hrun|]. apply Hlog. apply scripted_connected.
Defined.

Lemma raw_command_response_witness :
  let W := connected_world version_device in
  let w' := world_of (budc_send_raw_command version_device (handle version_device)
                        "*IDN?" Buffer 64 W) W in
  connected W (handle version_device) 1
  /\ budc_send_raw_command version_device (handle version_device) "*IDN?" Buffer 64 W
     = Done (0, Some "v1.0") w'
  /\ Some "v1.0" <> Some EmptyString.
Proof.
  intros W w'.
  assert (Hrun : budc_send_raw_command version_device (handle version_device)
                   "*IDN?" Buffer 64 W = Done (0, Some "v1.0") w')
    by (vm_compute; reflexivity).
  split; [apply scripted_connected|]. split; [exact Hrun|].
  pose proof (raw_command_response version_device W (handle version_device) 1%positive
                "*IDN?" Buffer 64 0 (Some "v1.0") w' (scripted_connected _) Hrun) as H.
  cbv zeta in H. destruct H as [Hquery _].
  destruct (Hquery eq_refl) as (_ & _ & Hne). apply Hne. reflexivity.
Defined.

Lemma getter_failure_preserves_output_witness :
  let W := connected_world silent_device in
  let run := budc_get_lock_status silent_device (handle silent_device) true W in
  run = Done (-1, stored_value run false) (world_of run W)
  /\ -1 <> 0
  /\ stored_value run false = true.
Proof.
  intros W run.
  assert (Hrun : run = Done (-1, stored_value run false) (world_of run W))
    by (vm_compute; reflexivity).
  split; [exact Hrun|]. split; [lia|].
  apply (proj1 (proj2 (getter_failure_preserves_output silent_device
                         (handle silent_device) W))
           true (-1) (stored_value run false) (world_of run W) Hrun).
  lia.
Defined.

Lemma query_without_buffer_fails_after_write_witness :
  let W := connected_world locked_device in
  connected W (handle locked_device) 1
  /\ strchr "LOCK?" "?" = true
  /\ exists w',
       budc_send_raw_command locked_device (handle locked_device) "LOCK?" NullBuffer 0 W
       = Done (-1, None) w'
       /\ log w' = (log W ++ [Flush 1; BlockingWrite 1 (full_command "LOCK?")
                                         READ_TIMEOUT_MS])%list
       /\ written w' = S (written W).
Proof.
  intros W. split; [apply scripted_connected|]. split; [reflexivity|].
  apply (query_without_buffer_fails_after_write locked_device W (handle locked_device)
           1%positive "LOCK?" NullBuffer 0 (scripted_connected _) eq_refl).
  left. reflexivity.
Defined.

(** C7 as stated fails: a port that cannot be reconfigured still yields a
    handle, to a port with none of the settings applied. *)
Lemma connect_ignores_failed_settings :
  (forall s, setting_ok fixed_line "/dev/ttyACM0" s = false)
  /\ exists w',
       budc_connect fixed_line "/dev/ttyACM0" boot = Done (Some 1%positive) w'
       /\ applied <$> (ports w' !! 1%positive) = Some [].
Proof.
  split; [reflexivity|]. eexists. split; vm_compute; reflexivity.
Qed.

(** C8 as stated fails: a second disconnect of the same handle is not a
    no-op, it goes through a pointer to a freed object. *)
Lemma second_disconnect_undefined :
  exists w1,
    budc_disconnect (handle silent_device) (connected_world silent_device) = Done tt w1
    /\ budc_disconnect (handle silent_device) w1 = Undefined.
Proof.
  eexists. split; vm_compute; reflexivity.
Qed.

Lemma disconnect_releases_witness :
  let W := connected_world silent_device in
  devs W !! 1%positive = Some (Some 1%positive)
  /\ is_Some (ports W !! 1%positive)
  /\ exists w',
       budc_disconnect (Some 1%positive) W = Done tt w'
       /\ devs w' = delete 1%positive (devs W)
       /\ ports w' = delete 1%positive (ports W)
       /\ log w' = (log W ++ [Close 1; FreePort 1; Free 1])%list
       /\ budc_disconnect (Some 1%positive) w' = Undefined.
Proof.
  intros W.
  assert (Hd : devs W !! 1%positive = Some (Some 1%positive)) by (vm_compute; reflexivity).
  assert (Hp : ports W !! 1%positive
               = Some {| port_name := "/dev/ttyACM0"; opened := true;
                         applied := [Baudrate 9600; Bits 8; ParityNone; Stopbits 1;
                                     FlowcontrolNone; DtrOn; RtsOn] |})
    by (vm_compute; reflexivity).
  split; [exact Hd|]. split; [rewrite Hp; eexists; reflexivity|].
  exact (proj1 (proj2 (disconnect_releases W)) 1%positive 1%positive _ Hd Hp).
Defined.

(** An out-of-range reading is rejected on the fifth attempt as on the
    others: the getter gives up and the output keeps its content. *)
Example temperature_out_of_range_at_last_attempt :
  exists w',
    budc_get_temperature_c hot_sensor (handle hot_sensor) S754_nan
      (connected_world hot_sensor)
    = Done (-1, S754_nan) w'
    /\ written w' = 5%nat.
Proof. eexists. split; vm_compute; reflexivity. Qed.

(** The lock reply is read with [atoi]: a 1 followed by text is locked. *)
Example lock_reply_with_text_after_digit :
  exists w',
    budc_get_lock_status verbose_device (handle verbose_device) false
      (connected_world verbose_device)
    = Done (0, true) w'.
Proof. eexists. vm_compute. reflexivity. Qed.

(** * Further properties *)

(** ** trim_whitespace *)

Lemma skip_space_all_space s : all_space s = true -> skip_space s = EmptyString.
Proof.
  induction s as [|c r IH]; simpl; [reflexivity|].
  intros H. apply andb_prop in H as [Hc Hr]. rewrite Hc. apply IH, Hr.
Qed.

Lemma skip_space_empty s : skip_space s = EmptyString -> all_space s = true.
Proof.
  induction s as [|c r IH]; simpl; [reflexivity|].
  destruct (isspace c); [exact IH | discriminate].
Qed.

Lemma skip_space_padded pre s : all_space pre = true -> skip_space (pre +:+ s) = skip_space s.
Proof.
  induction pre as [|c r IH]; [reflexivity|].
  simpl. intros H. apply andb_prop in H as [Hc Hr].
  rewrite Hc. apply IH, Hr.
Qed.

Lemma skip_space_no_space s : first_is_space s = false -> skip_space s = s.
Proof. destruct s as [|c r]; simpl; [reflexivity|]. intros ->. reflexivity. Qed.

Lemma rstrip_all_space s : all_space s = true -> rstrip s = EmptyString.
Proof.
  induction s as [|c r IH]; simpl; [reflexivity|].
  intros H. apply andb_prop in H as [Hc Hr]. rewrite (IH Hr), Hc. reflexivity.
Qed.

Lemma rstrip_padded s post : all_space post = true -> rstrip (s +:+ post) = rstrip s.
Proof.
  intros Hpost. induction s as [|c r IH].
  - rewrite append_empty. apply rstrip_all_space, Hpost.
  - rewrite append_cons. simpl. rewrite IH. reflexivity.
Qed.

Lemma rstrip_no_space s : last_is_space s = false -> rstrip s = s.
Proof.
  induction s as [|c r IH]; [reflexivity|].
  intros H. simpl. destruct r as [|d r'].
  - simpl in *. rewrite H. reflexivity.
  - rewrite (IH H). reflexivity.
Qed.

Lemma append_empty_r t : t +:+ EmptyString = t.
Proof.
  induction t as [|c r IH]; [reflexivity|]. rewrite append_cons, IH. reflexivity.
Qed.

Lemma trim_whitespace_padded (pre t post : string) :
  all_space pre = true ->
  all_space post = true ->
  first_is_space t = false ->
  last_is_space t = false ->
  trim_whitespace (pre +:+ t +:+ post) = t.
Proof.
  intros Ha Hb Hfirst Hlast. unfold trim_whitespace.
  rewrite (skip_space_padded pre _ Ha).
  destruct t as [|c r].
  - rewrite append_empty, (skip_space_all_space post Hb).
    destruct (pre +:+ post); reflexivity.
  - simpl in Hfirst. rewrite append_cons. simpl. rewrite Hfirst.
    rewrite (rstrip_padded r post Hb).
    assert (Hr : rstrip r = r).
    { destruct r as [|d r']; [reflexivity|]. apply rstrip_no_space. exact Hlast. }
    rewrite Hr. destruct (pre +:+ String c (r +:+ post)) eqn:Hs; [|reflexivity].
    destruct pre; discriminate.
Qed.

(** X1. Trimming gives back any text that has no white space at its ends
    from a copy padded with white space before and after; so text without
    such white space is left as it is, and trimming twice is trimming
    once. *)
Theorem trim_whitespace_recovers_padded (pre t post : string) :
  all_space pre = true ->
  all_space post = true ->
  first_is_space t = false ->
  last_is_space t = false ->
  trim_whitespace (pre +:+ t +:+ post) = t
  /\ trim_whitespace t = t
  /\ trim_whitespace (trim_whitespace (pre +:+ t +:+ post)) = trim_whitespace (pre +:+ t +:+ post).
Proof.
  intros Hpre Hpost Hfirst Hlast.
  assert (Hself : trim_whitespace t = t).
  { pose proof (trim_whitespace_padded EmptyString t EmptyString eq_refl eq_refl
                  Hfirst Hlast) as H.
    rewrite append_empty, append_empty_r in H. exact H. }
  split; [apply trim_whitespace_padded; assumption|]. split; [exact Hself|].
  rewrite (trim_whitespace_padded pre t post Hpre Hpost Hfirst Hlast). exact Hself.
Qed.

(** X2. Trimming leaves the empty string exactly when the string is white
    space throughout (the empty string included): this is when a reply
    counts as no reply. *)
Theorem trim_whitespace_empty_iff (s : string) :
  trim_whitespace s = EmptyString <-> all_space s = true.
Proof.
  split.
  - intros H. destruct s as [|c0 r0]; [reflexivity|].
    unfold trim_whitespace in H. apply skip_space_empty.
    destruct (skip_space (String c0 r0)); [reflexivity | discriminate].
  - intros H. unfold trim_whitespace. rewrite (skip_space_all_space s H).
    destruct s; reflexivity.
Qed.

(** ** Decimal text of an [int] *)

Lemma digit_char_spec d :
  0 <= d < 10 ->
  isdigit (digit_char d) = true
  /\ digit_value (digit_char d) = d
  /\ isspace (digit_char d) = false
  /\ Ascii.eqb (digit_char d) Ascii.zero = false
  /\ Ascii.eqb (digit_char d) "?" = false.
Proof.
  intros H.
  assert (Hd : d = 0 \/ d = 1 \/ d = 2 \/ d = 3 \/ d = 4 \/ d = 5 \/ d = 6
               \/ d = 7 \/ d = 8 \/ d = 9) by lia.
  repeat (destruct Hd as [-> | Hd]; [repeat split; reflexivity|]).
  subst d. repeat split; reflexivity.
Qed.

Lemma decimal_prefix_digit_head d rest :
  0 <= d < 10 ->
  decimal_prefix (String (digit_char d) rest) = digits_value 0 (String (digit_char d) rest).
Proof.
  intros H.
  assert (Hd : d = 0 \/ d = 1 \/ d = 2 \/ d = 3 \/ d = 4 \/ d = 5 \/ d = 6
               \/ d = 7 \/ d = 8 \/ d = 9) by lia.
  repeat (destruct Hd as [-> | Hd]; [reflexivity|]).
  subst d. reflexivity.
Qed.

Lemma decimal_digits_head fuel : forall n acc,
  0 <= n ->
  exists d rest, decimal_digits (S fuel) n acc = String (digit_char d) rest /\ 0 <= d < 10.
Proof.
  induction fuel as [|fuel IH]; intros n acc Hn.
  - simpl. exists (n mod 10), acc.
    split; [destruct (n <? 10); reflexivity | apply Z.mod_pos_bound; lia].
  - cbn [decimal_digits]. destruct (n <? 10) eqn:Hlt.
    + exists (n mod 10), acc. split; [reflexivity | apply Z.mod_pos_bound; lia].
    + apply IH. apply Z.div_pos; lia.
Qed.

Lemma decimal_digits_value fuel : forall n acc,
  0 <= n < 10 ^ Z.of_nat fuel ->
  exists k : nat, forall a,
    digits_value a (decimal_digits fuel n acc) = digits_value (a * 10 ^ Z.of_nat k + n) acc.
Proof.
  induction fuel as [|fuel IH]; intros n acc Hn.
  - exists O. intros a. simpl in *. f_equal. lia.
  - cbn [decimal_digits].
    assert (Hmod : 0 <= n mod 10 < 10) by (apply Z.mod_pos_bound; lia).
    destruct (digit_char_spec (n mod 10) Hmod) as (Hdig & Hval & _).
    destruct (n <? 10) eqn:Hlt.
    + apply Z.ltb_lt in Hlt. exists 1%nat. intros a. simpl digits_value.
      rewrite Hdig, Hval. f_equal. rewrite Z.mod_small by lia.
      change (10 ^ Z.of_nat 1) with 10. lia.
    + apply Z.ltb_ge in Hlt.
      destruct (IH (n / 10) (String (digit_char (n mod 10)) acc)) as [k Hk].
      { split; [apply Z.div_pos; lia|].
        apply Z.div_lt_upper_bound; [lia|].
        rewrite Nat2Z.inj_succ, Z.pow_succ_r in Hn by lia. lia. }
      exists (S k). intros a. rewrite Hk. simpl digits_value.
      rewrite Hdig, Hval. f_equal.
      rewrite Nat2Z.inj_succ, Z.pow_succ_r by lia.
      pose proof (Z.div_mod n 10 ltac:(lia)) as Hdm. lia.
Qed.

Lemma decimal_prefix_format_d (n : Z) :
  INT_MIN <= n <= INT_MAX ->
  decimal_prefix (format_d n) = n.
Proof.
  intros Hn. unfold INT_MIN, INT_MAX in Hn.
  unfold format_d. destruct (n <? 0) eqn:Hneg.
  - apply Z.ltb_lt in Hneg.
    change (decimal_prefix (String "-" (decimal_digits 10 (- n) EmptyString)))
      with (- digits_value 0 (decimal_digits 10 (- n) EmptyString)).
    destruct (decimal_digits_value 10 (- n) EmptyString) as [k Hk];
      [change (10 ^ Z.of_nat 10) with 10000000000; lia|].
    rewrite Hk. simpl digits_value. lia.
  - apply Z.ltb_ge in Hneg.
    destruct (decimal_digits_head 9 n EmptyString Hneg) as (d & rest & Heq & Hd).
    rewrite Heq, (decimal_prefix_digit_head d rest Hd), <- Heq.
    destruct (decimal_digits_value 10 n EmptyString) as [k Hk];
      [change (10 ^ Z.of_nat 10) with 10000000000; lia|].
    rewrite Hk. simpl digits_value. lia.
Qed.

Lemma decimal_round_trip (P : platform) (n : Z) :
  INT_MIN <= n <= INT_MAX ->
  atoi P (format_d n) = n.
Proof.
  intros Hn. unfold atoi. rewrite (decimal_prefix_format_d n Hn).
  destruct Hn as [H1 H2]. apply Z.leb_le in H1, H2. rewrite H1, H2. reflexivity.
Qed.

Lemma every_app p a b : every p (a +:+ b) = every p a && every p b.
Proof.
  induction a as [|c r IH]; [reflexivity|].
  rewrite append_cons. simpl. rewrite IH. apply andb_assoc.
Qed.

Lemma every_weaken (p q : ascii -> bool) s :
  (forall c, p c = true -> q c = true) -> every p s = true -> every q s = true.
Proof.
  intros Hpq. induction s as [|c r IH]; simpl; [reflexivity|].
  intros H. apply andb_prop in H as [Hc Hr]. rewrite (Hpq c Hc), (IH Hr). reflexivity.
Qed.

Lemma all_space_every s : all_space s = every isspace s.
Proof. induction s as [|c r IH]; simpl; [reflexivity|]. rewrite IH. reflexivity. Qed.

Lemma digit_char_decimal d : 0 <= d < 10 -> decimal_char (digit_char d) = true.
Proof.
  intros H. unfold decimal_char.
  destruct (digit_char_spec d H) as (-> & _). reflexivity.
Qed.

Lemma decimal_char_plain c :
  decimal_char c = true ->
  isspace c = false /\ not_nul c = true /\ Ascii.eqb c "?" = false.
Proof.
  unfold decimal_char, isdigit, isspace, not_nul. intros H.
  assert (Hn : Ascii.eqb c "-" = true -> N_of_ascii c = 45%N).
  { intros He. apply Ascii.eqb_eq in He. subst c. reflexivity. }
  assert (Hcases : (48 <= N_of_ascii c <= 57)%N \/ N_of_ascii c = 45%N).
  { apply orb_prop in H as [H | H].
    - apply andb_prop in H as [H1 H2]. left. split; apply N.leb_le; assumption.
    - right. apply Hn, H. }
  assert (Hz : forall k : N, (k < 256)%N -> N_of_ascii c <> k ->
                 Ascii.eqb c (ascii_of_N k) = false).
  { intros k Hlt Hk. apply Ascii.eqb_neq. intros ->.
    rewrite N_ascii_embedding in Hk by exact Hlt. congruence. }
  split; [|split].
  - destruct Hcases as [[H1 H2] | H1].
    + assert (E1 : (N_of_ascii c <=? 13)%N = false) by (apply N.leb_gt; lia).
      assert (E2 : (N_of_ascii c =? 32)%N = false) by (apply N.eqb_neq; lia).
      rewrite E1, E2, andb_false_r. reflexivity.
    + rewrite H1. reflexivity.
  - change Ascii.zero with (ascii_of_N 0). rewrite Hz; [reflexivity | lia | lia].
  - change "?"%char with (ascii_of_N 63). apply Hz; lia.
Qed.

Lemma decimal_digits_every fuel : forall n acc,
  every decimal_char acc = true ->
  every decimal_char (decimal_digits fuel n acc) = true.
Proof.
  induction fuel as [|fuel IH]; intros n acc Hacc; [exact Hacc|].
  cbn [decimal_digits].
  assert (Hd : every decimal_char (String (digit_char (n mod 10)) acc) = true).
  { simpl. rewrite Hacc, digit_char_decimal; [reflexivity|].
    apply Z.mod_pos_bound. lia. }
  destruct (n <? 10); [exact Hd | apply IH, Hd].
Qed.

Lemma decimal_digits_length fuel : forall n acc,
  (String.length (decimal_digits fuel n acc) <= fuel + String.length acc)%nat.
Proof.
  induction fuel as [|fuel IH]; intros n acc; [simpl; lia|].
  cbn [decimal_digits]. destruct (n <? 10); [simpl; lia|].
  etransitivity; [apply IH|]. simpl. lia.
Qed.

Lemma format_d_every n : every decimal_char (format_d n) = true.
Proof.
  unfold format_d. destruct (n <? 0).
  - cbn [every]. rewrite decimal_digits_every by reflexivity. reflexivity.
  - apply decimal_digits_every. reflexivity.
Qed.

Lemma format_d_length n : (1 <= String.length (format_d n) <= 11)%nat.
Proof.
  unfold format_d. destruct (n <? 0) eqn:Hneg.
  - pose proof (decimal_digits_length 10 (- n) EmptyString) as H.
    cbn [String.length] in *. lia.
  - pose proof (decimal_digits_length 10 n EmptyString) as H.
    cbn [String.length] in H. split; [|lia].
    destruct (decimal_digits_head 9 n EmptyString) as (d & rest & -> & _).
    + apply Z.ltb_ge. assumption.
    + cbn [String.length]. lia.
Qed.

Lemma every_no_edge_space s :
  every (fun c => negb (isspace c)) s = true ->
  first_is_space s = false /\ last_is_space s = false.
Proof.
  intros H. split.
  - destruct s as [|c r]; [reflexivity|]. simpl in *.
    apply andb_prop in H as [Hc _]. apply negb_true_iff in Hc. exact Hc.
  - induction s as [|c r IH]; [reflexivity|]. simpl in H.
    apply andb_prop in H as [Hc Hr]. apply negb_true_iff in Hc.
    simpl. destruct r; [exact Hc | apply IH, Hr].
Qed.

Lemma cstr_no_nul s : every not_nul s = true -> cstr s = s.
Proof.
  induction s as [|c r IH]; simpl; [reflexivity|].
  intros H. apply andb_prop in H as [Hc Hr].
  unfold not_nul in Hc. apply negb_true_iff in Hc. rewrite Hc, (IH Hr). reflexivity.
Qed.

Lemma truncate_short n : forall s, (String.length s <= n)%nat -> truncate n s = s.
Proof.
  induction n as [|n IH]; intros [|c r]; simpl; intros H; try reflexivity; try lia.
  rewrite IH by lia. reflexivity.
Qed.

Lemma strchr_every s c :
  every (fun d => negb (Ascii.eqb d c)) s = true -> strchr s c = false.
Proof.
  induction s as [|d r IH]; simpl; [reflexivity|].
  intros H. apply andb_prop in H as [Hd Hr]. apply negb_true_iff in Hd.
  rewrite Hd, (IH Hr). reflexivity.
Qed.

Lemma isspace_not_nul c : isspace c = true -> not_nul c = true.
Proof.
  unfold not_nul. intros H. apply negb_true_iff. apply Ascii.eqb_neq. intros ->.
  discriminate.
Qed.

Lemma length_append a b : String.length (a +:+ b) = (String.length a + String.length b)%nat.
Proof.
  induction a as [|c r IH]; [reflexivity|]. rewrite append_cons. simpl. rewrite IH. reflexivity.
Qed.

(** X3. Formatting an [int] with [%d], as [budc_set_power_level] does,
    and reading the text back with [atoi], as [budc_get_power_level]
    does, gives the same value, without a call on the platform's
    out-of-range case. *)
Theorem atoi_format_d (P : platform) (n : Z) :
  INT_MIN <= n <= INT_MAX ->
  atoi P (format_d n) = n /\ decimal_prefix (format_d n) = n.
Proof.
  intros Hn. split; [apply decimal_round_trip | apply decimal_prefix_format_d]; exact Hn.
Qed.

(** ** Setters and the power level round trip *)

Section Setters.

Variable P : platform.

Lemma padded_decimal_reply (pre post : string) (n : Z) (x : exchange) :
  all_space pre = true ->
  all_space post = true ->
  (String.length (pre +:+ format_d n +:+ post) <= 15)%nat ->
  write_complete "PWR?" x = true ->
  rd x = RdBytes (pre +:+ format_d n +:+ post) ->
  transport_reply "PWR?" 16 x = Some (format_d n).
Proof.
  intros Hpre Hpost Hlen Hw Hrd.
  pose proof (format_d_every n) as Hdec.
  assert (Hplain : forall c, decimal_char c = true ->
            isspace c = false /\ not_nul c = true /\ Ascii.eqb c "?" = false)
    by apply decimal_char_plain.
  destruct (every_no_edge_space (format_d n)) as [Hfirst Hlast].
  { apply (every_weaken decimal_char); [|exact Hdec].
    intros c Hc. destruct (Hplain c Hc) as (-> & _). reflexivity. }
  assert (Hnul : every not_nul (pre +:+ format_d n +:+ post) = true).
  { rewrite !every_app.
    rewrite (every_weaken isspace not_nul pre isspace_not_nul)
      by (rewrite <- all_space_every; exact Hpre).
    rewrite (every_weaken isspace not_nul post isspace_not_nul)
      by (rewrite <- all_space_every; exact Hpost).
    rewrite (every_weaken decimal_char not_nul (format_d n)); [reflexivity| |exact Hdec].
    intros c Hc. apply (Hplain c Hc). }
  unfold transport_reply, send_result, reaches_read.
  unfold write_complete in Hw. apply Z.leb_le in Hw.
  assert (Hlt : (write_result x (strlen (full_command "PWR?"))
                 <? strlen (full_command "PWR?")) = false) by (apply Z.ltb_ge; exact Hw).
  rewrite Hlt. cbn [negb andb strchr Ascii.eqb Bool.eqb orb].
  change (16 =? 0) with false. change (16 - 1 =? 0) with false. cbn [negb].
  unfold read_result. rewrite Hrd.
  change (Z.to_nat (16 - 1)) with 15%nat.
  rewrite (truncate_short 15 _ Hlen). cbn [fst snd].
  rewrite (cstr_no_nul _ Hnul).
  rewrite (trim_whitespace_padded pre (format_d n) post Hpre Hpost Hfirst Hlast).
  pose proof (format_d_length n) as Hfl.
  assert (Hpos : (0 <? Z.of_nat (String.length (pre +:+ format_d n +:+ post))) = true).
  { apply Z.ltb_lt. rewrite !length_append. lia. }
  rewrite Hpos.
  assert (Hne : (strlen (format_d n) =? 0) = false).
  { apply Z.eqb_neq. unfold strlen. lia. }
  rewrite Hne. reflexivity.
Qed.

(** X4. The power level round trip on the line: when the device answers
    [PWR?] with the decimal text of an [int], as [budc_set_power_level]
    writes it, with any white space around it and within the 15 bytes the
    getter reads, [budc_get_power_level] over a connected handle returns
    0 with that value, after one command. *)
Theorem power_level_round_trip (w : world) (dev : ptr) (port : loc)
    (n power_level : Z) (pre post : string) :
  connected w dev port ->
  INT_MIN <= n <= INT_MAX ->
  all_space pre = true ->
  all_space post = true ->
  (String.length (pre +:+ format_d n +:+ post) <= 15)%nat ->
  write_complete "PWR?" (line P (written w)) = true ->
  rd (line P (written w)) = RdBytes (pre +:+ format_d n +:+ post) ->
  exists w',
    budc_get_power_level P dev power_level w = Done (0, n) w'
    /\ count_writes (log w') = S (count_writes (log w)).
Proof.
  intros Hc Hn Hpre Hpost Hlen Hw Hrd.
  pose proof (padded_decimal_reply pre post n _ Hpre Hpost Hlen Hw Hrd) as Hreply.
  destruct (for_attempts_succeeds P dev port (power_attempt P dev) "PWR?" Buffer 16
              (accepts (parse_power P) "PWR?" 16)
              (fun i mem x => snd (attempt_result (parse_power P) "PWR?" 16 i mem x))
              (fun _ => True)) with (m := O) (n := 3%nat) (i0 := O)
              (delay_ms := 100) (mem := power_level) (w := w)
    as (v & w' & Hrun & _ & Hcnt & mem0 & Hv); auto.
  - intros w0 i mem _ Hc0. rewrite <- attempt_result_accepts.
    apply power_attempt_run. exact Hc0.
  - intros j Hj. lia.
  - unfold accepts. rewrite !Nat.add_0_r, Hreply. reflexivity.
  - exists w'. unfold budc_get_power_level, MAX_RETRIES. rewrite Hrun.
    split; [|rewrite Hcnt; lia]. f_equal. f_equal.
    rewrite Hv. unfold attempt_result. rewrite !Nat.add_0_r, Hreply.
    cbn [parse_power snd]. apply decimal_round_trip. exact Hn.
Qed.

Lemma setter_law_intro (w : world) (dev : ptr) (port : loc) (command : string) :
  connected w dev port ->
  setter_law P (bind (budc_send_raw_command P dev command NullBuffer 0)
                     (fun r => ret (fst r))) command port w.
Proof.
  intros Hc. unfold setter_law.
  rewrite (bind_run _ _ _ _ _ (send_raw_run P w dev port command NullBuffer 0 Hc)).
  exists (send_world P command NullBuffer 0 port w).
  assert (Hnr : reaches_read command NullBuffer 0 (line P (written w)) = false)
    by (unfold reaches_read; apply andb_false_r).
  split; [|split; [|split; [|split; [|split]]]]; try reflexivity.
  - unfold ret. f_equal. unfold send_result, write_complete. rewrite Hnr.
    destruct (write_result _ _ <? _) eqn:Hlt.
    + apply Z.ltb_lt in Hlt.
      assert (Hle : (strlen (full_command command)
                     <=? write_result (line P (written w)) (strlen (full_command command)))
                    = false) by (apply Z.leb_gt; exact Hlt).
      rewrite Hle. reflexivity.
    + apply Z.ltb_ge in Hlt. apply Z.leb_le in Hlt. rewrite Hlt.
      destruct (strchr command "?"); reflexivity.
  - simpl. unfold send_log. rewrite Hnr. reflexivity.
  - simpl. unfold send_ms. rewrite Hnr.
    pose proof (blocked_bounds (wr_ms (line P (written w))) READ_TIMEOUT_MS) as Hb.
    unfold READ_TIMEOUT_MS in *. lia.
Qed.

Lemma power_command_text n :
  power_command n = "PWR " +:+ format_d n
  /\ strchr ("PWR " +:+ format_d n) "?" = false.
Proof.
  pose proof (format_d_length n) as Hl. split.
  - unfold power_command. apply truncate_short. rewrite length_append. simpl. lia.
  - apply strchr_every. rewrite every_app. apply andb_true_intro. split; [reflexivity|].
    apply (every_weaken decimal_char); [|apply format_d_every].
    intros c Hc. destruct (decimal_char_plain c Hc) as (_ & _ & ->). reflexivity.
Qed.

(** X5. Every setter over a connected handle flushes, writes its command
    with the terminator once, reads nothing, never retries and leaves the
    live ports and handles alone; it returns 0 when the write took the
    whole command and -1 otherwise, within the 800 ms of the write
    timeout.  [budc_set_power_level] writes [PWR] and the decimal text of
    its argument, never a query. *)
Theorem setters_write_once (w : world) (dev : ptr) (port : loc) :
  connected w dev port ->
  setter_law P (budc_save_settings P dev) "SAVE" port w
  /\ setter_law P (budc_preset P dev) "PRESET" port w
  /\ (forall power_level,
        setter_law P (budc_set_power_level P dev power_level)
                   ("PWR " +:+ format_d power_level) port w
        /\ strchr ("PWR " +:+ format_d power_level) "?" = false)
  /\ (forall freq_ghz,
        setter_law P (budc_set_frequency_ghz P dev freq_ghz)
                   (truncate 63 ("FREQ " +:+ format_g10 P freq_ghz +:+ "GHZ")) port w)
  /\ (forall freq_mhz,
        setter_law P (budc_set_frequency_mhz P dev freq_mhz)
                   (truncate 63 ("FREQ " +:+ format_g10 P freq_mhz +:+ "MHZ")) port w)
  /\ (forall freq_hz,
        setter_law P (budc_set_frequency_hz P dev freq_hz)
                   (truncate 63 ("FREQ " +:+ format_g10 P freq_hz)) port w).
Proof.
  intros Hc. split; [|split; [|split; [|split; [|split]]]].
  - apply setter_law_intro. exact Hc.
  - apply setter_law_intro. exact Hc.
  - intros n. destruct (power_command_text n) as [Hcmd Hq]. split; [|exact Hq].
    unfold budc_set_power_level. fold (power_command n). rewrite Hcmd.
    apply setter_law_intro. exact Hc.
  - intros f. apply setter_law_intro. exact Hc.
  - intros f. apply setter_law_intro. exact Hc.
  - intros f. apply setter_law_intro. exact Hc.
Qed.

(** *** A handle that is not connected *)

Lemma send_raw_unconnected w dev command response response_len :
  unconnected w dev ->
  budc_send_raw_command P dev command response response_len w = Done (-1, None) w.
Proof.
  intros [-> | (d & -> & Hd)]; unfold budc_send_raw_command, bind, budc_is_connected.
  - reflexivity.
  - unfold bind, load_port. rewrite Hd. reflexivity.
Qed.

Lemma unconnected_delay w dev ms :
  unconnected w dev -> unconnected (record (Delay ms) (tick ms w)) dev.
Proof. intros [H | H]; [left | right]; exact H. Qed.

Lemma for_attempts_unconnected {T} (dev : ptr) (body : nat -> T -> M (bool * T)) :
  (forall i mem w, unconnected w dev -> body i mem w = Done (false, mem) w) ->
  forall n i0 delay_ms mem w,
    unconnected w dev ->
    for_attempts n i0 delay_ms body mem w = Done (-1, mem) (after_delays n delay_ms w).
Proof.
  intros Hbody. induction n as [|n IH]; intros i0 delay_ms mem w Hu; [reflexivity|].
  simpl. rewrite (bind_run _ _ _ _ _ (Hbody i0 mem w Hu)). cbn [fst snd].
  unfold scpi_delay at 1. unfold bind at 1.
  apply IH. apply unconnected_delay. exact Hu.
Qed.

(** X6. With a null handle, or a handle whose port pointer is null,
    nothing reaches the serial library: the raw command and every setter
    return -1 at once, and every getter returns -1 with its output as it
    was, but only after sleeping through all its retry delays (three of
    100 ms, five of 250 ms for the temperature). *)
Theorem unconnected_handle_fails (w : world) (dev : ptr) :
  unconnected w dev ->
  (forall command response response_len,
      budc_send_raw_command P dev command response response_len w = Done (-1, None) w)
  /\ budc_save_settings P dev w = Done (-1) w
  /\ budc_preset P dev w = Done (-1) w
  /\ (forall n, budc_set_power_level P dev n w = Done (-1) w)
  /\ (forall f, budc_set_frequency_ghz P dev f w = Done (-1) w
                /\ budc_set_frequency_mhz P dev f w = Done (-1) w
                /\ budc_set_frequency_hz P dev f w = Done (-1) w)
  /\ (forall buffer len,
        budc_get_identity P dev buffer len w = Done (-1, buffer) (after_delays 3 100 w))
  /\ (forall v, budc_get_frequency_ghz P dev v w = Done (-1, v) (after_delays 3 100 w))
  /\ (forall v, budc_get_lock_status P dev v w = Done (-1, v) (after_delays 3 100 w))
  /\ (forall v, budc_get_power_level P dev v w = Done (-1, v) (after_delays 3 100 w))
  /\ (forall v, budc_get_temperature_c P dev v w = Done (-1, v) (after_delays 5 250 w))
  /\ now (after_delays 3 100 w) = now w + 300
  /\ now (after_delays 5 250 w) = now w + 1250
  /\ count_writes (log (after_delays 5 250 w)) = count_writes (log w).
Proof.
  intros Hu.
  assert (Hset : forall command,
             bind (budc_send_raw_command P dev command NullBuffer 0)
                  (fun r => ret (fst r)) w = Done (-1) w).
  { intros command. rewrite (bind_run _ _ _ _ _ (send_raw_unconnected _ _ _ _ _ Hu)).
    reflexivity. }
  split; [intros; apply send_raw_unconnected; exact Hu|].
  split; [apply Hset|]. split; [apply Hset|]. split; [intros; apply Hset|].
  split; [intros; repeat split; apply Hset|].
  split.
  { intros buffer len. apply (for_attempts_unconnected dev); [|exact Hu].
    intros i mem w0 Hu0. unfold identity_attempt.
    rewrite (bind_run _ _ _ _ _ (send_raw_unconnected _ _ _ _ _ Hu0)). reflexivity. }
  split.
  { intros v. apply (for_attempts_unconnected dev); [|exact Hu].
    intros i mem w0 Hu0. unfold frequency_attempt.
    rewrite (bind_run _ _ _ _ _ (send_raw_unconnected _ _ _ _ _ Hu0)). reflexivity. }
  split.
  { intros v. apply (for_attempts_unconnected dev); [|exact Hu].
    intros i mem w0 Hu0. unfold lock_attempt.
    rewrite (bind_run _ _ _ _ _ (send_raw_unconnected _ _ _ _ _ Hu0)). reflexivity. }
  split.
  { intros v. apply (for_attempts_unconnected dev); [|exact Hu].
    intros i mem w0 Hu0. unfold power_attempt.
    rewrite (bind_run _ _ _ _ _ (send_raw_unconnected _ _ _ _ _ Hu0)). reflexivity. }
  split.
  { intros v. apply (for_attempts_unconnected dev); [|exact Hu].
    intros i mem w0 Hu0. unfold temperature_attempt.
    rewrite (bind_run _ _ _ _ _ (send_raw_unconnected _ _ _ _ _ Hu0)). reflexivity. }
  split; [simpl; lia|]. split; [simpl; lia|].
  simpl. rewrite !count_writes_app. simpl. lia.
Qed.

End Setters.

(** ** The getters over a connected handle *)

Section GetterBounds.

Variable P : platform.

Lemma for_attempts_bounded {T} (dev : ptr) (port : loc) (body : nat -> T -> M (bool * T))
    (command : string) (response_len : Z) (accept : nat -> exchange -> bool)
    (store : nat -> T -> exchange -> T) (valid : T -> Prop) :
  (forall i mem x, valid mem -> valid (store i mem x)) ->
  (forall w i mem, valid mem -> connected w dev port ->
     body i mem w
     = Done (accept i (line P (written w)), store i mem (line P (written w)))
            (send_world P command Buffer response_len port w)) ->
  forall n i0 delay_ms mem w,
    0 <= delay_ms ->
    valid mem ->
    connected w dev port ->
    bounded_call (for_attempts n i0 delay_ms body mem) n
                 (Z.of_nat n * (SEND_BUDGET_MS P + delay_ms)) dev port w.
Proof.
  intros Hsv Hbody. induction n as [|n IH]; intros i0 delay_ms mem w Hd Hv Hc.
  - exists (-1), mem, w. simpl. unfold ret.
    repeat split; auto; lia.
  - unfold bounded_call.
    rewrite (for_attempts_step P dev port body command Buffer response_len accept store
               valid Hbody w n i0 delay_ms mem Hv Hc). cbv zeta.
    pose proof (send_ms_bounds P command Buffer response_len (line P (written w))) as Hb.
    rewrite Nat2Z.inj_succ, Z.mul_succ_l.
    assert (0 <= Z.of_nat n * (SEND_BUDGET_MS P + delay_ms)) as Hpos
      by (apply Z.mul_nonneg_nonneg; lia).
    destruct (accept i0 _).
    + eexists _, _, _. split; [reflexivity|].
      split; [auto|]. split; [apply send_world_connected; exact Hc|].
      simpl. repeat split; try reflexivity; lia.
    + destruct (IH (S i0) delay_ms (store i0 mem (line P (written w)))
                  (record (Delay delay_ms)
                     (tick delay_ms (send_world P command Buffer response_len port w))))
        as (rc & out & w' & Hrun & Hrc & Hc' & Hp & Hdv & Hwr & Hnow).
      * exact Hd.
      * apply Hsv. exact Hv.
      * apply delay_connected, send_world_connected. exact Hc.
      * exists rc, out, w'. split; [exact Hrun|]. split; [exact Hrc|].
        split; [exact Hc'|]. simpl in Hp, Hdv, Hwr, Hnow.
        split; [exact Hp|]. split; [exact Hdv|]. split; lia.
Qed.

Lemma frequency_body_run (dev : ptr) (port : loc) : forall w i mem,
  True -> connected w dev port ->
  frequency_attempt P dev i mem w
  = Done (accepts (parse_frequency P) "FREQ?" 64 i (line P (written w)),
          snd (attempt_result (parse_frequency P) "FREQ?" 64 i mem (line P (written w))))
         (send_world P "FREQ?" Buffer 64 port w).
Proof.
  intros w i mem _ Hc. rewrite <- attempt_result_accepts.
  apply frequency_attempt_run. exact Hc.
Qed.

Lemma power_body_run (dev : ptr) (port : loc) : forall w i mem,
  True -> connected w dev port ->
  power_attempt P dev i mem w
  = Done (accepts (parse_power P) "PWR?" 16 i (line P (written w)),
          snd (attempt_result (parse_power P) "PWR?" 16 i mem (line P (written w))))
         (send_world P "PWR?" Buffer 16 port w).
Proof.
  intros w i mem _ Hc. rewrite <- attempt_result_accepts.
  apply power_attempt_run. exact Hc.
Qed.

Lemma temperature_body_run (dev : ptr) (port : loc) : forall w i mem,
  True -> connected w dev port ->
  temperature_attempt P dev i mem w
  = Done (accepts (parse_temperature P) "TEMP?" 64 i (line P (written w)),
          snd (attempt_result (parse_temperature P) "TEMP?" 64 i mem (line P (written w))))
         (send_world P "TEMP?" Buffer 64 port w).
Proof.
  intros w i mem _ Hc. rewrite <- attempt_result_accepts.
  apply temperature_attempt_run. exact Hc.
Qed.

Lemma identity_bounded w dev port buffer len :
  connected w dev port ->
  bounded_call (budc_get_identity P dev (Some buffer) len) 3
               (3 * (SEND_BUDGET_MS P + 100)) dev port w.
Proof.
  intros Hc.
  apply (for_attempts_bounded dev port (identity_attempt P dev len) "*IDN?" len
           (identity_accepts len) (identity_store len) is_Some
           (fun i mem x => identity_store_valid len i mem x)
           (fun w0 i mem Hv Hc0 => identity_attempt_run P w0 dev port len i mem Hv Hc0)
           3%nat O 100 (Some buffer) w); [lia | eexists; reflexivity | exact Hc].
Qed.

Lemma frequency_bounded w dev port v :
  connected w dev port ->
  bounded_call (budc_get_frequency_ghz P dev v) 3
               (3 * (SEND_BUDGET_MS P + 100)) dev port w.
Proof.
  intros Hc.
  apply (for_attempts_bounded dev port (frequency_attempt P dev) "FREQ?" 64
           (accepts (parse_frequency P) "FREQ?" 64)
           (fun i mem x => snd (attempt_result (parse_frequency P) "FREQ?" 64 i mem x))
           (fun _ => True) ltac:(auto) (frequency_body_run dev port)
           3%nat O 100 v w); [lia | exact I | exact Hc].
Qed.

Lemma lock_bounded w dev port v :
  connected w dev port ->
  bounded_call (budc_get_lock_status P dev v) 3
               (3 * (SEND_BUDGET_MS P + 100)) dev port w.
Proof.
  intros Hc.
  apply (for_attempts_bounded dev port (lock_attempt P dev) "LOCK?" 16
           (accepts (parse_lock P) "LOCK?" 16)
           (fun i mem x => snd (attempt_result (parse_lock P) "LOCK?" 16 i mem x))
           (fun _ => True) ltac:(auto)
           (fun w0 i mem _ Hc0 =>
              eq_trans (lock_attempt_run P w0 dev port i mem Hc0)
                       (f_equal (fun r => Done r _)
                          (attempt_result_accepts (parse_lock P) "LOCK?" 16 i mem _)))
           3%nat O 100 v w); [lia | exact I | exact Hc].
Qed.

Lemma power_bounded w dev port v :
  connected w dev port ->
  bounded_call (budc_get_power_level P dev v) 3
               (3 * (SEND_BUDGET_MS P + 100)) dev port w.
Proof.
  intros Hc.
  apply (for_attempts_bounded dev port (power_attempt P dev) "PWR?" 16
           (accepts (parse_power P) "PWR?" 16)
           (fun i mem x => snd (attempt_result (parse_power P) "PWR?" 16 i mem x))
           (fun _ => True) ltac:(auto) (power_body_run dev port)
           3%nat O 100 v w); [lia | exact I | exact Hc].
Qed.

Lemma temperature_bounded w dev port v :
  connected w dev port ->
  bounded_call (budc_get_temperature_c P dev v) 5
               (5 * (SEND_BUDGET_MS P + 250)) dev port w.
Proof.
  intros Hc.
  apply (for_attempts_bounded dev port (temperature_attempt P dev) "TEMP?" 64
           (accepts (parse_temperature P) "TEMP?" 64)
           (fun i mem x => snd (attempt_result (parse_temperature P) "TEMP?" 64 i mem x))
           (fun _ => True) ltac:(auto) (temperature_body_run dev port)
           5%nat O 250 v w); [lia | exact I | exact Hc].
Qed.

(** X7. Over a connected handle every getter returns, with 0 or -1 and
    never with undefined behaviour; the handle is still connected and the
    live ports and handles are untouched; it has written at most three
    commands (five for the temperature) and taken at most three times
    (five times) the budget of one command plus one retry delay. *)
Theorem getters_return_within_budget (w : world) (dev : ptr) (port : loc) :
  connected w dev port ->
  (forall buffer len,
      bounded_call (budc_get_identity P dev (Some buffer) len) 3
                   (3 * (SEND_BUDGET_MS P + 100)) dev port w)
  /\ (forall v, bounded_call (budc_get_frequency_ghz P dev v) 3
                             (3 * (SEND_BUDGET_MS P + 100)) dev port w)
  /\ (forall v, bounded_call (budc_get_lock_status P dev v) 3
                             (3 * (SEND_BUDGET_MS P + 100)) dev port w)
  /\ (forall v, bounded_call (budc_get_power_level P dev v) 3
                             (3 * (SEND_BUDGET_MS P + 100)) dev port w)
  /\ (forall v, bounded_call (budc_get_temperature_c P dev v) 5
                             (5 * (SEND_BUDGET_MS P + 250)) dev port w).
Proof.
  intros Hc. split; [|split; [|split; [|split]]]; intros.
  - apply identity_bounded, Hc.
  - apply frequency_bounded, Hc.
  - apply lock_bounded, Hc.
  - apply power_bounded, Hc.
  - apply temperature_bounded, Hc.
Qed.

End GetterBounds.

Section GetterValues.

Variable P : platform.

Lemma for_attempts_sleeps {T} (dev : ptr) (port : loc) (body : nat -> T -> M (bool * T))
    (command : string) (response_len : Z) (accept : nat -> exchange -> bool)
    (store : nat -> T -> exchange -> T) (valid : T -> Prop) :
  (forall i mem x, valid mem -> valid (store i mem x)) ->
  (forall w i mem, valid mem -> connected w dev port ->
     body i mem w
     = Done (accept i (line P (written w)), store i mem (line P (written w)))
            (send_world P command Buffer response_len port w)) ->
  forall n i0 delay_ms mem w,
    0 <= delay_ms ->
    valid mem ->
    connected w dev port ->
    rejected_run P accept w i0 (S n) ->
    exists out w' l,
      for_attempts (S n) i0 delay_ms body mem w = Done (-1, out) w'
      /\ log w' = (l ++ [Delay delay_ms])%list
      /\ now w + Z.of_nat (S n) * delay_ms <= now w'.
Proof.
  intros Hsv Hbody. induction n as [|n IH]; intros i0 delay_ms mem w Hd Hv Hc Hrej.
  - rewrite (for_attempts_step P dev port body command Buffer response_len accept store
               valid Hbody w O i0 delay_ms mem Hv Hc). cbv zeta.
    pose proof (Hrej O ltac:(lia)) as H0. rewrite !Nat.add_0_r in H0. rewrite H0.
    pose proof (send_ms_bounds P command Buffer response_len (line P (written w))) as Hb.
    eexists _, _, _. split; [reflexivity|]. split; [reflexivity|]. simpl. lia.
  - rewrite (for_attempts_step P dev port body command Buffer response_len accept store
               valid Hbody w (S n) i0 delay_ms mem Hv Hc). cbv zeta.
    pose proof (Hrej O ltac:(lia)) as H0. rewrite !Nat.add_0_r in H0. rewrite H0.
    pose proof (send_ms_bounds P command Buffer response_len (line P (written w))) as Hb.
    destruct (IH (S i0) delay_ms (store i0 mem (line P (written w)))
                (record (Delay delay_ms)
                   (tick delay_ms (send_world P command Buffer response_len port w))))
      as (out & w' & l & Hrun & Hlog & Hnow).
    + exact Hd.
    + apply Hsv, Hv.
    + apply delay_connected, send_world_connected, Hc.
    + intros j Hj. simpl written.
      replace (S i0 + j)%nat with (i0 + S j)%nat by lia.
      replace (S (written w) + j)%nat with (written w + S j)%nat by lia.
      apply Hrej. lia.
    + exists out, w', l. split; [exact Hrun|]. split; [exact Hlog|].
      simpl now in Hnow. rewrite (Nat2Z.inj_succ (S n)), Z.mul_succ_l. lia.
Qed.

(** X8. A getter whose every attempt is rejected has slept its retry
    delay after each attempt, the last one included: when it returns -1
    the last thing it did was sleep, and three (five) delays have
    passed. *)
Theorem getters_sleep_after_last_failure (w : world) (dev : ptr) (port : loc) :
  connected w dev port ->
  (forall buffer len,
      sleeps_through P (budc_get_identity P dev (Some buffer) len) 3 100
                     (identity_accepts len) w)
  /\ (forall v, sleeps_through P (budc_get_frequency_ghz P dev v) 3 100
                               (accepts (parse_frequency P) "FREQ?" 64) w)
  /\ (forall v, sleeps_through P (budc_get_lock_status P dev v) 3 100
                               (accepts (parse_lock P) "LOCK?" 16) w)
  /\ (forall v, sleeps_through P (budc_get_power_level P dev v) 3 100
                               (accepts (parse_power P) "PWR?" 16) w)
  /\ (forall v, sleeps_through P (budc_get_temperature_c P dev v) 5 250
                               (accepts (parse_temperature P) "TEMP?" 64) w).
Proof.
  intros Hc. split; [|split; [|split; [|split]]]; intros; intros Hrej.
  - apply (for_attempts_sleeps dev port (identity_attempt P dev len) "*IDN?" len
             (identity_accepts len) (identity_store len) is_Some
             (fun i mem x => identity_store_valid len i mem x)
             (fun w0 i mem Hv Hc0 => identity_attempt_run P w0 dev port len i mem Hv Hc0)
             2%nat O 100 (Some buffer) w); [lia | eexists; reflexivity | exact Hc|].
    intros j Hj. apply Hrej. exact Hj.
  - apply (for_attempts_sleeps dev port (frequency_attempt P dev) "FREQ?" 64
             (accepts (parse_frequency P) "FREQ?" 64)
             (fun i mem x => snd (attempt_result (parse_frequency P) "FREQ?" 64 i mem x))
             (fun _ => True) ltac:(auto) (frequency_body_run P dev port)
             2%nat O 100 v w); [lia | exact I | exact Hc|].
    intros j Hj. apply Hrej. exact Hj.
  - apply (for_attempts_sleeps dev port (lock_attempt P dev) "LOCK?" 16
             (accepts (parse_lock P) "LOCK?" 16)
             (fun i mem x => snd (attempt_result (parse_lock P) "LOCK?" 16 i mem x))
             (fun _ => True) ltac:(auto) (lock_body_run P dev port)
             2%nat O 100 v w); [lia | exact I | exact Hc|].
    intros j Hj. apply Hrej. exact Hj.
  - apply (for_attempts_sleeps dev port (power_attempt P dev) "PWR?" 16
             (accepts (parse_power P) "PWR?" 16)
             (fun i mem x => snd (attempt_result (parse_power P) "PWR?" 16 i mem x))
             (fun _ => True) ltac:(auto) (power_body_run P dev port)
             2%nat O 100 v w); [lia | exact I | exact Hc|].
    intros j Hj. apply Hrej. exact Hj.
  - apply (for_attempts_sleeps dev port (temperature_attempt P dev) "TEMP?" 64
             (accepts (parse_temperature P) "TEMP?" 64)
             (fun i mem x => snd (attempt_result (parse_temperature P) "TEMP?" 64 i mem x))
             (fun _ => True) ltac:(auto) (temperature_body_run P dev port)
             4%nat O 250 v w); [lia | exact I | exact Hc|].
    intros j Hj. apply Hrej. exact Hj.
Qed.

(** X9. The frequency and power getters validate nothing: the first reply
    that gets through the transport is the answer.  The frequency is
    [atof] of the reply divided by 1e9, the power level is [atoi] of the
    reply, whatever the reply is. *)
Theorem numeric_getters_take_first_reply (w : world) (dev : ptr) (port : loc)
    (n : nat) (r : string) :
  connected w dev port ->
  (1 <= n <= 3)%nat ->
  (forall (freq_ghz : spec_float),
      (forall j, (j < n - 1)%nat ->
         transport_reply "FREQ?" 64 (line P (written w + j)) = None) ->
      transport_reply "FREQ?" 64 (line P (written w + (n - 1))) = Some r ->
      exists w',
        budc_get_frequency_ghz P dev freq_ghz w
        = Done (0, SFdiv 53 1024 (atof P r) (double_of_Z 1000000000)) w')
  /\ (forall (power_level : Z),
      (forall j, (j < n - 1)%nat ->
         transport_reply "PWR?" 16 (line P (written w + j)) = None) ->
      transport_reply "PWR?" 16 (line P (written w + (n - 1))) = Some r ->
      exists w', budc_get_power_level P dev power_level w = Done (0, atoi P r) w').
Proof.
  intros Hc Hn. split.
  - intros v Hfail Hr.
    destruct (for_attempts_succeeds P dev port (frequency_attempt P dev) "FREQ?" Buffer 64
                (accepts (parse_frequency P) "FREQ?" 64)
                (fun i mem x => snd (attempt_result (parse_frequency P) "FREQ?" 64 i mem x))
                (fun _ => True) ltac:(auto) (frequency_body_run P dev port)
                (n - 1)%nat 3%nat O 100 v w I Hc)
      as (out & w' & Hrun & _ & _ & mem0 & Hv).
    + lia.
    + intros j Hj. apply accepts_transport_failure. apply Hfail. exact Hj.
    + unfold accepts. simpl Nat.add. rewrite Hr. reflexivity.
    + exists w'. unfold budc_get_frequency_ghz, MAX_RETRIES. rewrite Hrun. f_equal. f_equal.
      rewrite Hv. unfold attempt_result. simpl Nat.add. rewrite Hr. reflexivity.
  - intros v Hfail Hr.
    destruct (for_attempts_succeeds P dev port (power_attempt P dev) "PWR?" Buffer 16
                (accepts (parse_power P) "PWR?" 16)
                (fun i mem x => snd (attempt_result (parse_power P) "PWR?" 16 i mem x))
                (fun _ => True) ltac:(auto) (power_body_run P dev port)
                (n - 1)%nat 3%nat O 100 v w I Hc)
      as (out & w' & Hrun & _ & _ & mem0 & Hv).
    + lia.
    + intros j Hj. apply accepts_transport_failure. apply Hfail. exact Hj.
    + unfold accepts. simpl Nat.add. rewrite Hr. reflexivity.
    + exists w'. unfold budc_get_power_level, MAX_RETRIES. rewrite Hrun. f_equal. f_equal.
      rewrite Hv. unfold attempt_result. simpl Nat.add. rewrite Hr. reflexivity.
Qed.

End GetterValues.

Section IdentityBuffer.

Variable P : platform.

Lemma identity_rejected_text len i x :
  identity_accepts len i x = false ->
  reaches_read "*IDN?" Buffer len x = true ->
  exists s, snd (send_result "*IDN?" Buffer len x) = Some s /\ strlen s <= 5.
Proof.
  unfold identity_accepts, transport_reply, send_result. intros Hrej Hreach.
  rewrite Hreach in *.
  assert (Hw : (write_result x (strlen (full_command "*IDN?"))
                <? strlen (full_command "*IDN?")) = false).
  { unfold reaches_read in Hreach. apply andb_prop in Hreach as [Hreach _].
    apply andb_prop in Hreach as [Hreach _]. apply negb_true_iff in Hreach. exact Hreach. }
  rewrite Hw in *. cbn [strchr Ascii.eqb Bool.eqb orb negb] in *.
  destruct (0 <? fst _).
  - destruct (strlen (trim_whitespace _) =? 0) eqn:He.
    + eexists. split; [reflexivity|]. apply Z.eqb_eq in He. lia.
    + eexists. split; [reflexivity|]. cbn in Hrej. apply Z.ltb_ge in Hrej. exact Hrej.
  - exists EmptyString. split; [reflexivity|]. unfold strlen. simpl. lia.
Qed.

(** X10. [budc_get_identity] with a caller's buffer, over a connected
    handle.  It succeeds on the first reply longer than five characters
    and the buffer then holds that reply.  When it fails the buffer is not
    what it was: if the last attempt got as far as its read, the buffer
    holds what that attempt left there, a reply of at most five characters
    or the empty string. *)
Theorem identity_buffer_after_call (w : world) (dev : ptr) (port : loc)
    (buffer : string) (len : Z) :
  connected w dev port ->
  (forall n r,
      (1 <= n <= 3)%nat ->
      (forall j, (j < n - 1)%nat ->
         identity_accepts len j (line P (written w + j)) = false) ->
      transport_reply "*IDN?" len (line P (written w + (n - 1))) = Some r ->
      5 < strlen r ->
      exists w', budc_get_identity P dev (Some buffer) len w = Done (0, Some r) w')
  /\ ((forall j, (j < 3)%nat -> identity_accepts len j (line P (written w + j)) = false) ->
      reaches_read "*IDN?" Buffer len (line P (written w + 2)) = true ->
      exists s w',
        budc_get_identity P dev (Some buffer) len w = Done (-1, Some s) w'
        /\ snd (send_result "*IDN?" Buffer len (line P (written w + 2))) = Some s
        /\ strlen s <= 5).
Proof.
  intros Hc.
  assert (Hbody : forall w0 i mem, is_Some mem -> connected w0 dev port ->
            identity_attempt P dev len i mem w0
            = Done (identity_accepts len i (line P (written w0)),
                    identity_store len i mem (line P (written w0)))
                   (send_world P "*IDN?" Buffer len port w0))
    by (intros; apply identity_attempt_run; assumption).
  split.
  - intros n r Hn Hrej Hr Hlong.
    assert (Hacc : identity_accepts len (n - 1) (line P (written w + (n - 1))) = true).
    { unfold identity_accepts. rewrite Hr. apply Z.ltb_lt. exact Hlong. }
    destruct (for_attempts_succeeds P dev port (identity_attempt P dev len) "*IDN?" Buffer len
                (identity_accepts len) (identity_store len) is_Some
                (fun i mem x => identity_store_valid len i mem x) Hbody
                (n - 1)%nat 3%nat O 100 (Some buffer) w)
      as (out & w' & Hrun & _ & _ & mem0 & Hv);
      [eexists; reflexivity | exact Hc | lia | exact Hrej | exact Hacc |].
    exists w'. unfold budc_get_identity, MAX_RETRIES. rewrite Hrun. f_equal. f_equal.
    rewrite Hv. simpl Nat.add. unfold identity_store.
    unfold transport_reply in Hr.
    destruct (send_result "*IDN?" Buffer len _) as [rc [s|]]; [|destruct rc; discriminate].
    destruct rc; try discriminate. cbn [snd]. congruence.
  - intros Hrej Hreach.
    pose proof (Hrej 0%nat ltac:(lia)) as H0.
    pose proof (Hrej 1%nat ltac:(lia)) as H1.
    pose proof (Hrej 2%nat ltac:(lia)) as H2.
    rewrite Nat.add_0_r in H0.
    destruct (identity_rejected_text len 2 _ H2 Hreach) as (s & Hs & Hlen).
    exists s.
    unfold budc_get_identity, MAX_RETRIES.
    rewrite (for_attempts_step P dev port _ "*IDN?" Buffer len (identity_accepts len)
               (identity_store len) is_Some Hbody w 2 0 100 (Some buffer)
               ltac:(eexists; reflexivity) Hc).
    cbv zeta. rewrite H0.
    set (w1 := record (Delay 100) (tick 100 (send_world P "*IDN?" Buffer len port w))).
    assert (Hc1 : connected w1 dev port)
      by (apply delay_connected, send_world_connected, Hc).
    assert (Hw1 : written w1 = (written w + 1)%nat) by (simpl; lia).
    rewrite (for_attempts_step P dev port _ "*IDN?" Buffer len (identity_accepts len)
               (identity_store len) is_Some Hbody w1 1 1 100 _
               (identity_store_valid len 0 _ _ ltac:(eexists; reflexivity)) Hc1).
    cbv zeta. rewrite Hw1, H1.
    set (m1 := identity_store len 0 (Some buffer) (line P (written w))).
    set (w2 := record (Delay 100) (tick 100 (send_world P "*IDN?" Buffer len port w1))).
    assert (Hc2 : connected w2 dev port)
      by (apply delay_connected, send_world_connected, Hc1).
    assert (Hw2 : written w2 = (written w + 2)%nat) by (simpl; lia).
    assert (Hm1 : is_Some m1) by (apply identity_store_valid; eexists; reflexivity).
    rewrite (for_attempts_step P dev port _ "*IDN?" Buffer len (identity_accepts len)
               (identity_store len) is_Some Hbody w2 0 2 100 _
               (identity_store_valid len 1 _ _ Hm1) Hc2).
    cbv zeta. rewrite Hw2, H2.
    eexists. split; [|split; [exact Hs | exact Hlen]].
    simpl for_attempts. unfold ret. f_equal. f_equal.
    unfold identity_store at 1. rewrite Hs. reflexivity.
Qed.

End IdentityBuffer.

(** ** What the lock status reads as locked *)

Lemma isdigit_value (c : ascii) : isdigit c = true -> 0 <= digit_value c <= 9.
Proof.
  unfold isdigit, digit_value. cbv zeta. intros H.
  apply andb_prop in H as [H1 H2]. apply N.leb_le in H1, H2. lia.
Qed.

Lemma digit_cases (c : ascii) :
  isdigit c = false \/ c = "0"%char \/ c = "1"%char
  \/ (isdigit c = true /\ 2 <= digit_value c).
Proof.
  destruct c as [[] [] [] [] [] [] [] []];
    first [ left; reflexivity
          | right; left; reflexivity
          | right; right; left; reflexivity
          | right; right; right; split; [reflexivity | vm_compute; discriminate] ].
Qed.

Lemma digits_value_grows (s : string) : forall acc, 0 <= acc -> acc <= digits_value acc s.
Proof.
  induction s as [|c r IH]; intros acc Hacc; simpl; [lia|].
  destruct (isdigit c) eqn:Hd; [|lia].
  pose proof (isdigit_value c Hd) as Hv.
  specialize (IH (10 * acc + digit_value c) ltac:(lia)). lia.
Qed.

Lemma digits_value_bound (s : string) : forall acc,
  0 <= acc -> digits_value acc s < (acc + 1) * 10 ^ Z.of_nat (String.length s).
Proof.
  induction s as [|c r IH]; intros acc Hacc.
  - simpl. lia.
  - cbn [digits_value String.length]. rewrite Nat2Z.inj_succ, Z.pow_succ_r by lia.
    assert (Hp : 0 < 10 ^ Z.of_nat (String.length r)) by (apply Z.pow_pos_nonneg; lia).
    destruct (isdigit c) eqn:Hd; [|nia].
    pose proof (isdigit_value c Hd) as Hv.
    specialize (IH (10 * acc + digit_value c) ltac:(lia)). nia.
Qed.

(** After a 1, [atoi] stays at 1 exactly when no digit follows. *)
Lemma digits_value_after_one (s : string) :
  digits_value 1 s = 1 <-> first_is_digit s = false.
Proof.
  destruct s as [|c r]; simpl; [tauto|].
  destruct (isdigit c) eqn:Hd; [|tauto].
  pose proof (isdigit_value c Hd) as Hv.
  pose proof (digits_value_grows r (10 * 1 + digit_value c) ltac:(lia)) as Hg.
  split; [lia | discriminate].
Qed.

Lemma zeros_one_not_empty (zeros rest : string) : zeros +:+ "1" +:+ rest <> EmptyString.
Proof. destruct zeros; discriminate. Qed.

Lemma zeros_one_head (zeros rest : string) (c : ascii) (r : string) :
  every (Ascii.eqb "0") zeros = true ->
  zeros +:+ "1" +:+ rest = String c r ->
  (c = "1"%char /\ zeros = EmptyString /\ r = rest)
  \/ (c = "0"%char /\ exists zeros',
        zeros = String "0" zeros' /\ every (Ascii.eqb "0") zeros' = true
        /\ r = zeros' +:+ "1" +:+ rest).
Proof.
  intros Hz E. destruct zeros as [|z zeros'].
  - left. cbn in E. injection E as <- <-. auto.
  - right. cbn [every] in Hz. apply andb_prop in Hz as [Hz0 Hz'].
    apply Ascii.eqb_eq in Hz0. subst z.
    rewrite append_cons in E. injection E as <- <-.
    split; [reflexivity|]. exists zeros'. auto.
Qed.

(** The digits that [atoi] reads as 1: zeros, a 1, and no digit after it. *)
Lemma digits_value_one (s : string) :
  digits_value 0 s = 1
  <-> exists zeros rest,
        s = zeros +:+ "1" +:+ rest
        /\ every (Ascii.eqb "0") zeros = true
        /\ first_is_digit rest = false.
Proof.
  induction s as [|c r IH].
  - split; [discriminate|]. intros (zeros & rest & E & _).
    symmetry in E. destruct (zeros_one_not_empty _ _ E).
  - split.
    + intros H. cbn [digits_value] in H.
      destruct (digit_cases c) as [Hc | [-> | [-> | [Hc Hv]]]].
      * rewrite Hc in H. discriminate.
      * change (digits_value 0 r = 1) in H. apply IH in H as (zeros & rest & -> & Hz & Hrest).
        exists (String "0" zeros), rest. auto.
      * change (digits_value 1 r = 1) in H. apply digits_value_after_one in H.
        exists EmptyString, r. auto.
      * rewrite Hc in H.
        pose proof (digits_value_grows r (10 * 0 + digit_value c) ltac:(lia)). lia.
    + intros (zeros & rest & E & Hz & Hrest). symmetry in E.
      destruct (zeros_one_head zeros rest c r Hz E)
        as [(-> & _ & ->) | (-> & zeros' & _ & Hz' & ->)].
      * change (digits_value 1 rest = 1). apply digits_value_after_one, Hrest.
      * change (digits_value 0 (zeros' +:+ "1" +:+ rest) = 1). apply IH.
        exists zeros', rest. auto.
Qed.

(** [atoi] on what is left after the white space. *)
Lemma decimal_prefix_cases (s : string) :
  decimal_prefix s
  = match skip_space s with
    | EmptyString => 0
    | String c r =>
        if Ascii.eqb c "-" then - digits_value 0 r
        else if Ascii.eqb c "+" then digits_value 0 r
        else digits_value 0 (String c r)
    end.
Proof.
  unfold decimal_prefix. destruct (skip_space s) as [|c r]; [reflexivity|].
  destruct c as [[] [] [] [] [] [] [] []]; reflexivity.
Qed.

Lemma skip_space_length (s : string) :
  (String.length (skip_space s) <= String.length s)%nat.
Proof.
  induction s as [|c r IH]; simpl; [lia|]. destruct (isspace c); simpl; lia.
Qed.

(** A reply of at most nine characters denotes an [int]. *)
Lemma decimal_prefix_short (s : string) :
  (String.length s <= 9)%nat -> INT_MIN <= decimal_prefix s <= INT_MAX.
Proof.
  intros Hlen. rewrite decimal_prefix_cases.
  pose proof (skip_space_length s) as Hs.
  assert (Hb : forall t, (String.length t <= 9)%nat -> 0 <= digits_value 0 t < 10 ^ 9).
  { intros t Ht. split; [apply digits_value_grows; lia|].
    pose proof (digits_value_bound t 0 ltac:(lia)) as Hv.
    assert (10 ^ Z.of_nat (String.length t) <= 10 ^ 9)
      by (apply Z.pow_le_mono_r; lia).
    lia. }
  assert (E9 : 10 ^ 9 = 1000000000) by reflexivity.
  unfold INT_MIN, INT_MAX.
  destruct (skip_space s) as [|c r]; [lia|].
  cbn [String.length] in Hs.
  pose proof (Hb r ltac:(lia)). pose proof (Hb (String c r) ltac:(cbn; lia)).
  destruct (Ascii.eqb c "-"); [lia|]. destruct (Ascii.eqb c "+"); lia.
Qed.

(** [atoi] gives 1 exactly on the replies that read as one. *)
Lemma decimal_prefix_one (r : string) : decimal_prefix r = 1 <-> reads_one r.
Proof.
  rewrite decimal_prefix_cases. split.
  - intros H. destruct (skip_space_split r) as (pre & Hr & Hpre).
    destruct (skip_space r) as [|c t]; [discriminate|].
    destruct (Ascii.eqb c "-") eqn:Hminus.
    { pose proof (digits_value_grows t 0 ltac:(lia)). lia. }
    destruct (Ascii.eqb c "+") eqn:Hplus.
    + apply Ascii.eqb_eq in Hplus. subst c.
      apply digits_value_one in H as (zeros & rest & -> & Hz & Hrest).
      exists pre, "+", zeros, rest. auto.
    + apply digits_value_one in H as (zeros & rest & E & Hz & Hrest).
      exists pre, EmptyString, zeros, rest. rewrite append_empty, <- E. auto.
  - intros (pre & sign & zeros & rest & -> & Hpre & Hsign & Hz & Hrest).
    rewrite (skip_space_padded pre _ Hpre).
    assert (Hone : digits_value 0 (zeros +:+ "1" +:+ rest) = 1)
      by (apply digits_value_one; exists zeros, rest; auto).
    destruct Hsign as [-> | ->].
    + rewrite append_empty.
      destruct (zeros +:+ "1" +:+ rest) as [|c t] eqn:E;
        [destruct (zeros_one_not_empty _ _ E)|].
      destruct (zeros_one_head zeros rest c t Hz E) as [(-> & _) | (-> & _)];
        exact Hone.
    + exact Hone.
Qed.

Section LockReply.

Variable P : platform.

(** C5, as the code has it.  Over a connected handle, when the first
    attempt that gets through the transport (the [n]-th, [n] at most 3)
    has the trimmed reply [r], [budc_get_lock_status] returns 0 and
    stores whether [atoi r] is 1.  That is locked on every reply that
    reads as one: white space, an optional plus sign, zeros, the digit 1,
    and then nothing or anything but a digit; so on 1, and on 01, +1,
    1 lock or 1.9 as well.  It is unlocked on every other reply that
    denotes an [int], as every reply of at most nine characters does, a
    reply without digits included.  No reply makes the getter fail. *)
Theorem lock_status_reply (w : world) (dev : ptr) (port : loc)
    (is_locked : bool) (n : nat) (r : string) :
  connected w dev port ->
  (1 <= n <= 3)%nat ->
  (forall j, (j < n - 1)%nat ->
     transport_reply "LOCK?" 16 (line P (written w + j)) = None) ->
  transport_reply "LOCK?" 16 (line P (written w + (n - 1))) = Some r ->
  (exists w', budc_get_lock_status P dev is_locked w = Done (0, atoi P r =? 1) w')
  /\ (reads_one r -> (atoi P r =? 1) = true)
  /\ (~ reads_one r -> INT_MIN <= decimal_prefix r <= INT_MAX ->
      (atoi P r =? 1) = false)
  /\ (~ reads_one r -> (String.length r <= 9)%nat -> (atoi P r =? 1) = false)
  /\ (r = "1" -> (atoi P r =? 1) = true)
  /\ (decimal_prefix r <> 1 -> INT_MIN <= decimal_prefix r <= INT_MAX ->
      (atoi P r =? 1) = false).
Proof.
  intros Hc Hn Hfail Hr.
  assert (Hother : decimal_prefix r <> 1 -> INT_MIN <= decimal_prefix r <= INT_MAX ->
                   (atoi P r =? 1) = false).
  { intros Hne Hrange. rewrite atoi_in_range by exact Hrange.
    apply Z.eqb_neq. exact Hne. }
  split; [exact (lock_status_first_success P w dev port is_locked n r Hc Hn Hfail Hr)|].
  split; [|split; [|split; [|split]]].
  - intros Hone. apply decimal_prefix_one in Hone.
    rewrite atoi_in_range by (rewrite Hone; unfold INT_MIN, INT_MAX; lia).
    rewrite Hone. reflexivity.
  - intros Hnot. apply Hother. intros H. apply Hnot, decimal_prefix_one, H.
  - intros Hnot Hlen. apply Hother; [|apply decimal_prefix_short, Hlen].
    intros H. apply Hnot, decimal_prefix_one, H.
  - intros ->. reflexivity.
  - exact Hother.
Qed.

End LockReply.

Lemma lock_status_reply_witness :
  connected (connected_world locked_device) (handle locked_device) 1
  /\ (1 <= 1 <= 3)%nat
  /\ (forall j, (j < 1 - 1)%nat ->
        transport_reply "LOCK?" 16
          (line locked_device (written (connected_world locked_device) + j)) = None)
  /\ transport_reply "LOCK?" 16
       (line locked_device (written (connected_world locked_device) + (1 - 1))) = Some "1"
  /\ exists w',
       budc_get_lock_status locked_device (handle locked_device) false
         (connected_world locked_device)
       = Done (0, true) w'.
Proof.
  assert (Hfail : forall j, (j < 1 - 1)%nat ->
            transport_reply "LOCK?" 16
              (line locked_device (written (connected_world locked_device) + j)) = None)
    by (intros j Hj; lia).
  split; [apply scripted_connected|]. split; [lia|]. split; [exact Hfail|].
  split; [reflexivity|].
  exact (proj1 (lock_status_reply locked_device (connected_world locked_device)
                  (handle locked_device) 1%positive false 1%nat "1"
                  (scripted_connected _) ltac:(lia) Hfail eq_refl)).
Defined.

(** C5 as stated fails: the reply [1 lock] is not the reply 1, and the
    getter reports locked on it; so it does on 1UNLOCKED. *)
Lemma lock_status_locked_on_other_reply :
  let W := connected_world verbose_device in
  transport_reply "LOCK?" 16 (line verbose_device (written W)) = Some "1 lock"
  /\ ~ (forall v w',
          budc_get_lock_status verbose_device (handle verbose_device) false W
          = Done (0, v) w' ->
          (v = true <-> "1 lock" = "1")).
Proof.
  intros W. split; [reflexivity|]. intros H.
  assert (Hrun : exists w',
            budc_get_lock_status verbose_device (handle verbose_device) false W
            = Done (0, true) w') by (eexists; vm_compute; reflexivity).
  destruct Hrun as (w' & Hrun).
  destruct (H true w' Hrun) as [H1 _]. discriminate (H1 eq_refl).
Qed.

Example lock_reply_with_text_glued_to_digit :
  exists w',
    budc_get_lock_status glued_device (handle glued_device) false
      (connected_world glued_device)
    = Done (0, true) w'.
Proof. eexists. vm_compute. reflexivity. Qed.

(** ** The lock wait against any device *)

Section LockWaitBounds.

Variable P : platform.

(** The test fails while the clock is a whole millisecond short of the
    timeout. *)
Lemma deadline_not_passed (start current timeout_ms : Z) :
  Z.pos (clocks_per_ms P) <= 1000000 ->
  0 <= timeout_ms < 2 ^ 32 ->
  0 <= current - start <= (timeout_ms - 1) * Z.pos (clocks_per_ms P) ->
  deadline_passed P start current timeout_ms = false.
Proof.
  intros Hcpm HT Hticks. unfold deadline_passed, CLOCKS_PER_SEC.
  assert (P32 : 2 ^ 32 = 4294967296) by reflexivity.
  assert (P53 : 2 ^ 53 = 9007199254740992) by reflexivity.
  pose proof (Pos2Z.is_pos (clocks_per_ms P)) as Hpos.
  apply deadline_test_early; [nia | lia | lia | nia].
Qed.

(** The test succeeds once the clock is a whole millisecond past the
    timeout. *)
Lemma deadline_surely_passed (start current timeout_ms : Z) :
  Z.pos (clocks_per_ms P) <= 1000000 ->
  0 <= timeout_ms < 2 ^ 32 ->
  (timeout_ms + 1) * Z.pos (clocks_per_ms P) <= current - start
  < 2 ^ 33 * Z.pos (clocks_per_ms P) ->
  deadline_passed P start current timeout_ms = true.
Proof.
  intros Hcpm HT Hticks. unfold deadline_passed, CLOCKS_PER_SEC.
  assert (P32 : 2 ^ 32 = 4294967296) by reflexivity.
  assert (P33 : 2 ^ 33 = 8589934592) by reflexivity.
  assert (P53 : 2 ^ 53 = 9007199254740992) by reflexivity.
  pose proof (Pos2Z.is_pos (clocks_per_ms P)) as Hpos.
  apply deadline_test_late; [nia | lia | nia | lia | nia].
Qed.

(** With a clock that reports elapsed time, in milliseconds. *)
Lemma deadline_passed_ms (start_ms now_ms timeout_ms : Z) :
  Z.pos (clocks_per_ms P) <= 1000000 ->
  0 <= timeout_ms < 2 ^ 32 ->
  0 <= now_ms - start_ms < 2 ^ 33 ->
  if deadline_passed P (start_ms * Z.pos (clocks_per_ms P))
                       (now_ms * Z.pos (clocks_per_ms P)) timeout_ms
  then timeout_ms <= now_ms - start_ms
  else now_ms - start_ms <= timeout_ms.
Proof.
  intros Hcpm HT He.
  pose proof (Pos2Z.is_pos (clocks_per_ms P)) as Hpos.
  destruct (deadline_passed P _ _ timeout_ms) eqn:Hd.
  - destruct (Z_lt_le_dec (now_ms - start_ms) timeout_ms) as [Hlt | Hge]; [|exact Hge].
    rewrite deadline_not_passed in Hd; [discriminate | exact Hcpm | exact HT | nia].
  - destruct (Z_lt_le_dec timeout_ms (now_ms - start_ms)) as [Hlt | Hge]; [|exact Hge].
    rewrite deadline_surely_passed in Hd; [discriminate | exact Hcpm | exact HT | nia].
Qed.

Lemma getter_budget_bounds : 0 <= GETTER_BUDGET_MS P <= 5400.
Proof. unfold GETTER_BUDGET_MS, SEND_BUDGET_MS, READ_TIMEOUT_MS. destruct (win32 P); lia. Qed.

Lemma lock_status_unlocked (w : world) (dev : ptr) (port : loc) (rc : Z) (l : bool)
    (w' : world) :
  never_locks P ->
  connected w dev port ->
  budc_get_lock_status P dev false w = Done (rc, l) w' ->
  l = false.
Proof.
  intros Hnever Hc Hrun.
  destruct (lock_status_never P w dev port Hnever Hc) as (rc0 & w0 & Hrun0 & _).
  congruence.
Qed.

Lemma wait_loop_bounded (dev : ptr) (port : loc) (timeout_ms start_ms : Z) :
  follows_elapsed_time P ->
  Z.pos (clocks_per_ms P) <= 1000000 ->
  0 <= timeout_ms < 2 ^ 32 ->
  forall fuel locked w,
    connected w dev port ->
    0 <= now w - start_ms <= timeout_ms + 200 ->
    timeout_ms + 200 - (now w - start_ms) < 200 * Z.of_nat fuel ->
    exists rc w',
      wait_loop P fuel dev timeout_ms (start_ms * Z.pos (clocks_per_ms P)) locked w
      = Done rc w'
      /\ (rc = 0 \/ (rc = -1 /\ timeout_ms <= now w' - start_ms))
      /\ (never_locks P -> locked = false -> rc = -1)
      /\ connected w' dev port
      /\ ports w' = ports w /\ devs w' = devs w
      /\ now w <= now w' <= start_ms + timeout_ms + 200 + GETTER_BUDGET_MS P.
Proof.
  intros Hel Hcpm HT.
  pose proof getter_budget_bounds as HG.
  assert (P32 : 2 ^ 32 = 4294967296) by reflexivity.
  assert (P33 : 2 ^ 33 = 8589934592) by reflexivity.
  induction fuel as [|fuel IH]; intros locked w Hc Hnow Hfuel.
  - simpl in Hfuel. lia.
  - cbn [wait_loop]. destruct locked.
    { exists 0, w. unfold ret. split; [reflexivity|]. split; [auto|].
      split; [discriminate|]. repeat split; auto; lia. }
    destruct (lock_bounded P w dev port false Hc)
      as (rc1 & l1 & w1 & Hrun & _ & Hc1 & Hp1 & Hd1 & _ & Hn1).
    fold (GETTER_BUDGET_MS P) in Hn1.
    rewrite (bind_run _ _ _ _ _ Hrun). cbv beta. cbn [fst snd].
    destruct ((rc1 =? 0) && l1) eqn:Hlocked.
    { exists 0, w1. unfold ret. split; [reflexivity|]. split; [auto|].
      split; [|repeat split; auto; lia].
      intros Hnever _. rewrite (lock_status_unlocked w dev port rc1 l1 w1 Hnever Hc Hrun)
        in Hlocked. rewrite andb_false_r in Hlocked. discriminate. }
    unfold clock at 1. unfold bind at 1. rewrite Hel.
    pose proof (deadline_passed_ms start_ms (now w1) timeout_ms Hcpm HT ltac:(lia)) as Hd.
    destruct (deadline_passed P _ _ timeout_ms).
    + exists (-1), w1. unfold ret. split; [reflexivity|]. split; [auto|].
      split; [auto|]. repeat split; auto; lia.
    + unfold scpi_delay at 1. unfold bind at 1.
      destruct (IH l1 (record (Delay 200) (tick 200 w1)))
        as (rc & w' & Hrun' & Hrc & Hnv & Hc' & Hp' & Hd' & Hn').
      * apply delay_connected. exact Hc1.
      * simpl. lia.
      * simpl. lia.
      * exists rc, w'. split; [exact Hrun'|]. split; [exact Hrc|].
        split.
        { intros Hnever _. apply (Hnv Hnever).
          apply (lock_status_unlocked w dev port rc1 l1 w1 Hnever Hc Hrun). }
        split; [exact Hc'|].
        simpl in Hp', Hd', Hn'. split; [congruence|]. split; [congruence|]. lia.
Qed.

(** Whatever the clock reports: the loop ends with 0 or -1, with -1 only
    at a poll whose deadline test succeeded, and time has not gone back. *)
Lemma wait_loop_ends (dev : ptr) (port : loc) (timeout_ms start : Z) :
  forall fuel locked w rc w',
    connected w dev port ->
    wait_loop P fuel dev timeout_ms start locked w = Done rc w' ->
    (rc = 0
     \/ (rc = -1
         /\ deadline_passed P start (clock_value P (now w') (length (log w'))) timeout_ms
            = true))
    /\ connected w' dev port
    /\ ports w' = ports w /\ devs w' = devs w
    /\ now w <= now w'.
Proof.
  induction fuel as [|fuel IH]; intros locked w rc w' Hc Hrun.
  - simpl in Hrun. destruct locked; [|discriminate].
    unfold ret in Hrun. injection Hrun as <- <-. repeat split; auto; lia.
  - cbn [wait_loop] in Hrun. destruct locked.
    { unfold ret in Hrun. injection Hrun as <- <-. repeat split; auto; lia. }
    destruct (lock_bounded P w dev port false Hc)
      as (rc1 & l1 & w1 & Hget & _ & Hc1 & Hp1 & Hd1 & _ & Hn1).
    rewrite (bind_run _ _ _ _ _ Hget) in Hrun. cbv beta in Hrun. cbn [fst snd] in Hrun.
    destruct ((rc1 =? 0) && l1).
    { unfold ret in Hrun. injection Hrun as <- <-. repeat split; auto; lia. }
    unfold clock at 1 in Hrun. unfold bind at 1 in Hrun.
    destruct (deadline_passed P start _ timeout_ms) eqn:Hd.
    + unfold ret in Hrun. injection Hrun as <- <-.
      split; [right; split; [reflexivity | exact Hd]|]. repeat split; auto; lia.
    + unfold scpi_delay at 1 in Hrun. unfold bind at 1 in Hrun.
      apply IH in Hrun; [|apply delay_connected; exact Hc1].
      destruct Hrun as (Hrc & Hc' & Hp' & Hd' & Hn').
      simpl in Hp', Hd', Hn'. split; [exact Hrc|]. split; [exact Hc'|].
      split; [congruence|]. split; [congruence | lia].
Qed.



Lemma lock_status_first_reply (w : world) (dev : ptr) (port : loc) (v : bool) (r : string) :
  connected w dev port ->
  transport_reply "LOCK?" 16 (line P (written w)) = Some r ->
  budc_get_lock_status P dev v w
  = Done (0, atoi P r =? 1) (send_world P "LOCK?" Buffer 16 port w).
Proof.
  intros Hc Hr. unfold budc_get_lock_status, MAX_RETRIES.
  rewrite (for_attempts_step P dev port _ "LOCK?" Buffer 16 (lock_accepts P) (lock_stores P)
             (fun _ => True) (lock_body_run P dev port) w 2 0 100 v I Hc).
  cbv zeta. unfold lock_accepts, accepts, lock_stores, attempt_result. rewrite Hr.
  reflexivity.
Qed.

Lemma wait_loop_locks (dev : ptr) (port : loc) (timeout_ms : Z) (w0 : world) :
  processor_share P 1 ->
  Z.pos (clocks_per_ms P) <= 1000000 ->
  0 <= timeout_ms < 2 ^ 32 ->
  forall m fuel w,
    connected w dev port ->
    (m < fuel)%nat ->
    (forall j, (j < m)%nat ->
       exists r, transport_reply "LOCK?" 16 (line P (written w + j)) = Some r
                 /\ (atoi P r =? 1) = false) ->
    (exists r, transport_reply "LOCK?" 16 (line P (written w + m)) = Some r
               /\ (atoi P r =? 1) = true) ->
    now w0 <= now w ->
    now w - now w0 + Z.of_nat m * (SEND_BUDGET_MS P + 200) <= timeout_ms ->
    exists w',
      wait_loop P fuel dev timeout_ms (clock_value P (now w0) (length (log w0))) false w
      = Done 0 w'
      /\ count_writes (log w') = (count_writes (log w) + S m)%nat.
Proof.
  intros Hshare Hcpm HT.
  induction m as [|m IH]; intros fuel w Hc Hfuel Hnot Hlock Hstart Htime.
  - destruct fuel as [|fuel]; [lia|].
    destruct Hlock as (r & Hr & Hone). rewrite Nat.add_0_r in Hr.
    cbn [wait_loop].
    rewrite (bind_run _ _ _ _ _ (lock_status_first_reply w dev port false r Hc Hr)).
    cbv beta. cbn [fst snd]. rewrite Hone. cbn [Z.eqb andb].
    eexists. split; [reflexivity|].
    simpl. rewrite count_writes_app, count_writes_send. lia.
  - destruct fuel as [|fuel]; [lia|].
    destruct (Hnot O ltac:(lia)) as (r & Hr & Hzero). rewrite Nat.add_0_r in Hr.
    cbn [wait_loop].
    rewrite (bind_run _ _ _ _ _ (lock_status_first_reply w dev port false r Hc Hr)).
    cbv beta. cbn [fst snd]. rewrite Hzero. cbn [Z.eqb andb].
    unfold clock at 1. unfold bind at 1.
    pose proof (send_ms_bounds P "LOCK?" Buffer 16 (line P (written w))) as Hb.
    assert (Hpos : 0 <= Z.of_nat m * (SEND_BUDGET_MS P + 200))
      by (apply Z.mul_nonneg_nonneg; lia).
    rewrite Nat2Z.inj_succ, Z.mul_succ_l in Htime.
    set (w1 := send_world P "LOCK?" Buffer 16 port w).
    assert (Hn1 : now w1 = now w + send_ms P "LOCK?" Buffer 16 (line P (written w)))
      by reflexivity.
    destruct (Hshare (now w0) (length (log w0)) (now w1) (length (log w1)) ltac:(lia))
      as [Hlo Hhi].
    pose proof (Pos2Z.is_pos (clocks_per_ms P)) as Hcp.
    rewrite deadline_not_passed; [|exact Hcpm | exact HT | nia].
    unfold scpi_delay at 1. unfold bind at 1.
    destruct (IH fuel (record (Delay 200) (tick 200 w1)))
      as (w' & Hrun & Hcnt).
    + apply delay_connected, send_world_connected, Hc.
    + lia.
    + intros j Hj. simpl written.
      replace (S (written w) + j)%nat with (written w + S j)%nat by lia.
      apply Hnot. lia.
    + simpl written.
      replace (S (written w) + m)%nat with (written w + S m)%nat by lia.
      exact Hlock.
    + simpl now. lia.
    + simpl now. lia.
    + exists w'. split; [exact Hrun|].
      simpl in Hcnt. rewrite count_writes_app in Hcnt.
      rewrite count_writes_app, count_writes_send in Hcnt. simpl in Hcnt. lia.
Qed.

(** X12. When the device answers every lock query, [m] times with a value
    other than 1 and then with 1, and [m] polls fit in the timeout,
    [budc_wait_for_lock] returns 0 after exactly [m + 1] lock queries.
    This holds for every clock that never goes back and never runs ahead
    of the time elapsed, so for processor time as for elapsed time.  With
    [m = 0] it holds for every timeout, zero included: the lock is asked
    for before the deadline is looked at. *)
Theorem wait_for_lock_succeeds (w : world) (dev : ptr) (port : loc)
    (timeout_ms : Z) (fuel m : nat) :
  connected w dev port ->
  processor_share P 1 ->
  Z.pos (clocks_per_ms P) <= 1000000 ->
  0 <= timeout_ms < 2 ^ 32 ->
  (m < fuel)%nat ->
  (forall j, (j < m)%nat ->
     exists r, transport_reply "LOCK?" 16 (line P (written w + j)) = Some r
               /\ (atoi P r =? 1) = false) ->
  (exists r, transport_reply "LOCK?" 16 (line P (written w + m)) = Some r
             /\ (atoi P r =? 1) = true) ->
  Z.of_nat m * (SEND_BUDGET_MS P + 200) <= timeout_ms ->
  exists w',
    budc_wait_for_lock P fuel dev timeout_ms w = Done 0 w'
    /\ count_writes (log w') = (count_writes (log w) + S m)%nat.
Proof.
  intros Hc Hshare Hcpm HT Hfuel Hnot Hlock Htime.
  unfold budc_wait_for_lock, clock. unfold bind at 1.
  apply (wait_loop_locks dev port timeout_ms w Hshare Hcpm HT m fuel w Hc Hfuel Hnot Hlock);
    lia.
Qed.

(** X23. Where [clock()] counts processor time and the process gets at
    most one [d]-th of a processor, as it does while it sleeps and waits
    for the device, [budc_wait_for_lock] over a connected handle returns
    -1 only after more than [d] times [timeout_ms - 1] milliseconds
    have elapsed: the timeout is counted in processor time, not in
    elapsed time. *)
Theorem wait_for_lock_counts_processor_time (w : world) (dev : ptr) (port : loc)
    (timeout_ms d : Z) (fuel : nat) (w' : world) :
  connected w dev port ->
  Z.pos (clocks_per_ms P) <= 1000000 ->
  0 <= timeout_ms < 2 ^ 32 ->
  0 < d ->
  processor_share P d ->
  budc_wait_for_lock P fuel dev timeout_ms w = Done (-1) w' ->
  d * (timeout_ms - 1) < now w' - now w.
Proof.
  intros Hc Hcpm HT Hd Hshare Hrun.
  unfold budc_wait_for_lock, clock in Hrun. unfold bind at 1 in Hrun.
  destruct (wait_loop_ends dev port timeout_ms _ fuel false w (-1) w' Hc Hrun)
    as ([Hrc | [_ Hpassed]] & _ & _ & _ & Hn); [discriminate|].
  destruct (Hshare (now w) (length (log w)) (now w') (length (log w')) Hn) as [Hlo Hhi].
  pose proof (Pos2Z.is_pos (clocks_per_ms P)) as Hcp.
  destruct (Z_lt_le_dec (d * (timeout_ms - 1)) (now w' - now w)) as [Hlt | Hge];
    [exact Hlt|].
  rewrite deadline_not_passed in Hpassed; [discriminate | exact Hcpm | exact HT |].
  split; [exact Hlo | nia].
Qed.

End LockWaitBounds.

(** ** A successful connection *)

Section ConnectSuccess.

Variable P : platform.

Lemma sp_set_exact (w1 : world) (m : gmap positive port_obj) (port : positive)
    (o : port_obj) (s : setting) :
  ports w1 = <[port := o]> m ->
  opened o = true ->
  sp_set P port s w1
  = Done (setting_ok P (port_name o) s)
         {| now := now w1;
            ports := <[port := {| port_name := port_name o; opened := true;
                                  applied := applied o
                                             ++ (if setting_ok P (port_name o) s
                                                 then [s] else []) |}]> m;
            devs := devs w1;
            written := written w1;
            log := log w1 ++ [Configure port s] |}.
Proof.
  intros Hp Ho. unfold sp_set. rewrite Hp, lookup_insert_eq. cbv beta iota zeta.
  rewrite Ho. cbn [andb].
  destruct (setting_ok P (port_name o) s); f_equal; apply world_eq; simpl;
    try reflexivity.
  - rewrite Hp, insert_insert_eq. reflexivity.
  - rewrite Hp. f_equal. destruct o as [nm op ap]. simpl in *. subst op.
    rewrite app_nil_r. reflexivity.
Qed.

Lemma applied_in_order (name : string) :
  ((((((([] ++ (if setting_ok P name (Baudrate 9600) then [Baudrate 9600] else []))
        ++ (if setting_ok P name (Bits 8) then [Bits 8] else []))
       ++ (if setting_ok P name ParityNone then [ParityNone] else []))
      ++ (if setting_ok P name (Stopbits 1) then [Stopbits 1] else []))
     ++ (if setting_ok P name FlowcontrolNone then [FlowcontrolNone] else []))
    ++ (if setting_ok P name DtrOn then [DtrOn] else []))
   ++ (if setting_ok P name RtsOn then [RtsOn] else []))%list
  = applied_settings P name.
Proof.
  unfold applied_settings, LINE_SETTINGS. simpl.
  destruct (setting_ok P name (Baudrate 9600)), (setting_ok P name (Bits 8)),
    (setting_ok P name ParityNone), (setting_ok P name (Stopbits 1)),
    (setting_ok P name FlowcontrolNone), (setting_ok P name DtrOn),
    (setting_ok P name RtsOn); reflexivity.
Qed.

Lemma connect_success_run (w : world) (name : string) :
  port_exists P name = true ->
  open_ok P name = true ->
  malloc_ok P = true ->
  budc_connect P name w = Done (Some (fresh (dom (devs w)))) (connected_after P name w).
Proof.
  intros Hex Hopen Hmalloc. unfold budc_connect.
  set (port := fresh (dom (ports w))).
  assert (Hget : sp_get_port_by_name P name w
                 = Done (Some port)
                        {| now := now w;
                           ports := <[port := {| port_name := name; opened := false;
                                                 applied := [] |}]> (ports w);
                           devs := devs w; written := written w;
                           log := log w ++ [GetPortByName name] |}).
  { unfold sp_get_port_by_name. rewrite Hex. reflexivity. }
  rewrite (bind_run _ _ _ _ _ Hget). cbv beta iota.
  match goal with |- bind (sp_open P port) _ ?w1 = _ =>
    assert (Hop : sp_open P port w1
                  = Done true
                         {| now := now w;
                            ports := <[port := {| port_name := name; opened := true;
                                                  applied := [] |}]> (ports w);
                            devs := devs w; written := written w;
                            log := (log w ++ [GetPortByName name]) ++ [Open port] |})
  end.
  { unfold sp_open. cbn [ports]. rewrite lookup_insert_eq. cbn [port_name applied].
    rewrite Hopen. f_equal. apply world_eq; simpl; try reflexivity.
    apply insert_insert_eq. }
  rewrite (bind_run _ _ _ _ _ Hop). cbv beta. cbn [negb].
  do 7 (erewrite bind_run; [|apply (sp_set_exact _ (ports w) port); reflexivity];
        cbv beta; cbn [port_name applied now devs written log]).
  rewrite applied_in_order.
  unfold bind at 1. unfold malloc_device. rewrite Hmalloc. cbv zeta.
  cbn [devs record with_devs].
  unfold bind at 1. unfold store_port. cbn [devs with_devs record].
  rewrite lookup_insert_eq.
  unfold bind at 1. unfold sp_flush, live_port. cbn [ports with_devs record].
  rewrite lookup_insert_eq.
  unfold bind at 1. unfold scpi_delay, ret.
  f_equal. apply world_eq; simpl; try reflexivity.
  - apply insert_insert_eq.
  - unfold connect_log, LINE_SETTINGS. simpl. repeat rewrite <- app_assoc. reflexivity.
Qed.

Lemma connect_failure_exact (w : world) (name : string) :
  port_exists P name && open_ok P name && malloc_ok P = false ->
  budc_connect P name w = Done None (failed_after P name w).
Proof.
  intros Hfail. unfold budc_connect, failed_after, connect_failure_log.
  set (port := fresh (dom (ports w))).
  assert (Hfp : ports w !! port = None) by apply not_elem_of_dom, is_fresh.
  destruct (port_exists P name) eqn:Hex; cbn [negb].
  2:{ unfold bind at 1, sp_get_port_by_name. rewrite Hex. reflexivity. }
  assert (Hget : sp_get_port_by_name P name w
                 = Done (Some port)
                        {| now := now w;
                           ports := <[port := {| port_name := name; opened := false;
                                                 applied := [] |}]> (ports w);
                           devs := devs w; written := written w;
                           log := log w ++ [GetPortByName name] |}).
  { unfold sp_get_port_by_name. rewrite Hex. reflexivity. }
  rewrite (bind_run _ _ _ _ _ Hget). cbv beta iota.
  destruct (open_ok P name) eqn:Hopen; cbn [negb].
  2:{ unfold bind at 1, sp_open. cbn [ports]. rewrite lookup_insert_eq.
      cbn [port_name]. rewrite Hopen. cbn [negb].
      unfold bind at 1, sp_free_port, live_port. cbn [ports record].
      rewrite lookup_insert_eq. unfold ret.
      f_equal. apply world_eq; simpl; try reflexivity.
      - rewrite delete_insert_eq. apply delete_id, Hfp.
      - repeat rewrite <- app_assoc. reflexivity. }
  cbn [andb] in Hfail.
  match goal with |- bind (sp_open P port) _ ?w1 = _ =>
    assert (Hop : sp_open P port w1
                  = Done true
                         {| now := now w;
                            ports := <[port := {| port_name := name; opened := true;
                                                  applied := [] |}]> (ports w);
                            devs := devs w; written := written w;
                            log := (log w ++ [GetPortByName name]) ++ [Open port] |})
  end.
  { unfold sp_open. cbn [ports]. rewrite lookup_insert_eq. cbn [port_name applied].
    rewrite Hopen. f_equal. apply world_eq; simpl; try reflexivity.
    apply insert_insert_eq. }
  rewrite (bind_run _ _ _ _ _ Hop). cbv beta. cbn [negb].
  do 7 (erewrite bind_run; [|apply (sp_set_exact _ (ports w) port); reflexivity];
        cbv beta; cbn [port_name applied now devs written log]).
  unfold bind at 1. unfold malloc_device. rewrite Hfail. cbv zeta.
  unfold bind at 1, sp_close, live_port. cbn [ports record].
  rewrite lookup_insert_eq.
  unfold bind at 1, sp_free_port, live_port. cbn [ports with_ports record].
  rewrite lookup_insert_eq. unfold ret.
  f_equal. apply world_eq; simpl; try reflexivity.
  - rewrite !delete_insert_eq. apply delete_id, Hfp.
  - unfold LINE_SETTINGS. simpl. repeat rewrite <- app_assoc. reflexivity.
Qed.

(** C7, as the code has it.  [budc_connect] returns null exactly when the
    port is not found, cannot be opened, or the handle cannot be
    allocated, and then the port object and the open connection acquired
    on the way have been released: the live ports and handles are those
    from before the call, and the library calls made are, in this order,
    the lookup alone; or the lookup, the failed open and [sp_free_port];
    or the lookup, the open, the seven line settings, the failed
    allocation, [sp_close] and then [sp_free_port].  The return codes of
    the line settings are not looked at; otherwise the caller gets a
    handle to an open port. *)
Theorem connect_releases_on_failure (w : world) (name : string) :
  exists r w',
    budc_connect P name w = Done r w'
    /\ connect_post P w name r w'
    /\ (r = None ->
        w' = failed_after P name w
        /\ log w' = (log w ++ connect_failure_log P name (fresh (dom (ports w))))%list).
Proof.
  destruct (connect_post_holds P w name) as (r & w' & Hrun & Hpost).
  exists r, w'. split; [exact Hrun|]. split; [exact Hpost|].
  intros ->. destruct Hpost as (Hnone & _).
  assert (Hfail : port_exists P name && open_ok P name && malloc_ok P = false).
  { destruct (proj1 Hnone eq_refl) as [H | [H | H]]; rewrite H;
      rewrite ?andb_false_r; reflexivity. }
  rewrite (connect_failure_exact w name Hfail) in Hrun. injection Hrun as <-.
  split; reflexivity.
Qed.

(** X13. When the port is found, opens, and the handle can be allocated,
    [budc_connect] returns a fresh handle to a fresh open port on which
    exactly the accepted line settings are applied, in the order 9600
    baud, 8 bits, no parity, 1 stop bit, no flow control, DTR, RTS; it
    then has flushed once and slept 50 ms, and written nothing.  The
    handle is connected: [budc_is_connected] says so and changes
    nothing. *)
Theorem connect_success (w : world) (name : string) :
  port_exists P name = true ->
  open_ok P name = true ->
  malloc_ok P = true ->
  let d := fresh (dom (devs w)) in
  let port := fresh (dom (ports w)) in
  let w' := connected_after P name w in
  budc_connect P name w = Done (Some d) w'
  /\ devs w !! d = None /\ ports w !! port = None
  /\ connected w' (Some d) port
  /\ budc_is_connected (Some d) w' = Done true w'.
Proof.
  intros Hex Hopen Hmalloc d port w'.
  assert (Hc : connected w' (Some d) port).
  { exists d. eexists. split; [reflexivity|].
    split; [apply lookup_insert_eq|]. split; [apply lookup_insert_eq | reflexivity]. }
  split; [apply connect_success_run; assumption|].
  split; [apply not_elem_of_dom, is_fresh|].
  split; [apply not_elem_of_dom, is_fresh|].
  split; [exact Hc | apply (is_connected_run w' (Some d) port Hc)].
Qed.

Lemma disconnect_exact (w : world) (d port : positive) (o : port_obj)
    (mp : gmap positive port_obj) (md : gmap positive (option positive)) :
  ports w = <[port := o]> mp -> mp !! port = None ->
  devs w = <[d := Some port]> md -> md !! d = None ->
  exists w',
    budc_disconnect (Some d) w = Done tt w'
    /\ ports w' = mp /\ devs w' = md
    /\ log w' = (log w ++ [Close port; FreePort port; Free d])%list
    /\ now w' = now w.
Proof.
  intros Hp Hfp Hd Hfd. eexists.
  unfold budc_disconnect, bind, load_port. rewrite Hd, lookup_insert_eq.
  unfold sp_close, sp_free_port, live_port. rewrite Hp, lookup_insert_eq.
  cbn [ports with_ports record]. rewrite Hp, lookup_insert_eq.
  unfold free_device. cbn [devs with_ports record]. rewrite Hd, lookup_insert_eq.
  split; [reflexivity|]. cbn.
  split; [rewrite Hp, !delete_insert_eq; apply delete_id, Hfp|].
  split; [rewrite Hd, delete_insert_eq; apply delete_id, Hfd|].
  split; [repeat rewrite <- app_assoc; reflexivity | reflexivity].
Qed.

(** X14. Connecting and then disconnecting leaves no port object and no
    handle behind: the live ports and handles are those from before the
    connect, and the port was closed and freed before the handle was. *)
Theorem connect_disconnect_round_trip (w : world) (name : string) :
  port_exists P name = true ->
  open_ok P name = true ->
  malloc_ok P = true ->
  exists d port w' w'',
    budc_connect P name w = Done (Some d) w'
    /\ budc_disconnect (Some d) w' = Done tt w''
    /\ ports w'' = ports w /\ devs w'' = devs w
    /\ log w'' = (log w' ++ [Close port; FreePort port; Free d])%list
    /\ now w'' = now w'.
Proof.
  intros Hex Hopen Hmalloc.
  assert (Hfp : ports w !! fresh (dom (ports w)) = None) by apply not_elem_of_dom, is_fresh.
  assert (Hfd : devs w !! fresh (dom (devs w)) = None) by apply not_elem_of_dom, is_fresh.
  destruct (disconnect_exact (connected_after P name w) (fresh (dom (devs w)))
              (fresh (dom (ports w)))
              {| port_name := name; opened := true; applied := applied_settings P name |}
              (ports w) (devs w) eq_refl Hfp eq_refl Hfd) as (w'' & Hrun).
  exists (fresh (dom (devs w))), (fresh (dom (ports w))), (connected_after P name w), w''.
  split; [apply connect_success_run; assumption | exact Hrun].
Qed.

End ConnectSuccess.

(** ** The callers: cli.c *)

Section Callers.

Variable P : platform.

Lemma settles_ret {A} (a : A) (w : world) (R : A -> Prop) : R a -> settles (ret a) w R.
Proof. intros H. exists a, w. repeat split; auto. Qed.

Lemma settles_bind {A B} (m : M A) (k : A -> M B) (w : world)
    (R1 : A -> Prop) (R2 : B -> Prop) :
  settles m w R1 ->
  (forall a w1, R1 a -> ports w1 = ports w -> devs w1 = devs w -> settles (k a) w1 R2) ->
  settles (bind m k) w R2.
Proof.
  intros (a & w1 & Hm & Hp & Hd & Ha) Hk.
  destruct (Hk a w1 Ha Hp Hd) as (b & w2 & Hrun & Hp2 & Hd2 & Hb).
  exists b, w2. rewrite (bind_run _ _ _ _ _ Hm).
  split; [exact Hrun|]. split; [congruence|]. split; [congruence | exact Hb].
Qed.

Lemma settles_weaken {A} (m : M A) (w : world) (R1 R2 : A -> Prop) :
  settles m w R1 -> (forall a, R1 a -> R2 a) -> settles m w R2.
Proof.
  intros (a & w1 & Hm & Hp & Hd & Ha) H. exists a, w1. repeat split; auto.
Qed.

Lemma connected_same_heap (w w1 : world) (dev : ptr) (port : loc) :
  connected w dev port -> ports w1 = ports w -> devs w1 = devs w ->
  connected w1 dev port.
Proof.
  intros (d & o & Hdev & Hd & Hp & Ho) Hp1 Hd1. exists d, o.
  rewrite Hp1, Hd1. auto.
Qed.

Lemma bounded_call_settles {A} (call : M (Z * A)) (n : nat) (budget : Z)
    (dev : ptr) (port : loc) (w : world) :
  bounded_call call n budget dev port w ->
  settles call w (fun r => fst r = 0 \/ fst r = -1).
Proof.
  intros (rc & out & w' & Hrun & Hrc & _ & Hp & Hd & _).
  exists (rc, out), w'. repeat split; auto.
Qed.

Lemma setter_law_settles (m : M Z) (command : string) (port : loc) (w : world) :
  setter_law P m command port w -> settles m w (fun rc => rc = 0 \/ rc = -1).
Proof.
  intros (w' & Hrun & _ & Hp & Hd & _). eexists _, w'.
  split; [exact Hrun|]. split; [exact Hp|]. split; [exact Hd|].
  destruct (_ && _); auto.
Qed.

Lemma send_raw_settles (w : world) (dev : ptr) (port : loc) (command : string)
    (response : buffer_arg) (response_len : Z) :
  connected w dev port ->
  settles (budc_send_raw_command P dev command response response_len) w
          (fun r => fst r = 0 \/ fst r = -1).
Proof.
  intros Hc. eexists _, _. split; [apply (send_raw_run P w dev port); exact Hc|].
  split; [reflexivity|]. split; [reflexivity|].
  unfold send_result.
  repeat match goal with
         | |- context [if ?c then _ else _] => destruct c
         | |- context [match ?c with NullBuffer => _ | Buffer => _ end] => destruct c
         end; cbn [fst]; auto.
Qed.

Lemma wait_for_lock_settles (w : world) (dev : ptr) (port : loc) (timeout_ms : Z)
    (fuel : nat) :
  connected w dev port ->
  follows_elapsed_time P ->
  Z.pos (clocks_per_ms P) <= 1000000 ->
  0 <= timeout_ms < 2 ^ 32 ->
  timeout_ms + 200 < 200 * Z.of_nat fuel ->
  settles (budc_wait_for_lock P fuel dev timeout_ms) w (fun rc => rc = 0 \/ rc = -1).
Proof.
  intros Hc Hel Hcpm HT Hfuel.
  destruct (wait_loop_bounded P dev port timeout_ms (now w) Hel Hcpm HT fuel false w Hc)
    as (rc & w' & Hrun & Hrc & _ & _ & Hp & Hd & _); [lia | lia |].
  exists rc, w'.
  split; [unfold budc_wait_for_lock, clock; unfold bind at 1; rewrite Hel; exact Hrun|].
  split; [exact Hp|]. split; [exact Hd|].
  destruct Hrc as [? | [? _]]; auto.
Qed.

Lemma failed_status (rc result : Z) :
  result = 0 \/ result = 1 -> Cli.failed rc result = 0 \/ Cli.failed rc result = 1.
Proof. unfold Cli.failed. destruct (rc =? 0); auto. Qed.

(** One guarded command of [main], [if (flag) { if (call != 0) result = 1; }]. *)
Lemma guarded_settles {A} (flag : bool) (call : M A) (code : A -> Z) (result : Z)
    (w : world) (Q : Prop) :
  (flag = true -> settles call w (fun r => code r = 0 \/ code r = -1)) ->
  result = 0 \/ result = 1 ->
  (Q -> flag = false) ->
  (Q -> result = 0) ->
  settles (if flag then bind call (fun r => ret (Cli.failed (code r) result))
           else ret result) w
          (fun r => (r = 0 \/ r = 1) /\ (Q -> r = 0)).
Proof.
  intros Hcall Hres Hflag Hq. destruct flag.
  - apply (settles_bind _ _ _ _ _ (Hcall eq_refl)).
    intros a w1 _ _ _. apply settles_ret. split; [apply failed_status; exact Hres|].
    intros HQ. specialize (Hflag HQ). discriminate.
  - apply settles_ret. split; assumption.
Qed.

(** A command of [main] whose result is not looked at. *)
Lemma ignored_settles {A} (flag : bool) (call : M A) (w : world) (R : A -> Prop) :
  (flag = true -> settles call w R) ->
  settles (if flag then bind call (fun _ => ret tt) else ret tt) w (fun _ => True).
Proof.
  intros Hcall. destruct flag.
  - apply (settles_bind _ _ _ _ _ (Hcall eq_refl)). intros. apply settles_ret. exact I.
  - apply settles_ret. exact I.
Qed.

Lemma status_settles (w : world) (dev : ptr) (port : loc) :
  connected w dev port ->
  settles (budc_get_identity P dev (Some "N/A") 256 ;;
           budc_get_frequency_ghz P dev (double_of_Z 0) ;;
           budc_get_lock_status P dev false ;;
           budc_get_temperature_c P dev (float_of_Z 0) ;;
           budc_get_power_level P dev 0 ;;
           ret tt) w (fun _ => True).
Proof.
  intros Hc.
  apply (settles_bind _ _ _ _ _
           (bounded_call_settles _ _ _ _ _ _ (identity_bounded P w dev port _ _ Hc))).
  intros r1 w1 _ Hp1 Hd1. pose proof (connected_same_heap _ _ _ _ Hc Hp1 Hd1) as Hc1.
  apply (settles_bind _ _ _ _ _
           (bounded_call_settles _ _ _ _ _ _ (frequency_bounded P w1 dev port _ Hc1))).
  intros r2 w2 _ Hp2 Hd2. pose proof (connected_same_heap _ _ _ _ Hc1 Hp2 Hd2) as Hc2.
  apply (settles_bind _ _ _ _ _
           (bounded_call_settles _ _ _ _ _ _ (lock_bounded P w2 dev port _ Hc2))).
  intros r3 w3 _ Hp3 Hd3. pose proof (connected_same_heap _ _ _ _ Hc2 Hp3 Hd3) as Hc3.
  apply (settles_bind _ _ _ _ _
           (bounded_call_settles _ _ _ _ _ _ (temperature_bounded P w3 dev port _ Hc3))).
  intros r4 w4 _ Hp4 Hd4. pose proof (connected_same_heap _ _ _ _ Hc3 Hp4 Hd4) as Hc4.
  apply (settles_bind _ _ _ _ _
           (bounded_call_settles _ _ _ _ _ _ (power_bounded P w4 dev port _ Hc4))).
  intros r5 w5 _ _ _. apply settles_ret. exact I.
Qed.

Lemma commands_settle (junk : Cli.locals) (w : world) (dev : ptr) (port : loc)
    (fuel : nat) (o : Cli.options) :
  connected w dev port ->
  (CLI_POLLS <= fuel)%nat ->
  Cli.wait_for_lock_after_set o = false
  \/ (follows_elapsed_time P /\ Z.pos (clocks_per_ms P) <= 1000000) ->
  settles (Cli.commands P junk fuel o dev) w
          (fun r => (r = 0 \/ r = 1) /\ (quiet o -> r = 0)).
Proof.
  intros Hc Hfuel Hwait. unfold Cli.commands. cbv zeta.
  apply (settles_bind _ _ _ (fun r => (r = 0 \/ r = 1) /\ (quiet o -> r = 0))).
  { destruct (float_ge (Cli.set_freq_ghz o) (double_of_Z 0)) eqn:Hg;
      [|destruct (float_ge (Cli.set_freq_mhz o) (double_of_Z 0)) eqn:Hm;
        [|destruct (float_ge (Cli.set_freq_hz o) (double_of_Z 0)) eqn:Hh]].
    - apply (settles_bind _ _ _ _ _
               (setter_law_settles _ _ _ _ (setter_law_intro P w dev port _ Hc))).
      intros a w1 _ _ _. apply settles_ret. split; [apply failed_status; auto|].
      intros (H & _). congruence.
    - apply (settles_bind _ _ _ _ _
               (setter_law_settles _ _ _ _ (setter_law_intro P w dev port _ Hc))).
      intros a w1 _ _ _. apply settles_ret. split; [apply failed_status; auto|].
      intros (_ & H & _). congruence.
    - apply (settles_bind _ _ _ _ _
               (setter_law_settles _ _ _ _ (setter_law_intro P w dev port _ Hc))).
      intros a w1 _ _ _. apply settles_ret. split; [apply failed_status; auto|].
      intros (_ & _ & H & _). congruence.
    - apply settles_ret. auto. }
  intros r1 w1 [Hr1 Hq1] Hp1 Hd1.
  pose proof (connected_same_heap _ _ _ _ Hc Hp1 Hd1) as Hc1.
  apply (settles_bind _ _ _ (fun r => (r = 0 \/ r = 1) /\ (quiet o -> r = 0))).
  { apply (guarded_settles _ _ (fun rc => rc)); auto.
    - intros _. apply (setter_law_settles _ (power_command (Cli.set_power_level o)) port).
      apply (setter_law_intro P w1 dev port _ Hc1).
    - intros (_ & _ & _ & H & _). exact H. }
  intros r2 w2 [Hr2 Hq2] Hp2 Hd2.
  pose proof (connected_same_heap _ _ _ _ Hc1 Hp2 Hd2) as Hc2.
  apply (settles_bind _ _ _ (fun r => (r = 0 \/ r = 1) /\ (quiet o -> r = 0))).
  { apply (guarded_settles _ _ (fun rc => rc)); auto.
    - intros Hflag. destruct Hwait as [Hoff | [Hel Hcpm]]; [congruence|].
      apply (wait_for_lock_settles w2 dev port);
        [exact Hc2 | exact Hel | exact Hcpm | split; [lia | reflexivity] |].
      unfold CLI_POLLS in Hfuel. lia.
    - intros (_ & _ & _ & _ & H & _). exact H. }
  intros r3 w3 [Hr3 Hq3] Hp3 Hd3.
  pose proof (connected_same_heap _ _ _ _ Hc2 Hp3 Hd3) as Hc3.
  apply (settles_bind _ _ _ (fun r => (r = 0 \/ r = 1) /\ (quiet o -> r = 0))).
  { apply (guarded_settles _ _ (fun rc => rc)); auto.
    - intros _. apply (setter_law_settles _ "PRESET" port).
      apply (setter_law_intro P w3 dev port _ Hc3).
    - intros (_ & _ & _ & _ & _ & H & _). exact H. }
  intros r4 w4 [Hr4 Hq4] Hp4 Hd4.
  pose proof (connected_same_heap _ _ _ _ Hc3 Hp4 Hd4) as Hc4.
  apply (settles_bind _ _ _ (fun r => (r = 0 \/ r = 1) /\ (quiet o -> r = 0))).
  { apply (guarded_settles _ _ (fun rc => rc)); auto.
    - intros _. apply (setter_law_settles _ "SAVE" port).
      apply (setter_law_intro P w4 dev port _ Hc4).
    - intros (_ & _ & _ & _ & _ & _ & H & _). exact H. }
  intros r5 w5 [Hr5 Hq5] Hp5 Hd5.
  pose proof (connected_same_heap _ _ _ _ Hc4 Hp5 Hd5) as Hc5.
  apply (settles_bind _ _ _ (fun r => (r = 0 \/ r = 1) /\ (quiet o -> r = 0))).
  { apply (guarded_settles _ _ fst); auto.
    - intros _. apply (bounded_call_settles _ _ _ _ _ _ (frequency_bounded P w5 dev port _ Hc5)).
    - intros (_ & _ & _ & _ & _ & _ & _ & H & _). exact H. }
  intros r6 w6 [Hr6 Hq6] Hp6 Hd6.
  pose proof (connected_same_heap _ _ _ _ Hc5 Hp6 Hd6) as Hc6.
  apply (settles_bind _ _ _ (fun r => (r = 0 \/ r = 1) /\ (quiet o -> r = 0))).
  { apply (guarded_settles _ _ fst); auto.
    - intros _. apply (bounded_call_settles _ _ _ _ _ _ (power_bounded P w6 dev port _ Hc6)).
    - intros (_ & _ & _ & _ & _ & _ & _ & _ & H & _). exact H. }
  intros r7 w7 [Hr7 Hq7] Hp7 Hd7.
  pose proof (connected_same_heap _ _ _ _ Hc6 Hp7 Hd7) as Hc7.
  apply (settles_bind _ _ _ (fun _ => True)).
  { apply (ignored_settles _ _ _ (fun r => fst r = 0 \/ fst r = -1)).
    intros _. apply (bounded_call_settles _ _ _ _ _ _ (temperature_bounded P w7 dev port _ Hc7)). }
  intros [] w8 _ Hp8 Hd8.
  pose proof (connected_same_heap _ _ _ _ Hc7 Hp8 Hd8) as Hc8.
  apply (settles_bind _ _ _ (fun r => (r = 0 \/ r = 1) /\ (quiet o -> r = 0))).
  { apply (guarded_settles _ _ fst); auto.
    - intros _. apply (bounded_call_settles _ _ _ _ _ _ (lock_bounded P w8 dev port _ Hc8)).
    - intros (_ & _ & _ & _ & _ & _ & _ & _ & _ & H & _). exact H. }
  intros r9 w9 [Hr9 Hq9] Hp9 Hd9.
  pose proof (connected_same_heap _ _ _ _ Hc8 Hp9 Hd9) as Hc9.
  apply (settles_bind _ _ _ (fun r => (r = 0 \/ r = 1) /\ (quiet o -> r = 0))).
  { destruct (Cli.raw_command o) as [command|] eqn:Hraw.
    - apply (settles_bind _ _ _ _ _ (send_raw_settles w9 dev port command Buffer 512 Hc9)).
      intros a w10 _ _ _. apply settles_ret. split; [apply failed_status; exact Hr9|].
      intros (_ & _ & _ & _ & _ & _ & _ & _ & _ & _ & H). congruence.
    - apply settles_ret. split; assumption. }
  intros r10 w10 [Hr10 Hq10] Hp10 Hd10.
  pose proof (connected_same_heap _ _ _ _ Hc9 Hp10 Hd10) as Hc10.
  apply (settles_bind _ _ _ (fun _ => True)).
  { destruct (Cli.get_status o); [|apply settles_ret; exact I].
    apply (status_settles w10 dev port). exact Hc10. }
  intros [] w11 _ _ _. apply settles_ret. split; assumption.
Qed.

End Callers.

Section CliMain.

Variable P : platform.
Variable L : listing.
Variable junk : Cli.locals.

Lemma connect_failure_run (w : world) (name : string) :
  port_exists P name && open_ok P name && malloc_ok P = false ->
  exists w', budc_connect P name w = Done None w'
             /\ ports w' = ports w /\ devs w' = devs w.
Proof.
  intros Hfail.
  assert (H : runs (budc_connect P name) w
                (fun r w' => r = None /\ ports w' = ports w /\ devs w' = devs w)).
  { unfold budc_connect. apply runs_bind.
    destruct (sp_get_port_by_name_run P w name)
      as [[Hex Hrun] | [Hex (port & w1 & Hrun & H1)]].
    { eexists None, _. split; [exact Hrun|]. apply runs_ret. repeat split. }
    exists (Some port), w1. split; [exact Hrun|].
    apply runs_bind. eapply sp_open_runs; [exact H1|]. cbn [port_name opened].
    intros w2 o2 H2 Hn2 Ho2.
    destruct (open_ok P name) eqn:Hopen; cbn [negb].
    2:{ apply runs_bind. eapply sp_free_port_runs; [exact H2|].
        intros w3 Hp3 Hd3. apply runs_ret. repeat split; assumption. }
    apply runs_bind. eapply sp_set_runs; [exact H2|]. intros ok3 w3 o3 H3 Ho3 Hn3.
    apply runs_bind. eapply sp_set_runs; [exact H3|]. intros ok4 w4 o4 H4 Ho4 Hn4.
    apply runs_bind. eapply sp_set_runs; [exact H4|]. intros ok5 w5 o5 H5 Ho5 Hn5.
    apply runs_bind. eapply sp_set_runs; [exact H5|]. intros ok6 w6 o6 H6 Ho6 Hn6.
    apply runs_bind. eapply sp_set_runs; [exact H6|]. intros ok7 w7 o7 H7 Ho7 Hn7.
    apply runs_bind. eapply sp_set_runs; [exact H7|]. intros ok8 w8 o8 H8 Ho8 Hn8.
    apply runs_bind. eapply sp_set_runs; [exact H8|]. intros ok9 w9 o9 H9 Ho9 Hn9.
    apply runs_bind. unfold malloc_device.
    rewrite Hex in Hfail. cbn [andb] in Hfail. rewrite Hfail.
    exists None, (record Malloc w9). split; [reflexivity|].
    apply runs_bind. eapply (sp_close_runs w (record Malloc w9)); [exact H9|].
    intros w10 o10 H10.
    apply runs_bind. eapply sp_free_port_runs; [exact H10|].
    intros w11 Hp11 Hd11. apply runs_ret. repeat split; assumption. }
  destruct H as (r & w' & Hrun & -> & Hp & Hd). exists w'. auto.
Qed.

Lemma arg_step_keeps (arg : string) (next : option string) (o : Cli.options) :
  String.eqb arg "--list" = false ->
  String.eqb arg "--port" = false ->
  match Cli.arg_step P arg next o with
  | Cli.Usage => True
  | Cli.Next o' | Cli.SkipNext o' =>
      Cli.port_name o' = Cli.port_name o /\ Cli.list_ports o' = Cli.list_ports o
  end.
Proof.
  intros Hl Hp. unfold Cli.arg_step. rewrite Hl, Hp. cbn [andb].
  repeat match goal with
         | |- context [if ?c then _ else _] => destruct c
         end; cbn; auto.
Qed.

Lemma eqb_not_in (a : string) (args : list string) (flag : string) :
  ~ In flag (a :: args) -> String.eqb a flag = false /\ ~ In flag args.
Proof.
  intros H. split.
  - apply String.eqb_neq. intros ->. apply H. left. reflexivity.
  - intros Hin. apply H. right. exact Hin.
Qed.

Lemma parse_without_port (n : nat) :
  forall (args : list string) (o : Cli.options),
    (length args <= n)%nat ->
    ~ In "--port" args -> ~ In "--list" args ->
    match Cli.parse_arguments P args o with
    | None => True
    | Some o' => Cli.port_name o' = Cli.port_name o /\ Cli.list_ports o' = Cli.list_ports o
    end.
Proof.
  induction n as [|n IH]; intros args o Hlen Hp Hl.
  - destruct args; [simpl; auto | simpl in Hlen; lia].
  - destruct args as [|a rest]; [simpl; auto|].
    destruct (eqb_not_in _ _ _ Hp) as [Hap Hp'].
    destruct (eqb_not_in _ _ _ Hl) as [Hal Hl'].
    cbn [Cli.parse_arguments].
    pose proof (arg_step_keeps a (head rest) o Hal Hap) as Hstep.
    simpl in Hlen.
    destruct (Cli.arg_step P a (head rest) o) as [|o'|o']; [exact I| |].
    + destruct Hstep as [E1 E2].
      specialize (IH rest o' ltac:(lia) Hp' Hl').
      destruct (Cli.parse_arguments P rest o'); [|exact I]. rewrite <- E1, <- E2. exact IH.
    + destruct Hstep as [E1 E2]. destruct rest as [|b rest']; [auto|].
      destruct (eqb_not_in _ _ _ Hp') as [_ Hp''].
      destruct (eqb_not_in _ _ _ Hl') as [_ Hl''].
      simpl in Hlen.
      specialize (IH rest' o' ltac:(lia) Hp'' Hl'').
      destruct (Cli.parse_arguments P rest' o'); [|exact I]. rewrite <- E1, <- E2. exact IH.
Qed.

(** X15. Run without [--list] and without [--port] among its arguments,
    [main] exits with status 0 and has called nothing of the serial
    library: no port is looked up and no time passes, whatever else is on
    the command line. *)
Theorem cli_without_port_touches_nothing (fuel : nat) (argv : list string) (w : world) :
  ~ In "--port" (tl argv) ->
  ~ In "--list" (tl argv) ->
  Cli.main P L junk fuel argv w = Done 0 w.
Proof.
  intros Hp Hl. unfold Cli.main.
  pose proof (parse_without_port (length (tl argv)) (tl argv) Cli.defaults
                (Nat.le_refl _) Hp Hl) as H.
  destruct (Cli.parse_arguments P (tl argv) Cli.defaults) as [o|]; [|reflexivity].
  destruct H as [E1 E2]. rewrite E1, E2. reflexivity.
Qed.

Lemma arg_step_keeps_wait (arg : string) (next : option string) (o : Cli.options) :
  String.eqb arg "--wait-lock" = false ->
  match Cli.arg_step P arg next o with
  | Cli.Usage => True
  | Cli.Next o' | Cli.SkipNext o' =>
      Cli.wait_for_lock_after_set o' = Cli.wait_for_lock_after_set o
  end.
Proof.
  intros Hw. unfold Cli.arg_step. rewrite Hw.
  repeat match goal with
         | |- context [if ?c then _ else _] => destruct c
         end; cbn; auto.
Qed.

Lemma parse_without_wait (n : nat) :
  forall (args : list string) (o : Cli.options),
    (length args <= n)%nat ->
    ~ In "--wait-lock" args ->
    match Cli.parse_arguments P args o with
    | None => True
    | Some o' => Cli.wait_for_lock_after_set o' = Cli.wait_for_lock_after_set o
    end.
Proof.
  induction n as [|n IH]; intros args o Hlen Hw.
  - destruct args; [simpl; auto | simpl in Hlen; lia].
  - destruct args as [|a rest]; [simpl; auto|].
    destruct (eqb_not_in _ _ _ Hw) as [Haw Hw'].
    cbn [Cli.parse_arguments].
    pose proof (arg_step_keeps_wait a (head rest) o Haw) as Hstep.
    simpl in Hlen.
    destruct (Cli.arg_step P a (head rest) o) as [|o'|o']; [exact I| |].
    + specialize (IH rest o' ltac:(lia) Hw').
      destruct (Cli.parse_arguments P rest o'); [|exact I]. congruence.
    + destruct rest as [|b rest']; [exact Hstep|].
      destruct (eqb_not_in _ _ _ Hw') as [_ Hw''].
      simpl in Hlen.
      specialize (IH rest' o' ltac:(lia) Hw'').
      destruct (Cli.parse_arguments P rest' o'); [|exact I]. congruence.
Qed.

(** X16. When [--wait-lock] is not asked for, or [clock()] reports
    elapsed time, [main] returns, with status 0 or 1, and leaves no port
    object and no handle behind: whatever the other arguments, the
    platform and the device do, the live ports and handles at exit are
    those at entry.  The handle it connects is disconnected on every
    path. *)
Theorem cli_always_disconnects (fuel : nat) (argv : list string) (w : world) :
  (CLI_POLLS <= fuel)%nat ->
  ~ In "--wait-lock" (tl argv)
  \/ (follows_elapsed_time P /\ Z.pos (clocks_per_ms P) <= 1000000) ->
  exists status w',
    Cli.main P L junk fuel argv w = Done status w'
    /\ (status = 0 \/ status = 1)
    /\ ports w' = ports w /\ devs w' = devs w.
Proof.
  intros Hfuel Hclock. unfold Cli.main.
  pose proof (parse_without_wait (length (tl argv)) (tl argv) Cli.defaults
                (Nat.le_refl _)) as Hparse.
  destruct (Cli.parse_arguments P (tl argv) Cli.defaults) as [o|];
    [|exists 0, w; unfold ret; auto].
  assert (Hwait : Cli.wait_for_lock_after_set o = false
                  \/ (follows_elapsed_time P /\ Z.pos (clocks_per_ms P) <= 1000000)).
  { destruct Hclock as [Hno | Hel]; [left | right; exact Hel].
    rewrite (Hparse Hno). reflexivity. }
  destruct (Cli.list_ports o).
  { eexists _, w. unfold ret. split; [reflexivity|].
    split; [destruct (_ <? 0); auto | auto]. }
  destruct (Cli.port_name o) as [name|]; [|exists 0, w; unfold ret; auto].
  destruct (port_exists P name && open_ok P name && malloc_ok P) eqn:Hok.
  - apply andb_prop in Hok as [Hok Hmalloc]. apply andb_prop in Hok as [Hex Hopen].
    rewrite (bind_run _ _ _ _ _ (connect_success_run P w name Hex Hopen Hmalloc)).
    cbv beta iota.
    assert (Hfp : ports w !! fresh (dom (ports w)) = None)
      by apply not_elem_of_dom, is_fresh.
    assert (Hfd : devs w !! fresh (dom (devs w)) = None)
      by apply not_elem_of_dom, is_fresh.
    assert (Hc : connected (connected_after P name w) (Some (fresh (dom (devs w))))
                   (fresh (dom (ports w)))).
    { eexists _, _. split; [reflexivity|].
      split; [apply lookup_insert_eq|]. split; [apply lookup_insert_eq | reflexivity]. }
    destruct (commands_settle P junk _ _ _ fuel o Hc Hfuel Hwait)
      as (r & w2 & Hrun & Hp2 & Hd2 & Hr & _).
    rewrite (bind_run _ _ _ _ _ Hrun). cbv beta.
    destruct (disconnect_exact w2 _ _ _ _ _ Hp2 Hfp Hd2 Hfd)
      as (w3 & Hdis & Hp3 & Hd3 & _).
    rewrite (bind_run _ _ _ _ _ Hdis). cbv beta.
    exists r, w3. unfold ret. auto.
  - destruct (connect_failure_run w name Hok) as (w1 & Hrun & Hp1 & Hd1).
    rewrite (bind_run _ _ _ _ _ Hrun). cbv beta iota.
    exists 1, w1. unfold ret. auto.
Qed.

Lemma arg_step_reads (arg : string) (next : option string) (o : Cli.options) :
  arg = "--get-temp" \/ arg = "--status" ->
  exists o',
    Cli.arg_step P arg next o = Cli.Next o'
    /\ Cli.port_name o' = Cli.port_name o
    /\ Cli.list_ports o' = Cli.list_ports o
    /\ (quiet o -> quiet o').
Proof.
  intros [-> | ->]; eexists; (split; [reflexivity|]); cbn; auto.
Qed.

Lemma parse_reads (flags : list string) :
  forall o : Cli.options,
    Forall (fun a => a = "--get-temp" \/ a = "--status") flags ->
    exists o',
      Cli.parse_arguments P flags o = Some o'
      /\ Cli.port_name o' = Cli.port_name o
      /\ Cli.list_ports o' = Cli.list_ports o
      /\ (quiet o -> quiet o').
Proof.
  induction flags as [|a flags IH]; intros o Hall.
  - exists o. simpl. auto.
  - inversion Hall as [|? ? Ha Hrest]; subst.
    destruct (arg_step_reads a (head flags) o Ha) as (o1 & Hstep & E1 & E2 & Hq).
    destruct (IH o1 Hrest) as (o' & Hparse & E1' & E2' & Hq').
    exists o'. cbn [Cli.parse_arguments]. rewrite Hstep.
    split; [exact Hparse|]. split; [congruence|]. split; [congruence | auto].
Qed.

Lemma defaults_quiet : quiet Cli.defaults.
Proof. repeat split. Qed.

(** X17. Asked only for the temperature and the status report, [main]
    exits with 0 whenever the connection was made, whatever the device
    answers or fails to answer: a temperature that cannot be read and a
    status report whose queries all fail do not set the exit status.  It
    exits with 1 when the connection could not be made. *)
Theorem cli_reads_never_fail (fuel : nat) (program port : string)
    (flags : list string) (w : world) :
  (CLI_POLLS <= fuel)%nat ->
  Forall (fun a => a = "--get-temp" \/ a = "--status") flags ->
  exists w',
    Cli.main P L junk fuel (program :: "--port" :: port :: flags) w
    = Done (if port_exists P port && open_ok P port && malloc_ok P then 0 else 1) w'.
Proof.
  intros Hfuel Hall. unfold Cli.main. cbn [tl Cli.parse_arguments].
  change (Cli.arg_step P "--port" (head (port :: flags)) Cli.defaults)
    with (Cli.SkipNext (Cli.with_port_name (Some port) Cli.defaults)).
  cbv iota.
  destruct (parse_reads flags (Cli.with_port_name (Some port) Cli.defaults) Hall)
    as (o & Hparse & E1 & E2 & Hq).
  rewrite Hparse. cbn in E1, E2. rewrite E1, E2.
  destruct (port_exists P port && open_ok P port && malloc_ok P) eqn:Hok.
  - apply andb_prop in Hok as [Hok Hmalloc]. apply andb_prop in Hok as [Hex Hopen].
    rewrite (bind_run _ _ _ _ _ (connect_success_run P w port Hex Hopen Hmalloc)).
    cbv beta iota.
    assert (Hfp : ports w !! fresh (dom (ports w)) = None)
      by apply not_elem_of_dom, is_fresh.
    assert (Hfd : devs w !! fresh (dom (devs w)) = None)
      by apply not_elem_of_dom, is_fresh.
    assert (Hc : connected (connected_after P port w) (Some (fresh (dom (devs w))))
                   (fresh (dom (ports w)))).
    { eexists _, _. split; [reflexivity|].
      split; [apply lookup_insert_eq|]. split; [apply lookup_insert_eq | reflexivity]. }
    assert (Hwait : Cli.wait_for_lock_after_set o = false
                    \/ (follows_elapsed_time P /\ Z.pos (clocks_per_ms P) <= 1000000)).
    { left. apply (Hq defaults_quiet). }
    destruct (commands_settle P junk _ _ _ fuel o Hc Hfuel Hwait)
      as (r & w2 & Hrun & Hp2 & Hd2 & _ & Hr).
    rewrite (bind_run _ _ _ _ _ Hrun). cbv beta.
    destruct (disconnect_exact w2 _ _ _ _ _ Hp2 Hfp Hd2 Hfd)
      as (w3 & Hdis & _).
    rewrite (bind_run _ _ _ _ _ Hdis). cbv beta.
    exists w3. unfold ret. rewrite Hr; [reflexivity|]. apply Hq. apply defaults_quiet.
  - destruct (connect_failure_run w port Hok) as (w1 & Hrun & _).
    rewrite (bind_run _ _ _ _ _ Hrun). cbv beta iota.
    exists w1. reflexivity.
Qed.

End CliMain.

(** ** Scanning and listing *)

Lemma strlen_truncate (n : nat) : forall s, (String.length (truncate n s) <= n)%nat.
Proof.
  induction n as [|n IH]; intros [|c r]; simpl; try lia. specialize (IH r). lia.
Qed.

Lemma truncate_prefix (n : nat) : forall s, exists rest, s = truncate n s +:+ rest.
Proof.
  induction n as [|n IH]; intros [|c r]; simpl.
  - exists EmptyString. reflexivity.
  - exists (String c r). reflexivity.
  - exists EmptyString. reflexivity.
  - destruct (IH r) as (rest & Hr). exists rest. rewrite append_cons, <- Hr. reflexivity.
Qed.

Lemma port_entry_bounds (p : string * option string) :
  strlen (name (port_entry p)) <= 127
  /\ strlen (description (port_entry p)) <= 255
  /\ exists rest, fst p = name (port_entry p) +:+ rest.
Proof.
  unfold port_entry, strlen. cbn [name description].
  split; [pose proof (strlen_truncate 127 (fst p)); lia|].
  split; [|apply truncate_prefix].
  destruct (snd p) as [desc|]; [pose proof (strlen_truncate 255 desc); lia | simpl; lia].
Qed.

(** X18. [budc_find_ports] returns -1 or the number of ports listed; -1
    exactly when the listing failed or the array could not be allocated.
    When the listing failed the caller's pointer is not stored to; after a
    successful listing it is null unless the count is positive, and then
    it points to that many entries, whose names (at most 127 characters)
    and descriptions (at most 255) are terminated within their arrays and
    whose names start the names the library gave. *)
Theorem find_ports_result (L : listing) (old : option (list serial_port_info)) :
  let rc := fst (budc_find_ports L old) in
  let out := snd (budc_find_ports L old) in
  (rc = -1 \/ rc = Z.of_nat (length (listed L)))
  /\ (rc = -1 <-> list_ok L = false \/ (listed L <> [] /\ calloc_ok L = false))
  /\ (list_ok L = false -> out = old)
  /\ (list_ok L = true -> rc <= 0 -> out = None)
  /\ (0 < rc ->
      exists l, out = Some l /\ Z.of_nat (length l) = rc
        /\ Forall (fun e => strlen (name e) <= 127 /\ strlen (description e) <= 255) l
        /\ Forall2 (fun e p => exists rest, fst p = name e +:+ rest) l (listed L)).
Proof.
  unfold budc_find_ports.
  destruct (list_ok L); cbn [negb].
  2:{ cbn. split; [auto|]. split; [split; auto|]. split; [auto|].
      split; [discriminate | intros H; exfalso; first [lia | discriminate H]]. }
  destruct (listed L) as [|p l] eqn:Hl.
  { cbn. split; [auto|]. split; [split; [discriminate | intros [H | [H _]]; congruence]|].
    split; [discriminate|]. split; [auto | intros H; exfalso; first [lia | discriminate H]]. }
  assert (Hpos : (Z.of_nat (length (p :: l)) =? 0) = false)
    by (apply Z.eqb_neq; simpl length; lia).
  rewrite Hpos. destruct (calloc_ok L); cbn [negb fst snd].
  2:{ split; [auto|]. split; [split; [intros _; right; split; congruence | auto]|].
      split; [discriminate|]. split; [auto | intros H; exfalso; first [lia | discriminate H]]. }
  split; [auto|].
  split; [split; [simpl length; lia | intros [H | [_ H]]; congruence]|].
  split; [discriminate|]. split; [simpl length; lia|].
  intros _. eexists. split; [reflexivity|]. split; [rewrite length_map; reflexivity|].
  split.
  - generalize (p :: l). intros l0. induction l0 as [|q l0 IH]; simpl; constructor; auto.
    pose proof (port_entry_bounds q) as (H1 & H2 & _). auto.
  - generalize (p :: l). intros l0. induction l0 as [|q l0 IH]; simpl; constructor; auto.
    apply port_entry_bounds.
Qed.

(** X19. After [refresh_port_list], whatever the state was, and after
    [init_app_state], the port list and its count agree: the list is
    null when the count is zero or -1 and has [port_count] entries
    otherwise, and no port is selected.  A failed listing cannot leave the
    freed list behind, because the pointer is reset before the call. *)
Theorem gui_port_list_consistent (L : listing) (state : Gui.AppState) :
  port_list_consistent (Gui.refresh_port_list L state)
  /\ Gui.selected_port_idx (Gui.refresh_port_list L state) = -1
  /\ Gui.port_count (Gui.refresh_port_list L state) = fst (budc_find_ports L None)
  /\ port_list_consistent (Gui.init_app_state L)
  /\ Gui.selected_port_idx (Gui.init_app_state L) = -1
  /\ Gui.is_connected (Gui.init_app_state L) = false
  /\ Gui.dev (Gui.init_app_state L) = None.
Proof.
  assert (H : forall old, old = None ->
            match snd (budc_find_ports L old) with
            | None => fst (budc_find_ports L old) <= 0
            | Some l => 0 < fst (budc_find_ports L old)
                        /\ Z.of_nat (length l) = fst (budc_find_ports L old)
            end).
  { intros old ->. unfold budc_find_ports.
    destruct (list_ok L); cbn [negb]; [|cbn; lia].
    destruct (Z.of_nat (length (listed L)) =? 0) eqn:Hz; [cbn; lia|].
    apply Z.eqb_neq in Hz.
    destruct (calloc_ok L); cbn [negb fst snd]; [|lia].
    rewrite length_map. lia. }
  unfold port_list_consistent, Gui.refresh_port_list, Gui.init_app_state.
  destruct (Gui.port_list state) eqn:E; cbn; rewrite ?E;
    repeat split; try (apply H; reflexivity).
Qed.

Lemma scan_field_exact (field rest : string) : forall width,
  every not_comma field = true ->
  (String.length field <= width)%nat ->
  rest = EmptyString \/ (exists r, rest = String "," r) ->
  scan_field width (field +:+ rest) = (field, rest).
Proof.
  induction field as [|c f IH]; intros width Hev Hlen Hrest.
  - rewrite append_empty. destruct Hrest as [-> | (r & ->)]; destruct width; reflexivity.
  - rewrite append_cons. simpl in Hev, Hlen. destruct width; [lia|].
    apply andb_prop in Hev as [Hc Hf]. cbn [scan_field].
    unfold not_comma in Hc. apply negb_true_iff in Hc. rewrite Hc.
    rewrite IH by (auto; lia). reflexivity.
Qed.

Lemma scan_word_exact (word : string) : forall width,
  every (fun c => negb (isspace c)) word = true ->
  (String.length word <= width)%nat ->
  scan_word width word = (word, EmptyString).
Proof.
  induction word as [|c f IH]; intros width Hev Hlen.
  - destruct width; reflexivity.
  - simpl in Hev, Hlen. destruct width; [lia|].
    apply andb_prop in Hev as [Hc Hf]. cbn [scan_word].
    apply negb_true_iff in Hc. rewrite Hc.
    rewrite IH by (auto; lia). reflexivity.
Qed.

Lemma scan_field_length (width : nat) : forall input,
  (String.length (fst (scan_field width input)) <= width)%nat.
Proof.
  induction width as [|width IH]; intros [|c r]; simpl; try lia.
  destruct (Ascii.eqb c ","); simpl; [lia|]. specialize (IH r). lia.
Qed.

Lemma scan_word_length (width : nat) : forall input,
  (String.length (fst (scan_word width input)) <= width)%nat.
Proof.
  induction width as [|width IH]; intros [|c r]; simpl; try lia.
  destruct (isspace c); simpl; [lia|]. specialize (IH r). lia.
Qed.

Lemma outputs_kept (n : nat) (outs : list string) :
  Forall2 (fun o' o => o' = o \/ (String.length o' <= n)%nat) outs outs.
Proof. induction outs; constructor; auto. Qed.

(** Whatever the input, [sscanf] leaves each output as it was or stores
    a string no longer than the width of its conversion. *)
Lemma sscanf_bounded (n : nat) (format : list directive) : forall input outs,
  widths_within n format ->
  Forall2 (fun o' o => o' = o \/ (String.length o' <= n)%nat)
          (sscanf format input outs) outs.
Proof.
  induction format as [|d format IH]; intros input outs Hw; [apply outputs_kept|].
  destruct d as [[width|] assign | | width]; cbn [sscanf widths_within] in *.
  - destruct Hw as [Hle Hw].
    pose proof (scan_field_length width input) as Hlen.
    destruct (fst (scan_field width input)) as [|c f] eqn:E; [apply outputs_kept|].
    destruct assign; [|apply IH, Hw].
    destruct outs as [|o outs]; constructor; [right; lia | apply IH, Hw].
  - destruct Hw as [-> Hw].
    destruct (fst (scan_field (String.length input) input)); [apply outputs_kept|].
    apply IH, Hw.
  - destruct input as [|c rest]; [apply outputs_kept|].
    destruct (Ascii.eqb c ","); [apply IH, Hw | apply outputs_kept].
  - destruct Hw as [Hle Hw].
    pose proof (scan_word_length width (skip_space input)) as Hlen.
    destruct (fst (scan_word width (skip_space input))) as [|c f] eqn:E;
      [apply outputs_kept|].
    destruct outs as [|o outs]; constructor; [right; lia | apply IH, Hw].
Qed.

Lemma identity_format_widths : widths_within 63 Gui.IDENTITY_FORMAT.
Proof. cbn. repeat split; lia. Qed.

Lemma forall2_four {A} (R : A -> A -> Prop) (l : list A) (a b c d : A) :
  Forall2 R l [a; b; c; d] ->
  exists x1 x2 x3 x4, l = [x1; x2; x3; x4] /\ R x1 a /\ R x2 b /\ R x3 c /\ R x4 d.
Proof.
  intros H.
  destruct l as [|x1 [|x2 [|x3 [|x4 [|x5 l]]]]];
    repeat match goal with
           | H : Forall2 _ _ _ |- _ => inversion H; clear H; subst
           end.
  exists x1, x2, x3, x4. auto.
Qed.

Lemma sscanf_identity_shape (input a b c d : string) :
  exists company product serial fw,
    sscanf Gui.IDENTITY_FORMAT input [a; b; c; d] = [company; product; serial; fw]
    /\ (company = a \/ (String.length company <= 63)%nat)
    /\ (product = b \/ (String.length product <= 63)%nat)
    /\ (serial = c \/ (String.length serial <= 63)%nat)
    /\ (fw = d \/ (String.length fw <= 63)%nat).
Proof.
  apply (forall2_four (fun o' o => o' = o \/ (String.length o' <= 63)%nat)).
  apply sscanf_bounded, identity_format_widths.
Qed.

Lemma sscanf_field_step (width : nat) (format : list directive) (field rest out : string)
    (outs : list string) :
  field <> EmptyString ->
  every not_comma field = true ->
  (String.length field <= width)%nat ->
  rest = EmptyString \/ (exists r, rest = String "," r) ->
  sscanf (NotComma (Some width) true :: format) (field +:+ rest) (out :: outs)
  = field :: sscanf format rest outs.
Proof.
  intros Hne Hev Hlen Hrest. cbn [sscanf].
  rewrite (scan_field_exact field rest width Hev Hlen Hrest). cbn [fst snd].
  destruct field; [congruence | reflexivity].
Qed.

Lemma sscanf_comma_step (format : list directive) (rest : string) (outs : list string) :
  sscanf (Comma :: format) ("," +:+ rest) outs = sscanf format rest outs.
Proof. reflexivity. Qed.

(** A reply of four well-formed fields is taken apart into them. *)
Lemma sscanf_identity_exact (c p s f a b c0 d : string) :
  identity_field c -> identity_field p -> identity_field s -> identity_word f ->
  sscanf Gui.IDENTITY_FORMAT (c +:+ "," +:+ p +:+ "," +:+ s +:+ "," +:+ f) [a; b; c0; d]
  = [c; p; s; f].
Proof.
  intros (Hc1 & Hc2 & Hc3) (Hp1 & Hp2 & Hp3) (Hs1 & Hs2 & Hs3) (Hf1 & Hf2 & Hf3).
  unfold Gui.IDENTITY_FORMAT.
  rewrite sscanf_field_step; auto; [|right; eexists; rewrite append_cons; reflexivity].
  f_equal. rewrite sscanf_comma_step.
  rewrite sscanf_field_step; auto; [|right; eexists; rewrite append_cons; reflexivity].
  f_equal. rewrite sscanf_comma_step.
  rewrite sscanf_field_step; auto; [|right; eexists; rewrite append_cons; reflexivity].
  f_equal. rewrite sscanf_comma_step.
  destruct (every_no_edge_space f Hf2) as [Hfirst _]. cbn [sscanf].
  rewrite (skip_space_no_space f Hfirst), (scan_word_exact f 63 Hf2 Hf3). cbn [fst snd].
  destruct f; [congruence | reflexivity].
Qed.

(** A reply of two fields only: the third and fourth outputs are not
    stored to. *)
Lemma sscanf_identity_short (c p a b c0 d : string) :
  identity_field c -> identity_field p ->
  sscanf Gui.IDENTITY_FORMAT (c +:+ "," +:+ p) [a; b; c0; d] = [c; p; c0; d].
Proof.
  intros (Hc1 & Hc2 & Hc3) (Hp1 & Hp2 & Hp3).
  unfold Gui.IDENTITY_FORMAT.
  rewrite sscanf_field_step; auto; [|right; eexists; rewrite append_cons; reflexivity].
  f_equal. rewrite sscanf_comma_step.
  rewrite <- (append_empty_r p) at 1.
  rewrite sscanf_field_step; auto.
Qed.

(** ** The callers: gui.cpp *)

Section GuiRefresh.

Variable P : platform.
Variable time : world -> Z.

Lemma temperature_success_plausible (w : world) (dev : ptr) (port : loc)
    (temp_c v : spec_float) (w' : world) :
  connected w dev port ->
  budc_get_temperature_c P dev temp_c w = Done (0, v) w' ->
  in_plausible_range v = true.
Proof.
  intros Hc Hrun.
  destruct (for_attempts_success_inv P dev port (temperature_attempt P dev) "TEMP?" Buffer 64
              (accepts (parse_temperature P) "TEMP?" 64)
              (fun i mem x => snd (attempt_result (parse_temperature P) "TEMP?" 64 i mem x))
              (fun _ => True) ltac:(auto) (temperature_body_run P dev port)
              5%nat O 250 temp_c w v w' I Hc Hrun)
    as (m & mem0 & Hm & _ & Hacc & Hv & _).
  simpl Nat.add in Hacc, Hv.
  unfold accepts in Hacc. unfold attempt_result in Hv.
  destruct (transport_reply _ _ _) as [r|]; [|discriminate].
  unfold parse_temperature in Hacc, Hv.
  destruct (skip_to_number r) as [|c s]; [discriminate|].
  destruct (temperature_plausible m _) eqn:Hp; [|discriminate].
  cbn [snd] in Hv. subst v.
  unfold temperature_plausible in Hp. apply andb_prop in Hp as [Hrange _].
  exact Hrange.
Qed.

Lemma with_current_freq_ghz_same (state : Gui.AppState) :
  Gui.with_current_freq_ghz (Gui.current_freq_ghz state) state = state.
Proof. destruct state; reflexivity. Qed.

Lemma with_power_level_same (state : Gui.AppState) :
  Gui.with_power_level (Gui.power_level state) state = state.
Proof. destruct state; reflexivity. Qed.

Lemma update_frequency_only_run (state : Gui.AppState) (w : world) (port : loc) :
  Gui.is_connected state = true ->
  connected w (Gui.dev state) port ->
  exists state' w',
    Gui.update_frequency_only P state w = Done state' w'
    /\ ports w' = ports w /\ devs w' = devs w
    /\ (written w <= written w' <= written w + 3)%nat
    /\ now w <= now w' <= now w + 3 * (SEND_BUDGET_MS P + 100)
    /\ (state' = state
        \/ exists v, state' = Gui.with_target_freq_ghz v (Gui.with_current_freq_ghz v state)).
Proof.
  intros Hflag Hc. unfold Gui.update_frequency_only. rewrite Hflag. cbn [negb].
  destruct (frequency_bounded P w (Gui.dev state) port (Gui.current_freq_ghz state) Hc)
    as (rc & out & w' & Hrun & Hrc & _ & Hp & Hd & Hw & Hn).
  rewrite (bind_run _ _ _ _ _ Hrun). cbv beta zeta. cbn [fst snd].
  destruct Hrc as [-> | ->]; cbn [Z.eqb]; eexists _, w'; unfold ret;
    (split; [reflexivity|]); repeat (split; [assumption|]).
  - right. exists out. reflexivity.
  - left.
    rewrite (for_attempts_frame _ (frequency_attempt_frame P (Gui.dev state))
               _ _ _ _ _ _ _ _ Hrun ltac:(discriminate)).
    apply with_current_freq_ghz_same.
Qed.

Lemma update_power_only_run (state : Gui.AppState) (w : world) (port : loc) :
  Gui.is_connected state = true ->
  connected w (Gui.dev state) port ->
  exists state' w',
    Gui.update_power_only P state w = Done state' w'
    /\ ports w' = ports w /\ devs w' = devs w
    /\ (written w <= written w' <= written w + 3)%nat
    /\ now w <= now w' <= now w + 3 * (SEND_BUDGET_MS P + 100)
    /\ (state' = state
        \/ exists v, state' = Gui.with_target_power_level v (Gui.with_power_level v state)).
Proof.
  intros Hflag Hc. unfold Gui.update_power_only. rewrite Hflag. cbn [negb].
  destruct (power_bounded P w (Gui.dev state) port (Gui.power_level state) Hc)
    as (rc & out & w' & Hrun & Hrc & _ & Hp & Hd & Hw & Hn).
  rewrite (bind_run _ _ _ _ _ Hrun). cbv beta zeta. cbn [fst snd].
  destruct Hrc as [-> | ->]; cbn [Z.eqb]; eexists _, w'; unfold ret;
    (split; [reflexivity|]); repeat (split; [assumption|]).
  - right. exists out. reflexivity.
  - left.
    rewrite (for_attempts_frame _ (power_attempt_frame P (Gui.dev state))
               _ _ _ _ _ _ _ _ Hrun ltac:(discriminate)).
    apply with_power_level_same.
Qed.

Lemma update_device_status_run (state : Gui.AppState) (w : world) (port : loc) :
  Gui.is_connected state = true ->
  connected w (Gui.dev state) port ->
  exists state' w',
    Gui.update_device_status P time state w = Done state' w'
    /\ ports w' = ports w /\ devs w' = devs w
    /\ (written w <= written w' <= written w + 14)%nat
    /\ now w + 150 <= now w' <= now w + STATUS_BUDGET_MS P
    /\ Gui.last_update_time state' = time w'
    /\ status_refreshed state state'.
Proof.
  intros Hflag Hc. unfold Gui.update_device_status. rewrite Hflag. cbn [negb].
  destruct (update_frequency_only_run state w port Hflag Hc)
    as (s1 & w1 & Hrun1 & Hp1 & Hd1 & Hw1 & Hn1 & Hs1).
  rewrite (bind_run _ _ _ _ _ Hrun1). cbv beta.
  assert (Hdev1 : Gui.dev s1 = Gui.dev state)
    by (destruct Hs1 as [-> | (v & ->)]; reflexivity).
  assert (Hflag1 : Gui.is_connected s1 = true)
    by (destruct Hs1 as [-> | (v & ->)]; exact Hflag).
  unfold Gui.safe_delay at 1. unfold bind at 1.
  set (w1' := record (Delay 50) (tick 50 w1)).
  assert (Hc1 : connected w1' (Gui.dev s1) port).
  { rewrite Hdev1. apply delay_connected. apply (connected_same_heap w); assumption. }
  destruct (lock_bounded P w1' (Gui.dev s1) port (Gui.is_locked s1) Hc1)
    as (rc2 & l2 & w2 & Hrun2 & _ & Hc2 & Hp2 & Hd2 & Hw2 & Hn2).
  rewrite (bind_run _ _ _ _ _ Hrun2). cbv beta zeta. cbn [fst snd].
  unfold Gui.safe_delay at 1. unfold bind at 1.
  set (w2' := record (Delay 50) (tick 50 w2)).
  set (s2 := Gui.with_is_locked l2 s1).
  assert (Hc2' : connected w2' (Gui.dev s2) port) by (apply delay_connected; exact Hc2).
  destruct (temperature_bounded P w2' (Gui.dev s2) port (Gui.temperature_c s2) Hc2')
    as (rc3 & t3 & w3 & Hrun3 & Hrc3 & Hc3 & Hp3 & Hd3 & Hw3 & Hn3).
  rewrite (bind_run _ _ _ _ _ Hrun3). cbv beta zeta. cbn [fst snd].
  unfold Gui.safe_delay at 1. unfold bind at 1.
  set (w3' := record (Delay 50) (tick 50 w3)).
  set (s3 := if rc3 =? 0 then Gui.with_temp_supported true (Gui.with_temperature_c t3 s2)
             else Gui.with_temperature_c (float_of_Z (-999))
                    (Gui.with_temp_supported false (Gui.with_temperature_c t3 s2))).
  assert (Hdev3 : Gui.dev s3 = Gui.dev s1) by (unfold s3; destruct (rc3 =? 0); reflexivity).
  assert (Hflag3 : Gui.is_connected s3 = true)
    by (unfold s3; destruct (rc3 =? 0); exact Hflag1).
  assert (Hc3' : connected w3' (Gui.dev s3) port)
    by (rewrite Hdev3; apply delay_connected; exact Hc3).
  destruct (update_power_only_run s3 w3' port Hflag3 Hc3')
    as (s4 & w4 & Hrun4 & Hp4 & Hd4 & Hw4 & Hn4 & Hs4).
  rewrite (bind_run _ _ _ _ _ Hrun4). cbv beta.
  eexists _, w4. split; [reflexivity|].
  assert (Htemp : if Gui.temp_supported s3
                  then in_plausible_range (Gui.temperature_c s3) = true
                  else Gui.temperature_c s3 = float_of_Z (-999)).
  { unfold s3. destruct Hrc3 as [-> | ->]; cbn; [|reflexivity].
    apply (temperature_success_plausible w2' (Gui.dev s2) port _ _ _ Hc2' Hrun3). }
  simpl in Hp2, Hd2, Hw2, Hn2, Hp3, Hd3, Hw3, Hn3, Hp4, Hd4, Hw4, Hn4.
  split; [congruence|]. split; [congruence|].
  split; [lia|].
  split; [unfold STATUS_BUDGET_MS; lia|].
  split; [reflexivity|].
  unfold status_refreshed.
  destruct Hs4 as [-> | (v4 & ->)]; cbn;
    (split; [exact Htemp|]);
    unfold s3, s2; destruct (rc3 =? 0); cbn;
    destruct Hs1 as [-> | (v1 & ->)]; cbn; auto 20.
Qed.

(** X20. Over a connected handle [update_device_status] returns after
    at most fourteen commands, having slept its three pauses of 50 ms,
    and leaves the live ports and handles alone.  Afterwards the
    temperature shown is either flagged supported and within
    [-50, 150], or flagged unsupported and equal to -999; the frequency
    target equals the frequency just read, or both are as before (the
    read failed); likewise the power target; the identity fields, the
    port list and the handle are not touched. *)
Theorem update_device_status_invariant (state : Gui.AppState) (w : world) (port : loc) :
  Gui.is_connected state = true ->
  connected w (Gui.dev state) port ->
  exists state' w',
    Gui.update_device_status P time state w = Done state' w'
    /\ ports w' = ports w /\ devs w' = devs w
    /\ (written w <= written w' <= written w + 14)%nat
    /\ now w + 150 <= now w' <= now w + STATUS_BUDGET_MS P
    /\ Gui.last_update_time state' = time w'
    /\ status_refreshed state state'.
Proof. exact (update_device_status_run state w port). Qed.

End GuiRefresh.

Section GuiIdentity.

Variable P : platform.
Variable time : world -> Z.

Lemma display_identity (company product : string) :
  (String.length company <= 63)%nat ->
  (String.length product <= 63)%nat ->
  truncate 255 (company +:+ " " +:+ product) = company +:+ " " +:+ product
  /\ strlen (company +:+ " " +:+ product) <= 127.
Proof.
  intros Hc Hp.
  assert (Hlen : String.length (company +:+ " " +:+ product)
                 = (String.length company + 1 + String.length product)%nat).
  { rewrite !length_append. simpl. lia. }
  split; [apply truncate_short; lia | unfold strlen; lia].
Qed.

Lemma kept_or_short (o' o : string) (n : nat) :
  o' = o \/ (String.length o' <= n)%nat ->
  strlen o <= Z.of_nat n -> strlen o' <= Z.of_nat n.
Proof. intros [-> | H] Ho; unfold strlen in *; lia. Qed.

Ltac fields :=
  cbn [Gui.identity Gui.with_identity Gui.serial_number Gui.with_serial_number
       Gui.fw_version Gui.with_fw_version].

(** X21. [update_all_values] over a connected handle.  When the identity
    cannot be read the identity shown is the error text and the serial
    number and firmware version are emptied.  When it is read, the
    display identity is at most 127 characters and the serial number and
    firmware version stay within their 63, so no array is overrun and
    [snprintf] cuts nothing; a reply of four well-formed fields
    [company,product,serial,firmware] shows [company product], the serial
    number and the firmware version; a reply with two fields only leaves
    the serial number and firmware version of the previous reply in
    place.  The status refresh that follows does not touch these
    fields. *)
Theorem update_all_values_identity (state : Gui.AppState) (w : world) (port : loc) :
  Gui.is_connected state = true ->
  connected w (Gui.dev state) port ->
  exists rc reply w1 state' w',
    budc_get_identity P (Gui.dev state) (Some (Gui.identity state)) 256 w
    = Done (rc, reply) w1
    /\ Gui.update_all_values P time state w = Done state' w'
    /\ ports w' = ports w /\ devs w' = devs w
    /\ now w + 250 <= now w'
    /\ (rc <> 0 ->
        Gui.identity state' = "Error: Failed to read IDN"
        /\ Gui.serial_number state' = EmptyString
        /\ Gui.fw_version state' = EmptyString)
    /\ (rc = 0 ->
        strlen (Gui.identity state') <= 127
        /\ (strlen (Gui.serial_number state) <= 63 ->
            strlen (Gui.serial_number state') <= 63)
        /\ (strlen (Gui.fw_version state) <= 63 -> strlen (Gui.fw_version state') <= 63)
        /\ (forall c p s f,
              identity_field c -> identity_field p -> identity_field s ->
              identity_word f ->
              reply = Some (c +:+ "," +:+ p +:+ "," +:+ s +:+ "," +:+ f) ->
              Gui.identity state' = c +:+ " " +:+ p
              /\ Gui.serial_number state' = s
              /\ Gui.fw_version state' = f)
        /\ (forall c p,
              identity_field c -> identity_field p ->
              reply = Some (c +:+ "," +:+ p) ->
              Gui.identity state' = c +:+ " " +:+ p
              /\ Gui.serial_number state' = Gui.serial_number state
              /\ Gui.fw_version state' = Gui.fw_version state)).
Proof.
  intros Hflag Hc. unfold Gui.update_all_values. rewrite Hflag. cbn [negb].
  destruct (identity_bounded P w (Gui.dev state) port (Gui.identity state) 256 Hc)
    as (rc & reply & w1 & Hrun & Hrc & Hc1 & Hp1 & Hd1 & _ & Hn1).
  exists rc, reply, w1. rewrite (bind_run _ _ _ _ _ Hrun). cbv beta zeta. cbn [fst snd].
  unfold Gui.safe_delay at 1. unfold bind at 1.
  set (s0 := match reply with
             | Some s => Gui.with_identity s state
             | None => state
             end).
  assert (Hdev0 : Gui.dev s0 = Gui.dev state) by (unfold s0; destruct reply; reflexivity).
  assert (Hflag0 : Gui.is_connected s0 = true)
    by (unfold s0; destruct reply; exact Hflag).
  assert (Hser0 : Gui.serial_number s0 = Gui.serial_number state)
    by (unfold s0; destruct reply; reflexivity).
  assert (Hfw0 : Gui.fw_version s0 = Gui.fw_version state)
    by (unfold s0; destruct reply; reflexivity).
  destruct (sscanf_identity_shape (Gui.identity s0) EmptyString EmptyString
              (Gui.serial_number s0) (Gui.fw_version s0))
    as (company & product & serial & fw & Hscan & Hco & Hpr & Hse & Hfw).
  set (sA := if rc =? 0 then
               match sscanf Gui.IDENTITY_FORMAT (Gui.identity s0)
                       [EmptyString; EmptyString; Gui.serial_number s0;
                        Gui.fw_version s0] with
               | [company; product; serial; fw] =>
                   Gui.with_identity (truncate 255 (company +:+ " " +:+ product))
                     (Gui.with_fw_version fw (Gui.with_serial_number serial s0))
               | _ => s0
               end
             else Gui.with_fw_version EmptyString
                    (Gui.with_serial_number EmptyString
                       (Gui.with_identity "Error: Failed to read IDN" s0))).
  assert (HdevA : Gui.dev sA = Gui.dev state).
  { unfold sA. rewrite Hscan. destruct (rc =? 0); exact Hdev0. }
  assert (HflagA : Gui.is_connected sA = true).
  { unfold sA. rewrite Hscan. destruct (rc =? 0); exact Hflag0. }
  set (w1' := record (Delay 100) (tick 100 w1)).
  assert (HcA : connected w1' (Gui.dev sA) port)
    by (rewrite HdevA; apply delay_connected; exact Hc1).
  destruct (update_device_status_run P time sA w1' port HflagA HcA)
    as (state' & w' & Hrun' & Hp' & Hd' & _ & Hn' & _ & Hst).
  destruct Hst as (_ & _ & _ & _ & _ & Hid & Hser & Hfwv & _).
  exists state', w'. split; [exact Hrun|]. split; [exact Hrun'|].
  simpl in Hp', Hd', Hn'.
  split; [congruence|]. split; [congruence|]. split; [lia|].
  rewrite Hid, Hser, Hfwv.
  assert (Hcompany : (String.length company <= 63)%nat)
    by (destruct Hco as [-> | H]; [simpl; lia | exact H]).
  assert (Hproduct : (String.length product <= 63)%nat)
    by (destruct Hpr as [-> | H]; [simpl; lia | exact H]).
  split.
  - intros Hne. unfold sA. destruct (rc =? 0) eqn:E; [apply Z.eqb_eq in E; congruence|].
    repeat split.
  - intros ->. unfold sA. cbn [Z.eqb].
    split; [|split; [|split; [|split]]].
    + rewrite Hscan. fields.
      destruct (display_identity company product Hcompany Hproduct) as [-> H]. exact H.
    + rewrite Hscan. fields. rewrite <- Hser0. apply (kept_or_short _ _ 63 Hse).
    + rewrite Hscan. fields. rewrite <- Hfw0. apply (kept_or_short _ _ 63 Hfw).
    + intros c p s f Hfc Hfp Hfs Hff ->. unfold s0.
      cbn [Gui.identity Gui.with_identity].
      rewrite (sscanf_identity_exact c p s f); try assumption. fields.
      destruct Hfc as (_ & _ & Hlc). destruct Hfp as (_ & _ & Hlp).
      destruct (display_identity c p Hlc Hlp) as [-> _]. auto.
    + intros c p Hfc Hfp ->. unfold s0.
      cbn [Gui.identity Gui.with_identity].
      rewrite (sscanf_identity_short c p); try assumption. fields.
      destruct Hfc as (_ & _ & Hlc). destruct Hfp as (_ & _ & Hlp).
      destruct (display_identity c p Hlc Hlp) as [-> _]. auto.
Qed.

End GuiIdentity.

(** ** The status report of cli.c *)

Lemma sscanf_skip_step (format : list directive) (field rest : string)
    (outs : list string) :
  field <> EmptyString ->
  every not_comma field = true ->
  rest = EmptyString \/ (exists r, rest = String "," r) ->
  sscanf (NotComma None false :: format) (field +:+ rest) outs = sscanf format rest outs.
Proof.
  intros Hne Hev Hrest. cbn [sscanf].
  rewrite (scan_field_exact field rest _ Hev); [|rewrite length_append; lia | exact Hrest].
  cbn [fst snd]. destruct field; [congruence | reflexivity].
Qed.

Lemma forall2_two {A} (R : A -> A -> Prop) (l : list A) (a b : A) :
  Forall2 R l [a; b] -> exists x1 x2, l = [x1; x2] /\ R x1 a /\ R x2 b.
Proof.
  intros H.
  destruct l as [|x1 [|x2 [|x3 l]]];
    repeat match goal with
           | H : Forall2 _ _ _ |- _ => inversion H; clear H; subst
           end.
  exists x1, x2. auto.
Qed.

Lemma status_format_widths : widths_within 63 Cli.STATUS_FORMAT.
Proof. cbn. repeat split; lia. Qed.

(** X22. The serial number and firmware version of the status report.
    Whatever the identity buffer holds, each of the two is [N/A] or a
    string of at most 63 characters, so neither array of 64 is overrun.
    From an identity of four well-formed fields they are the third and
    the fourth, through company and product fields of any length; from
    the initial [N/A] of a failed read they stay [N/A]. *)
Theorem cli_status_fields :
  (forall identity, exists serial fw,
      Cli.status_fields identity = [serial; fw]
      /\ strlen serial <= 63 /\ strlen fw <= 63)
  /\ (forall c p s f,
        c <> EmptyString -> every not_comma c = true ->
        p <> EmptyString -> every not_comma p = true ->
        identity_field s -> identity_word f ->
        Cli.status_fields (c +:+ "," +:+ p +:+ "," +:+ s +:+ "," +:+ f) = [s; f])
  /\ Cli.status_fields "N/A" = ["N/A"; "N/A"].
Proof.
  split; [|split].
  - intros identity.
    destruct (forall2_two _ _ _ _
                (sscanf_bounded 63 Cli.STATUS_FORMAT identity ["N/A"; "N/A"]
                   status_format_widths))
      as (serial & fw & Hscan & Hs & Hf).
    exists serial, fw. split; [exact Hscan|].
    split; [destruct Hs as [-> | Hs] | destruct Hf as [-> | Hf]];
      unfold strlen; simpl; lia.
  - intros c p s f Hc1 Hc2 Hp1 Hp2 (Hs1 & Hs2 & Hs3) (Hf1 & Hf2 & Hf3).
    unfold Cli.status_fields, Cli.STATUS_FORMAT.
    rewrite sscanf_skip_step; auto; [|right; eexists; rewrite append_cons; reflexivity].
    rewrite sscanf_comma_step.
    rewrite sscanf_skip_step; auto; [|right; eexists; rewrite append_cons; reflexivity].
    rewrite sscanf_comma_step.
    rewrite sscanf_field_step; auto; [|right; eexists; rewrite append_cons; reflexivity].
    f_equal. rewrite sscanf_comma_step.
    destruct (every_no_edge_space f Hf2) as [Hfirst _]. cbn [sscanf].
    rewrite (skip_space_no_space f Hfirst), (scan_word_exact f 63 Hf2 Hf3). cbn [fst snd].
    destruct f; [congruence | reflexivity].
  - reflexivity.
Qed.

(** ** The further properties on concrete devices *)

Lemma trim_whitespace_recovers_padded_witness :
  all_space " " = true
  /\ all_space COMMAND_TERMINATOR = true
  /\ first_is_space "12.5" = false
  /\ last_is_space "12.5" = false
  /\ trim_whitespace (" " +:+ "12.5" +:+ COMMAND_TERMINATOR) = "12.5".
Proof.
  repeat (split; [reflexivity|]).
  exact (proj1 (trim_whitespace_recovers_padded " " "12.5" COMMAND_TERMINATOR
                  eq_refl eq_refl eq_refl eq_refl)).
Defined.

Lemma atoi_format_d_witness :
  INT_MIN <= -42 <= INT_MAX
  /\ atoi silent_device (format_d (-42)) = -42
  /\ decimal_prefix (format_d (-42)) = -42.
Proof.
  assert (H : INT_MIN <= -42 <= INT_MAX) by (unfold INT_MIN, INT_MAX; lia).
  split; [exact H|]. exact (atoi_format_d silent_device (-42) H).
Defined.

Lemma power_level_round_trip_witness :
  connected (connected_world power_device) (handle power_device) 1
  /\ INT_MIN <= 7 <= INT_MAX
  /\ all_space " " = true
  /\ all_space COMMAND_TERMINATOR = true
  /\ (String.length (" " +:+ format_d 7 +:+ COMMAND_TERMINATOR) <= 15)%nat
  /\ write_complete "PWR?" (line power_device (written (connected_world power_device))) = true
  /\ rd (line power_device (written (connected_world power_device)))
     = RdBytes (" " +:+ format_d 7 +:+ COMMAND_TERMINATOR)
  /\ exists w',
       budc_get_power_level power_device (handle power_device) 0
         (connected_world power_device)
       = Done (0, 7) w'
       /\ count_writes (log w') = S (count_writes (log (connected_world power_device))).
Proof.
  assert (H : INT_MIN <= 7 <= INT_MAX) by (unfold INT_MIN, INT_MAX; lia).
  assert (Hlen : (String.length (" " +:+ format_d 7 +:+ COMMAND_TERMINATOR) <= 15)%nat)
    by (vm_compute; lia).
  split; [apply scripted_connected|]. split; [exact H|].
  split; [reflexivity|]. split; [reflexivity|]. split; [exact Hlen|].
  split; [reflexivity|]. split; [reflexivity|].
  exact (power_level_round_trip power_device (connected_world power_device)
           (handle power_device) 1%positive 7 0 " " COMMAND_TERMINATOR
           (scripted_connected _) H eq_refl eq_refl Hlen eq_refl eq_refl).
Defined.

Lemma setters_write_once_witness :
  connected (connected_world silent_device) (handle silent_device) 1
  /\ setter_law silent_device (budc_set_power_level silent_device (handle silent_device) 12)
       ("PWR " +:+ format_d 12) 1 (connected_world silent_device).
Proof.
  split; [apply scripted_connected|].
  exact (proj1 (proj1 (proj2 (proj2
           (setters_write_once silent_device (connected_world silent_device)
              (handle silent_device) 1%positive (scripted_connected _)))) 12)).
Defined.

Lemma unconnected_handle_fails_witness :
  unconnected boot None
  /\ budc_get_temperature_c silent_device None (float_of_Z 25) boot
     = Done (-1, float_of_Z 25) (after_delays 5 250 boot)
  /\ budc_preset silent_device None boot = Done (-1) boot.
Proof.
  assert (H : unconnected boot None) by (left; reflexivity).
  split; [exact H|].
  pose proof (unconnected_handle_fails silent_device boot None H)
    as (_ & _ & Hpreset & _ & _ & _ & _ & _ & _ & Htemp & _).
  split; [apply Htemp | exact Hpreset].
Defined.

Lemma getters_return_within_budget_witness :
  connected (connected_world silent_device) (handle silent_device) 1
  /\ bounded_call (budc_get_temperature_c silent_device (handle silent_device) S754_nan) 5
       (5 * (SEND_BUDGET_MS silent_device + 250)) (handle silent_device) 1
       (connected_world silent_device).
Proof.
  split; [apply scripted_connected|].
  exact (proj2 (proj2 (proj2 (proj2
           (getters_return_within_budget silent_device (connected_world silent_device)
              (handle silent_device) 1%positive (scripted_connected _))))) S754_nan).
Defined.

Lemma getters_sleep_after_last_failure_witness :
  connected (connected_world silent_device) (handle silent_device) 1
  /\ exists out w' l,
       budc_get_lock_status silent_device (handle silent_device) true
         (connected_world silent_device)
       = Done (-1, out) w'
       /\ log w' = (l ++ [Delay 100])%list
       /\ now (connected_world silent_device) + Z.of_nat 3 * 100 <= now w'.
Proof.
  split; [apply scripted_connected|].
  apply (proj1 (proj2 (proj2
           (getters_sleep_after_last_failure silent_device (connected_world silent_device)
              (handle silent_device) 1%positive (scripted_connected _)))) true).
  intros j Hj. destruct j as [|[|[|j]]]; reflexivity.
Defined.

Lemma numeric_getters_take_first_reply_witness :
  connected (connected_world third_time_lucky) (handle third_time_lucky) 1
  /\ (1 <= 3 <= 3)%nat
  /\ exists w',
       budc_get_power_level third_time_lucky (handle third_time_lucky) 0
         (connected_world third_time_lucky)
       = Done (0, atoi third_time_lucky "1") w'.
Proof.
  split; [apply scripted_connected|]. split; [lia|].
  apply (proj2 (numeric_getters_take_first_reply third_time_lucky
                  (connected_world third_time_lucky) (handle third_time_lucky)
                  1%positive 3 "1" (scripted_connected _) ltac:(lia)) 0).
  - intros j Hj. destruct j as [|[|j]]; try reflexivity. lia.
  - reflexivity.
Defined.

Lemma identity_buffer_after_call_witness :
  connected (connected_world identity_device) (handle identity_device) 1
  /\ exists w',
       budc_get_identity identity_device (handle identity_device) (Some "N/A") 256
         (connected_world identity_device)
       = Done (0, Some "ACME,BUDC,SN0042,1.2") w'.
Proof.
  split; [apply scripted_connected|].
  apply (proj1 (identity_buffer_after_call identity_device (connected_world identity_device)
                  (handle identity_device) 1%positive "N/A" 256 (scripted_connected _))
           1%nat "ACME,BUDC,SN0042,1.2").
  - lia.
  - intros j Hj. lia.
  - reflexivity.
  - vm_compute. reflexivity.
Defined.

Lemma scripted_windows_connected (script : list exchange) :
  connected (connected_world (scripted_windows script)) (handle (scripted_windows script)) 1.
Proof.
  exists 1%positive.
  exists {| port_name := "/dev/ttyACM0"; opened := true;
            applied := [Baudrate 9600; Bits 8; ParityNone; Stopbits 1;
                        FlowcontrolNone; DtrOn; RtsOn] |}.
  repeat split; vm_compute; reflexivity.
Qed.

Lemma scripted_windows_elapsed (script : list exchange) :
  follows_elapsed_time (scripted_windows script).
Proof. intros ms k. simpl. lia. Qed.

Lemma scripted_windows_share (script : list exchange) :
  processor_share (scripted_windows script) 1.
Proof. intros ms k ms' k' H. simpl. lia. Qed.

Lemma scripted_share (script : list exchange) : processor_share (scripted script) 50.
Proof. intros ms k ms' k' H. simpl. lia. Qed.





(** The lower bound is met: the call can return at the very millisecond
    the timeout has elapsed, the product in binary64 being above 2007
    when 2007 ms have passed. *)
Example wait_for_lock_at_the_deadline :
  exists w',
    budc_wait_for_lock punctual_windows 20 (handle punctual_windows) 2007
      (connected_world punctual_windows)
    = Done (-1) w'
    /\ now w' - now (connected_world punctual_windows) = 2007.
Proof. eexists. split; vm_compute; reflexivity. Qed.

(** The comparison is strict: with a timeout of 121 ms the poll that
    looks at the clock 121 ms after the start does not end the wait, the
    product being 121 in binary64 as well; the next poll does, 442 ms
    after the start. *)
Example wait_for_lock_polls_on_at_the_deadline :
  exists w',
    budc_wait_for_lock punctual_windows 20 (handle punctual_windows) 121
      (connected_world punctual_windows)
    = Done (-1) w'
    /\ now w' - now (connected_world punctual_windows) = 442.
Proof. eexists. split; vm_compute; reflexivity. Qed.

(** On the simulated POSIX platform, whose [clock()] advances by 20
    microseconds of processor time in each millisecond, a wait of 1000 ms
    against a silent device ends after 52054 ms and 54 lock queries. *)
Example wait_for_lock_on_processor_time :
  exists w',
    budc_wait_for_lock silent_device 30 (handle silent_device) 1000
      (connected_world silent_device)
    = Done (-1) w'
    /\ now w' - now (connected_world silent_device) = 52054
    /\ count_writes (log w') = 54%nat.
Proof. eexists. split; [|split]; vm_compute; reflexivity. Qed.


Lemma wait_for_lock_succeeds_witness :
  let W := connected_world late_lock_windows in
  connected W (handle late_lock_windows) 1
  /\ processor_share late_lock_windows 1
  /\ Z.pos (clocks_per_ms late_lock_windows) <= 1000000
  /\ 0 <= 5000 < 2 ^ 32
  /\ (2 < 3)%nat
  /\ (forall j, (j < 2)%nat ->
        exists r, transport_reply "LOCK?" 16 (line late_lock_windows (written W + j))
                  = Some r
                  /\ (atoi late_lock_windows r =? 1) = false)
  /\ (exists r, transport_reply "LOCK?" 16 (line late_lock_windows (written W + 2))
                = Some r
                /\ (atoi late_lock_windows r =? 1) = true)
  /\ Z.of_nat 2 * (SEND_BUDGET_MS late_lock_windows + 200) <= 5000
  /\ exists w',
       budc_wait_for_lock late_lock_windows 3 (handle late_lock_windows) 5000 W = Done 0 w'
       /\ count_writes (log w') = (count_writes (log W) + 3)%nat.
Proof.
  intros W.
  assert (HT : 0 <= 5000 < 2 ^ 32) by (split; [lia | reflexivity]).
  assert (Hcpm : Z.pos (clocks_per_ms late_lock_windows) <= 1000000) by (simpl; lia).
  assert (Hnot : forall j, (j < 2)%nat ->
            exists r, transport_reply "LOCK?" 16 (line late_lock_windows (written W + j))
                      = Some r
                      /\ (atoi late_lock_windows r =? 1) = false).
  { intros j Hj. exists "0". destruct j as [|[|j]]; [split; reflexivity .. | lia]. }
  assert (Hlock : exists r, transport_reply "LOCK?" 16
                              (line late_lock_windows (written W + 2)) = Some r
                            /\ (atoi late_lock_windows r =? 1) = true)
    by (exists "1"; split; reflexivity).
  assert (Htime : Z.of_nat 2 * (SEND_BUDGET_MS late_lock_windows + 200) <= 5000)
    by (vm_compute; discriminate).
  split; [apply scripted_windows_connected|].
  split; [apply scripted_windows_share|].
  split; [exact Hcpm|]. split; [exact HT|]. split; [lia|].
  split; [exact Hnot|]. split; [exact Hlock|]. split; [exact Htime|].
  exact (wait_for_lock_succeeds late_lock_windows W (handle late_lock_windows) 1%positive
           5000 3 2 (scripted_windows_connected _) (scripted_windows_share _)
           Hcpm HT ltac:(lia) Hnot Hlock Htime).
Defined.

Lemma wait_for_lock_counts_processor_time_witness :
  let W := connected_world silent_device in
  let w' := world_of (budc_wait_for_lock silent_device 30 (handle silent_device) 1000 W) W in
  connected W (handle silent_device) 1
  /\ Z.pos (clocks_per_ms silent_device) <= 1000000
  /\ 0 <= 1000 < 2 ^ 32
  /\ 0 < 50
  /\ processor_share silent_device 50
  /\ budc_wait_for_lock silent_device 30 (handle silent_device) 1000 W = Done (-1) w'
  /\ 50 * (1000 - 1) < now w' - now W.
Proof.
  intros W w'.
  assert (HT : 0 <= 1000 < 2 ^ 32) by (split; [lia | reflexivity]).
  assert (Hcpm : Z.pos (clocks_per_ms silent_device) <= 1000000) by (simpl; lia).
  assert (Hrun : budc_wait_for_lock silent_device 30 (handle silent_device) 1000 W
                 = Done (-1) w') by (vm_compute; reflexivity).
  split; [apply scripted_connected|]. split; [exact Hcpm|]. split; [exact HT|].
  split; [lia|]. split; [apply scripted_share|]. split; [exact Hrun|].
  exact (wait_for_lock_counts_processor_time silent_device W (handle silent_device)
           1%positive 1000 50 30 w' (scripted_connected _) Hcpm HT ltac:(lia)
           (scripted_share _) Hrun).
Defined.


Lemma connect_success_witness :
  port_exists silent_device "/dev/ttyACM0" = true
  /\ open_ok silent_device "/dev/ttyACM0" = true
  /\ malloc_ok silent_device = true
  /\ budc_connect silent_device "/dev/ttyACM0" boot
     = Done (Some (fresh (dom (devs boot)))) (connected_after silent_device "/dev/ttyACM0" boot)
  /\ log (connected_after silent_device "/dev/ttyACM0" boot)
     = connect_log "/dev/ttyACM0" (fresh (dom (ports boot))).
Proof.
  do 3 (split; [reflexivity|]).
  split; [|reflexivity].
  exact (proj1 (connect_success silent_device boot "/dev/ttyACM0" eq_refl eq_refl eq_refl)).
Defined.

Lemma connect_disconnect_round_trip_witness :
  port_exists fixed_line "/dev/ttyACM0" = true
  /\ open_ok fixed_line "/dev/ttyACM0" = true
  /\ malloc_ok fixed_line = true
  /\ exists d port w' w'',
       budc_connect fixed_line "/dev/ttyACM0" boot = Done (Some d) w'
       /\ budc_disconnect (Some d) w' = Done tt w''
       /\ ports w'' = ports boot /\ devs w'' = devs boot
       /\ log w'' = (log w' ++ [Close port; FreePort port; Free d])%list
       /\ now w'' = now w'.
Proof.
  do 3 (split; [reflexivity|]).
  exact (connect_disconnect_round_trip fixed_line boot "/dev/ttyACM0"
           eq_refl eq_refl eq_refl).
Defined.

Lemma cli_without_port_touches_nothing_witness :
  ~ In "--port" (tl ["budc_cli"; "--status"; "--freq"; "5.5"])
  /\ ~ In "--list" (tl ["budc_cli"; "--status"; "--freq"; "5.5"])
  /\ Cli.main silent_device two_ports stack_junk 0 ["budc_cli"; "--status"; "--freq"; "5.5"] boot
     = Done 0 boot.
Proof.
  assert (Hp : ~ In "--port" (tl ["budc_cli"; "--status"; "--freq"; "5.5"]))
    by (simpl; intros [H | [H | [H | []]]]; discriminate H).
  assert (Hl : ~ In "--list" (tl ["budc_cli"; "--status"; "--freq"; "5.5"]))
    by (simpl; intros [H | [H | [H | []]]]; discriminate H).
  split; [exact Hp|]. split; [exact Hl|].
  exact (cli_without_port_touches_nothing silent_device two_ports stack_junk 0 _ boot Hp Hl).
Defined.

Lemma cli_always_disconnects_witness :
  (CLI_POLLS <= 30)%nat
  /\ (~ In "--wait-lock"
          (tl ["budc_cli"; "--port"; "COM3"; "--freq"; "5.5"; "--wait-lock"])
      \/ (follows_elapsed_time silent_windows
          /\ Z.pos (clocks_per_ms silent_windows) <= 1000000))
  /\ exists status w',
       Cli.main silent_windows two_ports stack_junk 30
         ["budc_cli"; "--port"; "COM3"; "--freq"; "5.5"; "--wait-lock"] boot
       = Done status w'
       /\ (status = 0 \/ status = 1)
       /\ ports w' = ports boot /\ devs w' = devs boot.
Proof.
  assert (H : (CLI_POLLS <= 30)%nat) by (unfold CLI_POLLS; lia).
  assert (Hclock : ~ In "--wait-lock"
                       (tl ["budc_cli"; "--port"; "COM3"; "--freq"; "5.5"; "--wait-lock"])
                   \/ (follows_elapsed_time silent_windows
                       /\ Z.pos (clocks_per_ms silent_windows) <= 1000000)).
  { right. split; [apply scripted_windows_elapsed | simpl; lia]. }
  split; [exact H|]. split; [exact Hclock|].
  exact (cli_always_disconnects silent_windows two_ports stack_junk 30 _ boot H Hclock).
Defined.

Lemma cli_reads_never_fail_witness :
  (CLI_POLLS <= 27)%nat
  /\ Forall (fun a => a = "--get-temp" \/ a = "--status") ["--status"; "--get-temp"]
  /\ exists w',
       Cli.main silent_device two_ports stack_junk 27
         ["budc_cli"; "--port"; "/dev/ttyACM0"; "--status"; "--get-temp"] boot
       = Done 0 w'.
Proof.
  assert (H : (CLI_POLLS <= 27)%nat) by (unfold CLI_POLLS; lia).
  assert (Hall : Forall (fun a => a = "--get-temp" \/ a = "--status")
                   ["--status"; "--get-temp"])
    by (repeat constructor; auto).
  split; [exact H|]. split; [exact Hall|].
  exact (cli_reads_never_fail silent_device two_ports stack_junk 27 "budc_cli"
           "/dev/ttyACM0" _ boot H Hall).
Defined.

Lemma update_device_status_invariant_witness :
  Gui.is_connected (connected_state silent_device) = true
  /\ connected (connected_world silent_device) (Gui.dev (connected_state silent_device)) 1
  /\ exists state' w',
       Gui.update_device_status silent_device wall_clock (connected_state silent_device)
         (connected_world silent_device)
       = Done state' w'
       /\ status_refreshed (connected_state silent_device) state'.
Proof.
  split; [reflexivity|]. split; [apply (scripted_connected [])|].
  destruct (update_device_status_invariant silent_device wall_clock
              (connected_state silent_device) (connected_world silent_device) 1%positive
              eq_refl (scripted_connected []))
    as (state' & w' & Hrun & _ & _ & _ & _ & _ & Hst).
  exists state', w'. split; assumption.
Defined.

Lemma update_all_values_identity_witness :
  Gui.is_connected (connected_state identity_device) = true
  /\ connected (connected_world identity_device) (Gui.dev (connected_state identity_device)) 1
  /\ exists state' w',
       Gui.update_all_values identity_device wall_clock (connected_state identity_device)
         (connected_world identity_device)
       = Done state' w'
       /\ Gui.identity state' = "ACME BUDC"
       /\ Gui.serial_number state' = "SN0042"
       /\ Gui.fw_version state' = "1.2".
Proof.
  split; [reflexivity|]. split; [apply (scripted_connected _)|].
  destruct (update_all_values_identity identity_device wall_clock
              (connected_state identity_device) (connected_world identity_device) 1%positive
              eq_refl (scripted_connected _))
    as (rc & reply & w1 & state' & w' & Hget & Hrun & _ & _ & _ & _ & Hok).
  exists state', w'. split; [exact Hrun|].
  vm_compute in Hget. injection Hget as Hrc Hreply _.
  apply (proj1 (proj2 (proj2 (proj2 (Hok (eq_sym Hrc))))) "ACME" "BUDC" "SN0042" "1.2");
    try (split; [discriminate | split; [reflexivity | simpl; lia]]).
  symmetry. exact Hreply.
Defined.
